(** * PhoneAgent: the telephony / realtime-model relay of [custom-phone-agent.py]

    A shallow embedding of the relay endpoint [media_stream], of its two
    pump coroutines [twilio_to_openai] and [openai_to_twilio], of the
    post-processing functions [summarize_conversation] and
    [send_summary_email], and of the session registry [STREAMS_SETTINGS]
    written by [call_custom].

    Conventions of the embedding.
    - Python values that travel as JSON are values of [json]; Python's [None]
      is [JNull].  Numbers are integers: no path of the relay looks inside a
      number.
    - Python strings are [string]s (read bytewise).
    - A Python exception is a [Raise] in the [result] type; code that mutates
      the call's variables and may raise lives in the monad [M], whose state
      survives a [Raise] as Python's does.
    - Every call the relay makes on a socket or on an external service is
      recorded, in program order, in the [trace] of the call.
    - What the outside world decides (frames that arrive, handshakes and
      requests that fail, whether awaiting the close of the model socket lets
      the event loop run) is read from a [world]. *)

From Stdlib Require Import ZArith String Ascii List Bool Lia.
From stdpp Require Import gmap strings.
Import ListNotations.

#[local] Set Warnings "-register-all".
#[local] Open Scope string_scope.
#[local] Open Scope Z_scope.

(** ** Python values and exceptions *)

Module Py.

Inductive json : Type :=
| JNull
| JBool (b : bool)
| JNum (z : Z)
| JStr (s : string)
| JArr (l : list json)
| JObj (kvs : list (string * json)).

Inductive exn : Type :=
| KeyError
| TypeError
| AttributeError
| ValueError
| IndexError
| JSONDecodeError
| BinasciiError
| ConnectionError
| APIError.

Inductive result (A : Type) : Type :=
| Ok (a : A)
| Raise (e : exn).
Arguments Ok {A} a.
Arguments Raise {A} e.

(** [kvs[k]] on the key/value pairs of a dict. *)
Fixpoint assoc (k : string) (kvs : list (string * json)) : option json :=
  match kvs with
  | [] => None
  | (k', v) :: rest => if String.eqb k k' then Some v else assoc k rest
  end.

(** [d[k]]: [KeyError] on a dict without the key, [TypeError] on a value
    that is not a dict (a string key indexes nothing else). *)
Definition getitem (d : json) (k : string) : result json :=
  match d with
  | JObj kvs =>
      match assoc k kvs with
      | Some v => Ok v
      | None => Raise KeyError
      end
  | _ => Raise TypeError
  end.

(** [d.get(k)]: [None] on a dict without the key; only dicts have [get]. *)
Definition get (d : json) (k : string) : result json :=
  match d with
  | JObj kvs =>
      match assoc k kvs with
      | Some v => Ok v
      | None => Ok JNull
      end
  | _ => Raise AttributeError
  end.

(** [v == s] for a string literal [s]. *)
Definition eq_str (v : json) (s : string) : bool :=
  match v with
  | JStr s' => String.eqb s' s
  | _ => false
  end.

(** Truth value of [v], as [if v] and [not v] take it. *)
Definition truthy (v : json) : bool :=
  match v with
  | JNull => false
  | JBool b => b
  | JNum z => negb (z =? 0)
  | JStr s => negb (String.eqb s "")
  | JArr l => match l with [] => false | _ => true end
  | JObj kvs => match kvs with [] => false | _ => true end
  end.

(** [json.loads(raw)]: a frame is given as what [json.loads] makes of it,
    [None] when it is not JSON. *)
Definition json_loads (raw : option json) : result json :=
  match raw with
  | Some v => Ok v
  | None => Raise JSONDecodeError
  end.

(** Whitespace that [str.strip()] removes (the ASCII part of it). *)
Definition isspace (c : ascii) : bool :=
  let n := Z.of_N (N_of_ascii c) in
  ((9 <=? n) && (n <=? 13)) || ((28 <=? n) && (n <=? 32)).

Fixpoint lstrip (s : string) : string :=
  match s with
  | EmptyString => EmptyString
  | String c rest => if isspace c then lstrip rest else s
  end.

(** Removes trailing whitespace: a character is kept when something
    that is kept follows it, or when it is not whitespace. *)
Fixpoint rstrip (s : string) : string :=
  match s with
  | EmptyString => EmptyString
  | String c rest =>
      match rstrip rest with
      | EmptyString => if isspace c then EmptyString else String c EmptyString
      | kept => String c kept
      end
  end.

(** [s.strip()] *)
Definition strip (s : string) : string := rstrip (lstrip s).

(** [sep.join(l)] *)
Definition join (sep : string) (l : list string) : string := String.concat sep l.

End Py.
Export Py.

(** ** [base64.b64decode] and [base64.b64encode]

    Bytes are integers in [0, 256).  The decoder is the lenient scanner of
    the standard library ([binascii.a2b_base64] without [strict_mode], which
    is what [b64decode] calls when [validate] is not set): characters
    outside the alphabet are skipped, decoding stops at a complete pad
    sequence, and a dangling quad is an error.  The encoder emits one quad
    per three bytes and pads the last one (RFC 4648, section 4). *)

Module Base64.

Definition BASE64_PAD : ascii := "="%char.

Definition table_b2a_base64 : string :=
  "ABCDEFGHIJKLMNOPQRSTUVWXYZabcdefghijklmnopqrstuvwxyz0123456789+/".

(** [table_b2a_base64[n]] *)
Definition b2a (n : Z) : ascii :=
  match String.get (Z.to_nat n) table_b2a_base64 with
  | Some c => c
  | None => BASE64_PAD
  end.

(** [table_a2b_base64[c]]: the value of an alphabet character, [None] for
    every other character. *)
Definition a2b (c : ascii) : option Z :=
  let n := Z.of_N (N_of_ascii c) in
  if (65 <=? n) && (n <=? 90) then Some (n - 65)
  else if (97 <=? n) && (n <=? 122) then Some (n - 71)
  else if (48 <=? n) && (n <=? 57) then Some (n + 4)
  else if n =? 43 then Some 62
  else if n =? 47 then Some 63
  else None.

(** Assignment to an [unsigned char]. *)
Definition u8 (x : Z) : Z := Z.land x 255.

(** The scanning loop of [a2b_base64].  [quad_pos] counts the alphabet
    characters of the current quad, [leftchar] holds the bits not yet
    written, [pads] counts the pad characters seen since the last alphabet
    character (it is only counted once [quad_pos >= 2]). *)
Fixpoint a2b_loop (s : list ascii) (quad_pos : nat) (leftchar pads : Z)
  : result (list Z) :=
  match s with
  | [] =>
      match quad_pos with
      | O => Ok []
      | _ => Raise BinasciiError
      end
  | this_ch :: rest =>
      if Ascii.eqb this_ch BASE64_PAD then
        if (2 <=? quad_pos)%nat then
          if 4 <=? Z.of_nat quad_pos + (pads + 1) then Ok []
          else a2b_loop rest quad_pos leftchar (pads + 1)
        else a2b_loop rest quad_pos leftchar pads
      else
        match a2b this_ch with
        | None => a2b_loop rest quad_pos leftchar pads
        | Some v =>
            match quad_pos with
            | 0%nat => a2b_loop rest 1 v 0
            | 1%nat =>
                match a2b_loop rest 2 (Z.land v 15) 0 with
                | Ok out => Ok (u8 (Z.lor (Z.shiftl leftchar 2) (Z.shiftr v 4)) :: out)
                | Raise e => Raise e
                end
            | 2%nat =>
                match a2b_loop rest 3 (Z.land v 3) 0 with
                | Ok out => Ok (u8 (Z.lor (Z.shiftl leftchar 4) (Z.shiftr v 2)) :: out)
                | Raise e => Raise e
                end
            | _ =>
                match a2b_loop rest 0 0 0 with
                | Ok out => Ok (u8 (Z.lor (Z.shiftl leftchar 6) v) :: out)
                | Raise e => Raise e
                end
            end
        end
  end.

Definition a2b_base64 (s : list ascii) : result (list Z) := a2b_loop s 0 0 0.

(** A [str] argument must be ASCII ([ValueError] otherwise). *)
Definition is_ascii (c : ascii) : bool := (N_of_ascii c <? 128)%N.

(** [base64.b64decode(s)] for a string [s]. *)
Definition b64decode_str (s : string) : result (list Z) :=
  let cs := list_ascii_of_string s in
  if forallb is_ascii cs then a2b_base64 cs else Raise ValueError.

(** [base64.b64decode(v)] for a JSON value: only a string can be decoded. *)
Definition b64decode (v : json) : result (list Z) :=
  match v with
  | JStr s => b64decode_str s
  | _ => Raise TypeError
  end.

(** [binascii.b2a_base64(bs, newline=False)] *)
Fixpoint b2a_base64 (bs : list Z) : list ascii :=
  match bs with
  | [] => []
  | [b1] =>
      [b2a (Z.shiftr b1 2); b2a (Z.shiftl (Z.land b1 3) 4); BASE64_PAD; BASE64_PAD]
  | [b1; b2] =>
      [b2a (Z.shiftr b1 2);
       b2a (Z.lor (Z.shiftl (Z.land b1 3) 4) (Z.shiftr b2 4));
       b2a (Z.shiftl (Z.land b2 15) 2);
       BASE64_PAD]
  | b1 :: b2 :: b3 :: rest =>
      b2a (Z.shiftr b1 2)
      :: b2a (Z.lor (Z.shiftl (Z.land b1 3) 4) (Z.shiftr b2 4))
      :: b2a (Z.lor (Z.shiftl (Z.land b2 15) 2) (Z.shiftr b3 6))
      :: b2a (Z.land b3 63)
      :: b2a_base64 rest
  end.

(** [base64.b64encode(bs).decode("utf-8")] *)
Definition b64encode (bs : list Z) : string :=
  string_of_list_ascii (b2a_base64 bs).

Definition is_byte (b : Z) : Prop := 0 <= b < 256.

(** The integers [0 .. n-1], to check a fact about bytes or sextets on
    each of them. *)
Definition below (n : nat) : list Z := map Z.of_nat (seq 0 n).

End Base64.
Export Base64.

(** ** The call: tasks, recorded actions, the outside world *)

Module Relay.

(** The two pump tasks of a call: [t1] runs [twilio_to_openai], [t2] runs
    [openai_to_twilio]. *)
Inductive task : Type := t1 | t2.

(** A task is [Running] from [asyncio.create_task] until its coroutine
    returns ([Done]).  [cancel()] only requests the cancellation
    ([CancelRequested]): the task stops ([Cancelled]) when the event loop
    next runs it and throws [CancelledError] into it. *)
Inductive task_status : Type :=
| NotCreated
| Running
| Done
| CancelRequested
| Cancelled.

Inductive action : Type :=
| WsClose                                  (* await ws.close() *)
| WsAccept                                 (* await ws.accept() *)
| OpenaiConnect                            (* await websockets.connect(...) *)
| OpenaiSend (msg : json)                  (* await openai_ws.send(json.dumps(msg)) *)
| WsSendJson (msg : json)                  (* await ws.send_json(msg) *)
| CreateTask (t : task)                    (* asyncio.create_task *)
| TaskDone (t : task)                      (* the coroutine of t returned *)
| TaskCancel (t : task)                    (* t.cancel() *)
| TaskCancelled (t : task)                 (* CancelledError stopped t *)
| OpenaiClose                              (* await openai_ws.close() *)
| SummarizeConversation (conv : string)    (* summarize_conversation(conv) entered *)
| ChatCompletionsCreate (model : string) (messages : list (string * string))
| SendSummaryEmail (to_email summary : string)  (* send_summary_email entered *)
| SendgridSend (from_email to_email template_id summary : string).

(** What reaches the pumps, in arrival order. *)
Inductive arrival : Type :=
| TwilioText (raw : option json)    (* next item of ws.iter_text() *)
| TwilioDisconnect                  (* ws.iter_text() ends or raises *)
| OpenaiMessage (raw : option json) (* next item of openai_ws *)
| OpenaiClosed.                     (* iteration over openai_ws ends or raises *)

(** [arrivals] are the frames the pumps handle before the relay resumes
    from [asyncio.wait]; if they leave both pumps running, the socket of
    [last_close] closes next.  [close_yields] tells whether awaiting
    [openai_ws.close()] suspends the relay, which is the only point after
    the [cancel()] where the event loop can run a cancelled pump.  [llm] is
    the outcome of the chat-completion request: an exception, or the
    [message.content] of each of [resp.choices]. *)
Record world : Type := {
  handshake_ok : bool;
  arrivals : list arrival;
  last_close : task;
  close_yields : bool;
  llm : result (list (option string));
  sendgrid_raises : bool
}.

(** The environment variables read by [send_summary_email]. *)
Record environ : Type := {
  SENDGRID_API_KEY : option string;
  EMAIL_FROM : option string;
  SUMMARY_TEMPLATE_ID : option string
}.

(** Truth value of what [os.getenv] returned. *)
Definition env_truthy (v : option string) : bool :=
  match v with
  | Some s => negb (String.eqb s "")
  | None => false
  end.

(** [CallCustomRequest] *)
Record CallCustomRequest : Type := {
  phone_number : string;
  email : string;
  system_message : string;
  voice : string
}.

(** The dict that [call_custom] stores under a session id. *)
Record Settings : Type := {
  settings_system_message : string;
  settings_voice : string;
  settings_email : string
}.

(** The variables of one call of [media_stream] that its closures share,
    the status of its two tasks, and what it did so far. *)
Record call_state : Type := {
  stream_sid : json;
  transcript : list string;
  status1 : task_status;
  status2 : task_status;
  trace : list action
}.

Definition status (t : task) (st : call_state) : task_status :=
  match t with
  | t1 => status1 st
  | t2 => status2 st
  end.

Definition initial : call_state :=
  {| stream_sid := JNull; transcript := []; status1 := NotCreated;
     status2 := NotCreated; trace := [] |}.

(** *** The monad of the call: state that survives an exception *)

Definition M (A : Type) : Type := call_state -> result A * call_state.

Definition ret {A} (a : A) : M A := fun st => (Ok a, st).

Definition bind {A B} (m : M A) (k : A -> M B) : M B :=
  fun st =>
    match m st with
    | (Ok a, st') => k a st'
    | (Raise e, st') => (Raise e, st')
    end.

Definition raise {A} (e : exn) : M A := fun st => (Raise e, st).

Definition lift {A} (r : result A) : M A := fun st => (r, st).

(** [try: m  except Exception as e: h e] *)
Definition try_except {A} (m : M A) (h : exn -> M A) : M A :=
  fun st =>
    match m st with
    | (Ok a, st') => (Ok a, st')
    | (Raise e, st') => h e st'
    end.

Definition emit (a : action) : M unit :=
  fun st =>
    (Ok tt,
     {| stream_sid := stream_sid st; transcript := transcript st;
        status1 := status1 st; status2 := status2 st;
        trace := trace st ++ [a] |}).

Definition get_stream_sid : M json := fun st => (Ok (stream_sid st), st).

Definition set_stream_sid (sid : json) : M unit :=
  fun st =>
    (Ok tt,
     {| stream_sid := sid; transcript := transcript st;
        status1 := status1 st; status2 := status2 st; trace := trace st |}).

(** [transcript.append(line)] *)
Definition transcript_append (line : string) : M unit :=
  fun st =>
    (Ok tt,
     {| stream_sid := stream_sid st; transcript := transcript st ++ [line];
        status1 := status1 st; status2 := status2 st; trace := trace st |}).

Definition get_transcript : M (list string) := fun st => (Ok (transcript st), st).

Definition get_status (t : task) : M task_status := fun st => (Ok (status t st), st).

Definition set_status (t : task) (s : task_status) : M unit :=
  fun st =>
    (Ok tt,
     match t with
     | t1 => {| stream_sid := stream_sid st; transcript := transcript st;
                status1 := s; status2 := status2 st; trace := trace st |}
     | t2 => {| stream_sid := stream_sid st; transcript := transcript st;
                status1 := status1 st; status2 := s; trace := trace st |}
     end).

End Relay.
Export Relay.

Declare Scope call_scope.
Delimit Scope call_scope with call.
Bind Scope call_scope with M.
Notation "x <- c1 ;; c2" := (bind c1 (fun x => c2))
  (at level 100, c1 at next level, right associativity) : call_scope.
Notation "c1 ;; c2" := (bind c1 (fun _ => c2))
  (at level 100, right associativity) : call_scope.
#[local] Open Scope call_scope.

(** ** The code of the relay *)

(** The string ["\n"]. *)
Definition LF : string := String "010"%char EmptyString.

Section RelayCode.

(** Python's built-in [str()] on values that are not strings (numbers,
    booleans, [None], lists, dicts).  The relay never inspects what it
    renders; the function is left open. *)
Variable py_str : json -> string.

(** [f"{v}"]: a string is inserted as it is, any other value through
    [str()]. *)
Definition format_value (v : json) : string :=
  match v with
  | JStr s => s
  | _ => py_str v
  end.

(** Body of the loop of [twilio_to_openai], for one text frame. *)
Definition twilio_to_openai_frame (raw : option json) : M unit :=
  data <- lift (json_loads raw) ;;
  event <- lift (getitem data "event") ;;
  if eq_str event "start" then
    start <- lift (getitem data "start") ;;
    sid <- lift (getitem start "streamSid") ;;
    set_stream_sid sid
  else
    event <- lift (getitem data "event") ;;
    if eq_str event "media" then
      media <- lift (getitem data "media") ;;
      payload <- lift (getitem media "payload") ;;
      emit (OpenaiSend (JObj [("type", JStr "input_audio_buffer.append");
                              ("audio", payload)]))
    else ret tt.

(** The frame that [openai_to_twilio] sends to the telephony socket. *)
Definition media_frame (sid : json) (payload : string) : json :=
  JObj [("event", JStr "media");
        ("streamSid", sid);
        ("media", JObj [("payload", JStr payload)])].

(** Body of the loop of [openai_to_twilio], for one message. *)
Definition openai_to_twilio_frame (raw : option json) : M unit :=
  evt <- lift (json_loads raw) ;;
  ty <- lift (get evt "type") ;;
  (if eq_str ty "conversation.item.input_audio_transcription.completed" then
     text <- lift (getitem evt "transcript") ;;
     transcript_append ("user: " ++ format_value text)
   else ret tt) ;;
  ty <- lift (get evt "type") ;;
  (if eq_str ty "response.audio_transcript.done" then
     text <- lift (getitem evt "transcript") ;;
     transcript_append ("assistant: " ++ format_value text)
   else ret tt) ;;
  ty <- lift (get evt "type") ;;
  if eq_str ty "response.audio.delta" then
    delta <- lift (get evt "delta") ;;
    if truthy delta then
      delta <- lift (getitem evt "delta") ;;
      chunk <- lift (b64decode delta) ;;
      let payload := b64encode chunk in
      sid <- get_stream_sid ;;
      emit (WsSendJson (media_frame sid payload))
    else ret tt
  else ret tt.

(** The coroutine of [t] returns: its loop ended, or the [except Exception]
    around the loop caught what an iteration raised. *)
Definition finish (t : task) : M unit :=
  set_status t Done ;; emit (TaskDone t).

(** One iteration of [t], while it runs: an exception ends the task. *)
Definition iterate (t : task) (body : M unit) : M unit :=
  s <- get_status t ;;
  match s with
  | Running => try_except body (fun _ => finish t)
  | _ => ret tt
  end.

(** The end of the sequence that [t] iterates over. *)
Definition exhaust (t : task) : M unit :=
  s <- get_status t ;;
  match s with
  | Running => finish t
  | _ => ret tt
  end.

(** What one arrival makes the pumps do. *)
Definition pump (a : arrival) : M unit :=
  match a with
  | TwilioText raw => iterate t1 (twilio_to_openai_frame raw)
  | TwilioDisconnect => exhaust t1
  | OpenaiMessage raw => iterate t2 (openai_to_twilio_frame raw)
  | OpenaiClosed => exhaust t2
  end.

Fixpoint pumps (l : list arrival) : M unit :=
  match l with
  | [] => ret tt
  | a :: rest => pump a ;; pumps rest
  end.

(** [asyncio.wait({t1, t2}, return_when=asyncio.FIRST_COMPLETED)]: the
    relay resumes once a task is done. *)
Definition asyncio_wait (w : world) : M unit :=
  pumps (arrivals w) ;;
  s1 <- get_status t1 ;;
  s2 <- get_status t2 ;;
  match s1, s2 with
  | Running, Running => finish (last_close w)
  | _, _ => ret tt
  end.

(** [task.cancel()] on a task of [pending]. *)
Definition cancel_if_pending (t : task) : M unit :=
  s <- get_status t ;;
  match s with
  | Running => set_status t CancelRequested ;; emit (TaskCancel t)
  | _ => ret tt
  end.

(** The event loop runs [t]: a requested cancellation stops it. *)
Definition deliver_cancel (t : task) : M unit :=
  s <- get_status t ;;
  match s with
  | CancelRequested => set_status t Cancelled ;; emit (TaskCancelled t)
  | _ => ret tt
  end.

(** [try: await openai_ws.close()  except Exception: pass].  When the
    await suspends the relay, the event loop runs the other tasks. *)
Definition openai_close (w : world) : M unit :=
  emit OpenaiClose ;;
  if close_yields w then deliver_cancel t1 ;; deliver_cancel t2
  else ret tt.

Definition NO_CONTENT : string := "No conversation content to summarize.".

Definition SUMMARY_FAILED : string := "Sorry, I couldn't generate a summary.".

(** [resp.choices[0].message.content.strip()] *)
Definition first_content (choices : list (option string)) : result string :=
  match choices with
  | [] => Raise IndexError
  | None :: _ => Raise AttributeError
  | Some content :: _ => Ok (strip content)
  end.

(** The [messages] of the chat-completion request, as (role, content). *)
Definition summary_messages (conv : string) : list (string * string) :=
  [("system", "You are a concise summarizer.");
   ("user", "Summarize this call transcript in the language of the call:"
              ++ LF ++ LF ++ conv)].

(** [summarize_conversation(conv)] *)
Definition summarize_conversation (w : world) (conv : string) : M string :=
  emit (SummarizeConversation conv) ;;
  if String.eqb (strip conv) "" then ret NO_CONTENT
  else
    try_except
      (emit (ChatCompletionsCreate "gpt-4o-mini" (summary_messages conv)) ;;
       choices <- lift (llm w) ;;
       lift (first_content choices))
      (fun e => raise e).

(** [send_summary_email(to_email, summary)] *)
Definition send_summary_email (env : environ) (w : world)
    (to_email summary : string) : M unit :=
  emit (SendSummaryEmail to_email summary) ;;
  if negb (env_truthy (SENDGRID_API_KEY env))
     || negb (env_truthy (EMAIL_FROM env))
     || negb (env_truthy (SUMMARY_TEMPLATE_ID env))
  then ret tt
  else
    try_except
      (emit (SendgridSend (default "" (EMAIL_FROM env)) to_email
               (default "" (SUMMARY_TEMPLATE_ID env)) summary) ;;
       if sendgrid_raises w then raise ConnectionError else ret tt)
      (fun _ => ret tt).

(** The three messages that open the model session. *)
Definition session_update (settings : Settings) : json :=
  JObj [("type", JStr "session.update");
        ("session",
         JObj [("voice", JStr (settings_voice settings));
               ("instructions", JStr (settings_system_message settings));
               ("turn_detection", JObj [("type", JStr "server_vad")]);
               ("input_audio_format", JStr "g711_ulaw");
               ("output_audio_format", JStr "g711_ulaw");
               ("input_audio_transcription", JObj [("model", JStr "whisper-1")])])].

Definition greeting_item : json :=
  JObj [("type", JStr "conversation.item.create");
        ("item",
         JObj [("type", JStr "message");
               ("role", JStr "user");
               ("content",
                JArr [JObj [("type", JStr "input_text");
                            ("text", JStr "Please begin by greeting the user.")]])])].

Definition response_create : json := JObj [("type", JStr "response.create")].

(** [media_stream(ws, session_id)], with the registry it reads.  A dict
    stored by [call_custom] has three keys and so is true: [not settings]
    holds exactly when [STREAMS_SETTINGS.get] found nothing. *)
Definition media_stream (STREAMS_SETTINGS : gmap string Settings) (env : environ)
    (w : world) (session_id : string) : M unit :=
  match STREAMS_SETTINGS !! session_id with
  | None => emit WsClose
  | Some settings =>
      emit WsAccept ;;
      emit OpenaiConnect ;;
      if negb (handshake_ok w) then emit WsClose
      else
        emit (OpenaiSend (session_update settings)) ;;
        emit (OpenaiSend greeting_item) ;;
        emit (OpenaiSend response_create) ;;
        set_status t1 Running ;; emit (CreateTask t1) ;;
        set_status t2 Running ;; emit (CreateTask t2) ;;
        asyncio_wait w ;;
        cancel_if_pending t1 ;;
        cancel_if_pending t2 ;;
        openai_close w ;;
        lines <- get_transcript ;;
        let full_text := join LF lines in
        summary <- try_except (summarize_conversation w full_text)
                              (fun _ => ret SUMMARY_FAILED) ;;
        try_except (send_summary_email env w (settings_email settings) summary)
                   (fun _ => ret tt)
  end.

(** The call as the outside sees it: the state in which [media_stream]
    leaves its variables and its trace. *)
Definition run_media_stream (STREAMS_SETTINGS : gmap string Settings)
    (env : environ) (w : world) (session_id : string) : result unit * call_state :=
  media_stream STREAMS_SETTINGS env w session_id initial.

(** *** The server: the registry and the two endpoints *)

(** [call_custom(req)]; [session_id] is the [uuid.uuid4().hex] it draws. *)
Definition call_custom (req : CallCustomRequest) (session_id : string)
    (STREAMS_SETTINGS : gmap string Settings) : gmap string Settings :=
  <[session_id := {| settings_system_message := system_message req;
                     settings_voice := voice req;
                     settings_email := email req |}]> STREAMS_SETTINGS.

Inductive request : Type :=
| PostCallCustom (req : CallCustomRequest) (session_id : string)
| ConnectMediaStream (session_id : string) (w : world).

(** One request: the registry afterwards and what the relay did. *)
Definition handle (env : environ) (STREAMS_SETTINGS : gmap string Settings)
    (r : request) : gmap string Settings * list action :=
  match r with
  | PostCallCustom req session_id =>
      (call_custom req session_id STREAMS_SETTINGS, [])
  | ConnectMediaStream session_id w =>
      (STREAMS_SETTINGS,
       trace (snd (run_media_stream STREAMS_SETTINGS env w session_id)))
  end.

(** The registry after a sequence of requests. *)
Fixpoint serve (env : environ) (STREAMS_SETTINGS : gmap string Settings)
    (rs : list request) : gmap string Settings :=
  match rs with
  | [] => STREAMS_SETTINGS
  | r :: rest => serve env (fst (handle env STREAMS_SETTINGS r)) rest
  end.

End RelayCode.

(** ** Reading a trace and a list of arrivals *)

Section Observations.

Variable py_str : json -> string.

Definition task_eqb (t t' : task) : bool :=
  match t, t' with
  | t1, t1 | t2, t2 => true
  | _, _ => false
  end.

(** The actions of the summarize and notify stages. *)
Definition post_processing (a : action) : bool :=
  match a with
  | SummarizeConversation _ | ChatCompletionsCreate _ _
  | SendSummaryEmail _ _ | SendgridSend _ _ _ _ => true
  | _ => false
  end.

(** An action of the stages before. *)
Definition calm (a : action) : bool := negb (post_processing a).

(** How many actions of a trace satisfy [f]. *)
Definition count (f : action -> bool) (tr : list action) : nat :=
  length (List.filter f tr).

Definition is_summarize (a : action) : bool :=
  match a with
  | SummarizeConversation _ => true
  | _ => false
  end.

Definition is_notify (a : action) : bool :=
  match a with
  | SendSummaryEmail _ _ => true
  | _ => false
  end.

Definition is_llm_request (a : action) : bool :=
  match a with
  | ChatCompletionsCreate _ _ => true
  | _ => false
  end.

(** [a] shows that [t] has stopped: its coroutine returned, or the
    cancellation reached it. *)
Definition stops (t : task) (a : action) : bool :=
  match a with
  | TaskDone t' | TaskCancelled t' => task_eqb t t'
  | _ => false
  end.

(** [a] shows that [t] is done or was asked to stop. *)
Definition settles (t : task) (a : action) : bool :=
  match a with
  | TaskDone t' | TaskCancel t' => task_eqb t t'
  | _ => false
  end.

Definition is_task_done (a : action) : bool :=
  match a with
  | TaskDone _ => true
  | _ => false
  end.

(** Every action of the summarize and notify stages comes after both
    tasks have stopped. *)
Definition post_processing_after_stop (tr : list action) : Prop :=
  forall pre a post,
    tr = (pre ++ a :: post)%list ->
    post_processing a = true ->
    forall t, existsb (stops t) pre = true.

(** Every action of the summarize and notify stages comes after a task
    was done and after each task was done or asked to stop. *)
Definition post_processing_after_cancel (tr : list action) : Prop :=
  forall pre a post,
    tr = (pre ++ a :: post)%list ->
    post_processing a = true ->
    existsb is_task_done pre = true
    /\ forall t, existsb (settles t) pre = true.

(** The audio that an action appends to the model's input buffer. *)
Definition appended_audio (a : action) : list json :=
  match a with
  | OpenaiSend msg =>
      match getitem msg "type", getitem msg "audio" with
      | Ok ty, Ok audio =>
          if eq_str ty "input_audio_buffer.append" then [audio] else []
      | _, _ => []
      end
  | _ => []
  end.

(** The message by which [twilio_to_openai] forwards a payload. *)
Definition append_message (payload : json) : action :=
  OpenaiSend (JObj [("type", JStr "input_audio_buffer.append"); ("audio", payload)]).

(** The payload of a media frame sent to the telephony socket. *)
Definition media_payload (a : action) : list json :=
  match a with
  | WsSendJson msg =>
      match getitem msg "media" with
      | Ok media =>
          match getitem media "payload" with
          | Ok payload => [payload]
          | Raise _ => []
          end
      | Raise _ => []
      end
  | _ => []
  end.

(** The payload of an inbound [media] event. *)
Definition inbound_media (a : arrival) : list json :=
  match a with
  | TwilioText (Some data) =>
      match getitem data "event" with
      | Ok event =>
          if eq_str event "media" then
            match getitem data "media" with
            | Ok media =>
                match getitem media "payload" with
                | Ok payload => [payload]
                | Raise _ => []
                end
            | Raise _ => []
            end
          else []
      | Raise _ => []
      end
  | _ => []
  end.

(** The delta of a model [response.audio.delta] event that carries one. *)
Definition audio_delta_of (raw : option json) : list json :=
  match raw with
  | Some evt =>
      match get evt "type", get evt "delta" with
      | Ok ty, Ok delta =>
          if eq_str ty "response.audio.delta" && truthy delta then [delta] else []
      | _, _ => []
      end
  | None => []
  end.

Definition model_audio (a : arrival) : list json :=
  match a with
  | OpenaiMessage raw => audio_delta_of raw
  | _ => []
  end.

(** An inbound [start] event. *)
Definition is_start (a : arrival) : bool :=
  match a with
  | TwilioText (Some data) =>
      match getitem data "event" with
      | Ok event => eq_str event "start"
      | Raise _ => false
      end
  | _ => false
  end.

(** The transcript line of a completion event of the model. *)
Definition completion_line_of (raw : option json) : list string :=
  match raw with
  | Some evt =>
      match get evt "type", getitem evt "transcript" with
      | Ok ty, Ok text =>
          if eq_str ty "conversation.item.input_audio_transcription.completed"
          then ["user: " ++ format_value py_str text]
          else if eq_str ty "response.audio_transcript.done"
          then ["assistant: " ++ format_value py_str text]
          else []
      | _, _ => []
      end
  | None => []
  end.

Definition completion_line (a : arrival) : list string :=
  match a with
  | OpenaiMessage raw => completion_line_of raw
  | _ => []
  end.

Definition is_running (s : task_status) : bool :=
  match s with
  | Running => true
  | _ => false
  end.

(** A message to the model that appends audio to its input buffer. *)
Definition is_audio_append (msg : json) : bool :=
  match getitem msg "type" with
  | Ok ty => eq_str ty "input_audio_buffer.append"
  | Raise _ => false
  end.

(** What the pumps record: the audio they forward, and that they are done. *)
Definition pump_action (a : action) : bool :=
  match a with
  | OpenaiSend msg => is_audio_append msg
  | WsSendJson _ | TaskDone _ => true
  | _ => false
  end.

(** [a] sends nothing to the model, unless audio. *)
Definition sends_only_audio (a : action) : bool :=
  match a with
  | OpenaiSend msg => is_audio_append msg
  | _ => true
  end.

(** The call when [media_stream] has created its two tasks. *)
Definition streaming (settings : Settings) : call_state :=
  {| stream_sid := JNull;
     transcript := [];
     status1 := Running;
     status2 := Running;
     trace := [WsAccept; OpenaiConnect;
               OpenaiSend (session_update settings);
               OpenaiSend greeting_item;
               OpenaiSend response_create;
               CreateTask t1; CreateTask t2] |}.

(** [media_stream] from [asyncio.wait] to the close of the model socket. *)
Definition drain (w : world) : M unit :=
  asyncio_wait py_str w ;;
  cancel_if_pending t1 ;;
  cancel_if_pending t2 ;;
  openai_close w.

(** [media_stream] from the join of the transcript to its end. *)
Definition summarize_and_notify (env : environ) (w : world) (settings : Settings)
  : M unit :=
  lines <- get_transcript ;;
  let full_text := join LF lines in
  summary <- try_except (summarize_conversation w full_text)
                        (fun _ => ret SUMMARY_FAILED) ;;
  try_except (send_summary_email env w (settings_email settings) summary)
             (fun _ => ret tt).

(** What [media_stream] records between the pumps and the summary. *)
Definition teardown_action (a : action) : bool :=
  match a with
  | TaskDone _ | TaskCancel _ | TaskCancelled _ | OpenaiClose => true
  | _ => false
  end.

(** The outcome of the chat-completion request, as a summary. *)
Definition llm_summary (w : world) : result string :=
  match llm w with
  | Ok choices => first_content choices
  | Raise e => Raise e
  end.

(** The summary that [media_stream] ends up with for the text [conv]. *)
Definition summary_of (w : world) (conv : string) : string :=
  if String.eqb (strip conv) "" then NO_CONTENT
  else
    match llm_summary w with
    | Ok summary => summary
    | Raise _ => SUMMARY_FAILED
    end.

Definition configured (env : environ) : bool :=
  env_truthy (SENDGRID_API_KEY env)
  && env_truthy (EMAIL_FROM env)
  && env_truthy (SUMMARY_TEMPLATE_ID env).

(** What the summarize and notify stages record for the text [conv]. *)
Definition post_trace (env : environ) (w : world) (settings : Settings)
    (conv : string) : list action :=
  (SummarizeConversation conv
   :: (if String.eqb (strip conv) "" then []
       else [ChatCompletionsCreate "gpt-4o-mini" (summary_messages conv)])
   ++ SendSummaryEmail (settings_email settings) (summary_of w conv)
   :: (if configured env
       then [SendgridSend (default "" (EMAIL_FROM env)) (settings_email settings)
               (default "" (SUMMARY_TEMPLATE_ID env)) (summary_of w conv)]
       else []))%list.

(** The model pump still runs when the arrivals [pre] have been handled. *)
Definition model_pump_runs_after (pre : list arrival) (settings : Settings) : Prop :=
  status2 (snd (pumps py_str pre (streaming settings))) = Running.

(** Completion events of the model, as the model socket delivers them. *)
Inductive speaker : Type := user | assistant.

Definition completion_event (e : speaker * string) : arrival :=
  OpenaiMessage
    (Some (JObj [("type",
                  JStr (match fst e with
                        | user => "conversation.item.input_audio_transcription.completed"
                        | assistant => "response.audio_transcript.done"
                        end));
                 ("transcript", JStr (snd e))])).

(** ["<speaker>: <text>"] *)
Definition transcript_line (e : speaker * string) : string :=
  match fst e with
  | user => "user: " ++ snd e
  | assistant => "assistant: " ++ snd e
  end.

(** What handling the arrival [a] may do to the call: [d] is what it adds
    to the trace, [st'] the call afterwards. *)
Definition pump_effect (a : arrival) (st st' : call_state) (d : list action) : Prop :=
  trace st' = (trace st ++ d)%list
  /\ forallb pump_action d = true
  /\ (forall t, status t st' = status t st
                \/ (status t st = Running /\ status t st' = Done /\ In (TaskDone t) d))
  /\ flat_map appended_audio d =
     (if is_running (status1 st) then inbound_media a else [])
  /\ transcript st' =
     (transcript st ++ (if is_running (status2 st) then completion_line a else []))%list
  /\ (is_start a = false -> stream_sid st' = stream_sid st)
  /\ (flat_map media_payload d = []
      \/ exists delta chunk,
           model_audio a = [delta]
           /\ b64decode delta = Ok chunk
           /\ d = [WsSendJson (media_frame (stream_sid st) (b64encode chunk))])
  /\ (status2 st = Running -> status2 st' = Running ->
      flat_map media_payload d = [] -> model_audio a = []).

(** The forwarded payload and the payload it comes from decode, and to the
    same bytes. *)
Definition same_audio (forwarded original : json) : Prop :=
  exists chunk, b64decode original = Ok chunk /\ b64decode forwarded = Ok chunk.

(** What handling the arrivals [l] may do to the call. *)
Definition pumps_effect (l : list arrival) (st st' : call_state) (d : list action) : Prop :=
  trace st' = (trace st ++ d)%list
  /\ forallb pump_action d = true
  /\ (forall t, status t st' = status t st
                \/ (status t st = Running /\ status t st' = Done /\ In (TaskDone t) d))
  /\ flat_map appended_audio d `prefix_of` flat_map inbound_media l
  /\ (exists lines,
        transcript st' = (transcript st ++ lines)%list
        /\ lines `prefix_of` flat_map completion_line l
        /\ (status2 st <> Running -> lines = []))
  /\ (Forall (fun a => is_start a = false) l -> stream_sid st' = stream_sid st)
  /\ (exists originals,
        originals `prefix_of` flat_map model_audio l
        /\ Forall2 same_audio (flat_map media_payload d) originals)
  /\ (status1 st <> Running -> flat_map appended_audio d = [])
  /\ (status2 st <> Running -> flat_map media_payload d = []).

End Observations.

(** ** Worked calls *)

Module Examples.

(** A [str()] for the worked calls, whose events carry strings only:
    [None] and the booleans as Python prints them; numbers and containers,
    which no worked call formats, as an ellipsis. *)
Definition str_atom (v : json) : string :=
  match v with
  | JNull => "None"
  | JBool true => "True"
  | JBool false => "False"
  | JStr s => s
  | _ => "..."
  end.

Definition env_full : environ :=
  {| SENDGRID_API_KEY := Some "SG.key";
     EMAIL_FROM := Some "agent@example.com";
     SUMMARY_TEMPLATE_ID := Some "d-1234" |}.

Definition env_unset : environ :=
  {| SENDGRID_API_KEY := None; EMAIL_FROM := None; SUMMARY_TEMPLATE_ID := None |}.

Definition req_abc : CallCustomRequest :=
  {| phone_number := "+15550100";
     email := "a@example.com";
     system_message := "Be friendly";
     voice := "alloy" |}.

(** The registry after one [call_custom] that drew ["abc123"]. *)
Definition registry_abc : gmap string Settings := call_custom req_abc "abc123" ∅.

Definition settings_abc : Settings :=
  {| settings_system_message := "Be friendly";
     settings_voice := "alloy";
     settings_email := "a@example.com" |}.

Definition start_frame (sid : string) : arrival :=
  TwilioText (Some (JObj [("event", JStr "start");
                          ("start", JObj [("streamSid", JStr sid)])])).

Definition media_in (payload : string) : arrival :=
  TwilioText (Some (JObj [("event", JStr "media");
                          ("media", JObj [("payload", JStr payload)])])).

Definition user_said (text : string) : arrival :=
  OpenaiMessage
    (Some (JObj [("type", JStr "conversation.item.input_audio_transcription.completed");
                 ("transcript", JStr text)])).

Definition assistant_said (text : string) : arrival :=
  OpenaiMessage
    (Some (JObj [("type", JStr "response.audio_transcript.done");
                 ("transcript", JStr text)])).

Definition audio_delta (delta : string) : arrival :=
  OpenaiMessage
    (Some (JObj [("type", JStr "response.audio.delta"); ("delta", JStr delta)])).

(** [start], two [media] frames, then the telephony socket closes: nothing
    was said. *)
Definition world_silent : world :=
  {| handshake_ok := true;
     arrivals := [start_frame "MZ1"; media_in "SGVsbG8="; media_in "d29ybGQ=";
                  TwilioDisconnect];
     last_close := t1;
     close_yields := true;
     llm := Ok [Some "unused"];
     sendgrid_raises := false |}.

(** A short conversation; the model socket closes first, and closing it
    again returns at once. *)
Definition world_dialogue : world :=
  {| handshake_ok := true;
     arrivals := [audio_delta "SGk="; start_frame "MZ1"; media_in "SGVsbG8=";
                  user_said "Hello"; assistant_said "Hi there";
                  audio_delta "SGkgdGhlcmU="; OpenaiClosed];
     last_close := t2;
     close_yields := false;
     llm := Ok [Some " A greeting was exchanged. "];
     sendgrid_raises := false |}.

(** The same conversation with a summarizer that fails. *)
Definition world_llm_down : world :=
  {| handshake_ok := true;
     arrivals := [user_said "Hello"; assistant_said "Hi there"; OpenaiClosed];
     last_close := t2;
     close_yields := true;
     llm := Raise APIError;
     sendgrid_raises := true |}.

(** User "Hello", then assistant "Hi there"; the model socket closes. *)
Definition world_hello : world :=
  {| handshake_ok := true;
     arrivals := map completion_event [(user, "Hello"); (assistant, "Hi there")];
     last_close := t2;
     close_yields := true;
     llm := Ok [Some "Greetings were exchanged."];
     sendgrid_raises := false |}.

(** A call is requested, and the relay attaches twice for its session. *)
Definition history_abc : list request :=
  [PostCallCustom req_abc "abc123";
   ConnectMediaStream "abc123" world_silent;
   ConnectMediaStream "abc123" world_dialogue].

End Examples.

(** ** Call initiation: [call_custom], [make_call_custom], [check_number_allowed]

    The calls on the telephony client are recorded in their own trace; what
    the telephony service answers is read from a [twilio_world]. *)

Module Telephony.

Inductive twilio_action : Type :=
| IncomingPhoneNumbersList (phone_number : string)
    (* client.incoming_phone_numbers.list(phone_number=...) *)
| OutgoingCallerIdsList (phone_number : string)
    (* client.outgoing_caller_ids.list(phone_number=...) *)
| CallsCreate (from_ : option string) (to twiml : string).
    (* client.calls.create(from_=..., to=..., twiml=...) *)

(** What the telephony service answers: the records found for a number (or
    an exception), and the sid of the call it creates (or an exception). *)
Record twilio_world : Type := {
  incoming_phone_numbers : string -> result (list string);
  outgoing_caller_ids : string -> result (list string);
  calls_create : string -> string -> result string
}.

(** The module constants that [make_call_custom] reads. *)
Record telephony_env : Type := {
  PHONE_NUMBER_FROM : option string;
  DOMAIN : string
}.

(** Code that calls the telephony client and may raise. *)
Definition T (A : Type) : Type := result A * list twilio_action.

Definition tret {A} (a : A) : T A := (Ok a, []).

Definition tbind {A B} (m : T A) (k : A -> T B) : T B :=
  match m with
  | (Ok a, tr) => let (r, tr') := k a in (r, (tr ++ tr')%list)
  | (Raise e, tr) => (Raise e, tr)
  end.

Definition traise {A} (e : exn) : T A := (Raise e, []).

(** A call on the client, with what the service answers. *)
Definition tcall {A} (a : twilio_action) (answer : result A) : T A := (answer, [a]).

(** [try: m  except Exception as e: h e] *)
Definition ttry {A} (m : T A) (h : exn -> T A) : T A :=
  match m with
  | (Ok a, tr) => (Ok a, tr)
  | (Raise e, tr) => let (r, tr') := h e in (r, (tr ++ tr')%list)
  end.

Declare Scope twilio_scope.
Delimit Scope twilio_scope with twilio.
Notation "x <- c1 ;; c2" := (tbind c1 (fun x => c2))
  (at level 100, c1 at next level, right associativity) : twilio_scope.
#[local] Open Scope twilio_scope.

(** Truth value of a list, as [if incoming_numbers] takes it. *)
Definition nonempty {A} (l : list A) : bool :=
  match l with
  | [] => false
  | _ :: _ => true
  end.

(** [check_number_allowed(to)] *)
Definition check_number_allowed (tw : twilio_world) (to : string) : T bool :=
  ttry
    (incoming_numbers <- tcall (IncomingPhoneNumbersList to)
                               (incoming_phone_numbers tw to) ;;
     if nonempty incoming_numbers then tret true
     else
       outgoing <- tcall (OutgoingCallerIdsList to) (outgoing_caller_ids tw to) ;;
       if nonempty outgoing then tret true
       else tret false)
    (fun _ => tret false).

(** The double quote character. *)
Definition DQ : string := String "034"%char EmptyString.

(** The TwiML of the call: it connects the call's media to the relay
    endpoint of the session. *)
Definition twiml_for (tenv : telephony_env) (session_id : string) : string :=
  "<?xml version=" ++ DQ ++ "1.0" ++ DQ ++ " encoding=" ++ DQ ++ "UTF-8" ++ DQ ++ "?>"
  ++ "<Response><Connect>"
  ++ "<Stream url=" ++ DQ ++ "wss://" ++ DOMAIN tenv ++ "/media-stream/" ++ session_id
  ++ DQ ++ " />"
  ++ "</Connect></Response>".

(** [make_call_custom(phone, session_id)] *)
Definition make_call_custom (tenv : telephony_env) (tw : twilio_world)
    (phone session_id : string) : T unit :=
  allowed <- check_number_allowed tw phone ;;
  if negb allowed then traise ValueError
  else
    let twiml := twiml_for tenv session_id in
    call <- tcall (CallsCreate (PHONE_NUMBER_FROM tenv) phone twiml)
                  (calls_create tw phone twiml) ;;
    tret tt.

(** The JSON body that [call_custom] returns. *)
Record CallCustomResponse : Type := {
  response_message : string;
  response_session_id : string
}.

(** The endpoint [call_custom(req, background_tasks)]: the registry entry
    is stored and the response is built; the background task
    [make_call_custom] runs once the response is out, and what it raises
    reaches no one. *)
Definition call_custom_endpoint (tenv : telephony_env) (tw : twilio_world)
    (req : CallCustomRequest) (session_id : string)
    (STREAMS_SETTINGS : gmap string Settings)
  : CallCustomResponse * gmap string Settings * T unit :=
  ({| response_message := "Call initiated to " ++ phone_number req;
      response_session_id := session_id |},
   call_custom req session_id STREAMS_SETTINGS,
   make_call_custom tenv tw (phone_number req) session_id).

End Telephony.
Export Telephony.

(** ** The public domain name

    [DOMAIN = re.sub(r'(^\w+:|^)\/\/|\/+$', '', raw_domain)], on ASCII text:
    [\w] is read as a letter, a digit or an underscore. *)

Module Domain.

Definition SLASH : ascii := "/"%char.

Definition COLON : ascii := ":"%char.

Definition NEWLINE : ascii := "010"%char.

(** [\w] *)
Definition isword (c : ascii) : bool :=
  let n := Z.of_N (N_of_ascii c) in
  ((48 <=? n) && (n <=? 57)) || ((65 <=? n) && (n <=? 90))
  || ((97 <=? n) && (n <=? 122)) || (n =? 95).

(** What follows the longest run of word characters. *)
Fixpoint skip_word (s : list ascii) : list ascii :=
  match s with
  | c :: rest => if isword c then skip_word rest else s
  | [] => []
  end.

(** What follows the longest run of slashes. *)
Fixpoint skip_slashes (s : list ascii) : list ascii :=
  match s with
  | c :: rest => if Ascii.eqb c SLASH then skip_slashes rest else s
  | [] => []
  end.

(** [(^\w+:|^)\/\/] at the start of the text: what follows the match. *)
Definition match_scheme (s : list ascii) : option (list ascii) :=
  match s with
  | c :: _ =>
      if isword c then
        match skip_word s with
        | c1 :: c2 :: c3 :: rest =>
            if Ascii.eqb c1 COLON && Ascii.eqb c2 SLASH && Ascii.eqb c3 SLASH
            then Some rest else None
        | _ => None
        end
      else
        match s with
        | c1 :: c2 :: rest =>
            if Ascii.eqb c1 SLASH && Ascii.eqb c2 SLASH then Some rest else None
        | _ => None
        end
  | [] => None
  end.

(** [$]: the end of the text, or the newline that ends it. *)
Definition at_end (s : list ascii) : bool :=
  match s with
  | [] => true
  | [c] => Ascii.eqb c NEWLINE
  | _ => false
  end.

(** [\/+$] matches at the head of [s]. *)
Definition match_trailing (s : list ascii) : bool :=
  match s with
  | c :: _ => Ascii.eqb c SLASH && at_end (skip_slashes s)
  | [] => false
  end.

(** The substitution from a position on, where only [\/+$] can match. *)
Fixpoint sub_trailing (s : list ascii) : list ascii :=
  match s with
  | [] => []
  | c :: rest => if match_trailing s then skip_slashes s else c :: sub_trailing rest
  end.

(** [re.sub(r'(^\w+:|^)\/\/|\/+$', '', raw_domain)] *)
Definition strip_domain (raw_domain : string) : string :=
  let s := list_ascii_of_string raw_domain in
  string_of_list_ascii
    (match match_scheme s with
     | Some rest => sub_trailing rest
     | None => sub_trailing s
     end).

End Domain.
Export Domain.

(** ** Further readings of a call *)

Section CallReadings.

Variable py_str : json -> string.

(** The relay goes on to stream: the session is registered and the
    handshake with the model succeeds. *)
Definition accepted (STREAMS_SETTINGS : gmap string Settings) (w : world)
    (session_id : string) : bool :=
  match STREAMS_SETTINGS !! session_id with
  | Some _ => handshake_ok w
  | None => false
  end.

Definition is_ws_close (a : action) : bool :=
  match a with
  | WsClose => true
  | _ => false
  end.

Definition is_openai_close (a : action) : bool :=
  match a with
  | OpenaiClose => true
  | _ => false
  end.

(** A frame sent on either socket. *)
Definition is_send (a : action) : bool :=
  match a with
  | OpenaiSend _ | WsSendJson _ => true
  | _ => false
  end.

Definition is_sendgrid_request (a : action) : bool :=
  match a with
  | SendgridSend _ _ _ _ => true
  | _ => false
  end.

Definition is_task_cancelled (a : action) : bool :=
  match a with
  | TaskCancelled _ => true
  | _ => false
  end.

(** A task is done, or is asked to stop. *)
Definition is_task_mark (a : action) : bool :=
  match a with
  | TaskDone _ | TaskCancel _ => true
  | _ => false
  end.

(** The same world with other arrivals. *)
Definition with_arrivals (w : world) (l : list arrival) : world :=
  {| handshake_ok := handshake_ok w;
     arrivals := l;
     last_close := last_close w;
     close_yields := close_yields w;
     llm := llm w;
     sendgrid_raises := sendgrid_raises w |}.

(** What arrives on the model socket. *)
Definition from_model (a : arrival) : bool :=
  match a with
  | OpenaiMessage _ | OpenaiClosed => true
  | _ => false
  end.

(** A frame of a kind that neither pump handles: an inbound event other
    than [start] and [media], a model message of another type, or an audio
    delta without a delta. *)
Definition ignored (a : arrival) : bool :=
  match a with
  | TwilioText (Some data) =>
      match getitem data "event" with
      | Ok event => negb (eq_str event "start") && negb (eq_str event "media")
      | Raise _ => false
      end
  | OpenaiMessage (Some evt) =>
      match get evt "type", get evt "delta" with
      | Ok ty, Ok delta =>
          negb (eq_str ty "conversation.item.input_audio_transcription.completed")
          && negb (eq_str ty "response.audio_transcript.done")
          && (negb (eq_str ty "response.audio.delta") || negb (truthy delta))
      | _, _ => false
      end
  | _ => false
  end.

(** An inbound [start] event that carries the stream id [sid]. *)
Definition start_event_with (data sid : json) : Prop :=
  exists event start,
    getitem data "event" = Ok event
    /\ eq_str event "start" = true
    /\ getitem data "start" = Ok start
    /\ getitem start "streamSid" = Ok sid.

(** The inbound pump still runs when the arrivals [pre] have been handled. *)
Definition inbound_pump_runs_after (pre : list arrival) (settings : Settings) : Prop :=
  status1 (snd (pumps py_str pre (streaming settings))) = Running.

(** Every character of the text is whitespace. *)
Definition blank (conv : string) : bool :=
  forallb isspace (list_ascii_of_string conv).

End CallReadings.

Module MoreExamples.

Definition tenv_example : telephony_env :=
  {| PHONE_NUMBER_FROM := Some "+15550199"; DOMAIN := "example.com" |}.

(** The number is a verified caller id of the account. *)
Definition tw_verified : twilio_world :=
  {| incoming_phone_numbers := fun _ => Ok [];
     outgoing_caller_ids := fun _ => Ok ["PN01"];
     calls_create := fun _ _ => Ok "CA01" |}.

(** The account does not know the number. *)
Definition tw_unknown : twilio_world :=
  {| incoming_phone_numbers := fun _ => Ok [];
     outgoing_caller_ids := fun _ => Ok [];
     calls_create := fun _ _ => Ok "CA01" |}.

(** The first lookup fails, although the number is a verified caller id. *)
Definition tw_lookup_down : twilio_world :=
  {| incoming_phone_numbers := fun _ => Raise ConnectionError;
     outgoing_caller_ids := fun _ => Ok ["PN01"];
     calls_create := fun _ _ => Ok "CA01" |}.

(** The silent call with a telephony [stop] event before its last frame. *)
Definition stop_frame : arrival := TwilioText (Some (JObj [("event", JStr "stop")])).

Definition world_stop : world :=
  {| handshake_ok := true;
     arrivals := [Examples.start_frame "MZ1"; stop_frame;
                  Examples.media_in "SGVsbG8="; TwilioDisconnect];
     last_close := t1;
     close_yields := true;
     llm := Ok [Some "unused"];
     sendgrid_raises := false |}.

(** The model sends audio and a completion event, then the telephony
    socket closes. *)
Definition world_hangup : world :=
  {| handshake_ok := true;
     arrivals := [Examples.audio_delta "SGk="; Examples.user_said "Hello";
                  TwilioDisconnect];
     last_close := t1;
     close_yields := true;
     llm := Ok [Some "The user said hello."];
     sendgrid_raises := false |}.

End MoreExamples.

(** * Properties *)

#[local] Open Scope list_scope.

(** ** Base64: decoding an encoding gives the bytes back *)

Section Base64Facts.

Lemma below_forall (f : Z -> bool) (n : nat) :
  forallb f (below n) = true ->
  forall z, 0 <= z < Z.of_nat n -> f z = true.
Proof.
  intros Hall z Hz.
  rewrite forallb_forall in Hall. apply Hall.
  unfold below. apply in_map_iff. exists (Z.to_nat z). split.
  - lia.
  - apply in_seq. lia.
Qed.

Lemma below_forall2 (f : Z -> Z -> bool) (n m : nat) :
  forallb (fun a => forallb (f a) (below m)) (below n) = true ->
  forall a b, 0 <= a < Z.of_nat n -> 0 <= b < Z.of_nat m -> f a b = true.
Proof.
  intros Hall a b Ha Hb.
  apply (below_forall (f a) m); [| exact Hb].
  apply (below_forall (fun a => forallb (f a) (below m)) n Hall a Ha).
Qed.

(** Every sextet has its own alphabet character, which is not the pad. *)
Lemma a2b_b2a (n : Z) :
  0 <= n < 64 ->
  a2b (b2a n) = Some n /\ Ascii.eqb (b2a n) BASE64_PAD = false.
Proof.
  intros Hn.
  pose (f := fun n => match a2b (b2a n) with
                      | Some m => (m =? n) && negb (Ascii.eqb (b2a n) BASE64_PAD)
                      | None => false
                      end).
  assert (Hf : f n = true).
  { apply (below_forall f 64); [vm_compute; reflexivity | exact Hn]. }
  unfold f in Hf. destruct (a2b (b2a n)) as [m|]; [| discriminate].
  apply andb_true_iff in Hf. destruct Hf as [Hm Hp].
  apply Z.eqb_eq in Hm. subst m. split; [reflexivity |].
  now apply negb_true_iff in Hp.
Qed.

Lemma b2a_is_ascii (n : Z) : 0 <= n < 64 -> is_ascii (b2a n) = true.
Proof.
  apply (below_forall (fun n => is_ascii (b2a n)) 64). vm_compute. reflexivity.
Qed.

(** The sextets of a quad are sextets. *)
Lemma sextets_range (b1 b2 : Z) :
  is_byte b1 -> is_byte b2 ->
  0 <= Z.shiftr b1 2 < 64
  /\ 0 <= Z.shiftl (Z.land b1 3) 4 < 64
  /\ 0 <= Z.lor (Z.shiftl (Z.land b1 3) 4) (Z.shiftr b2 4) < 64
  /\ 0 <= Z.shiftl (Z.land b1 15) 2 < 64
  /\ 0 <= Z.lor (Z.shiftl (Z.land b1 15) 2) (Z.shiftr b2 6) < 64
  /\ 0 <= Z.land b1 63 < 64.
Proof.
  intros H1 H2.
  pose (ok := fun x => (0 <=? x) && (x <? 64)).
  pose (f := fun b1 b2 =>
               ok (Z.shiftr b1 2)
               && ok (Z.shiftl (Z.land b1 3) 4)
               && ok (Z.lor (Z.shiftl (Z.land b1 3) 4) (Z.shiftr b2 4))
               && ok (Z.shiftl (Z.land b1 15) 2)
               && ok (Z.lor (Z.shiftl (Z.land b1 15) 2) (Z.shiftr b2 6))
               && ok (Z.land b1 63)).
  assert (Hf : f b1 b2 = true).
  { apply (below_forall2 f 256 256); [vm_compute; reflexivity | exact H1 | exact H2]. }
  unfold f, ok in Hf.
  repeat (apply andb_true_iff in Hf; destruct Hf as [Hf ?]).
  repeat match goal with
         | H : (_ <=? _) = true |- _ => apply Z.leb_le in H
         | H : (_ <? _) = true |- _ => apply Z.ltb_lt in H
         end.
  apply Z.leb_le in Hf. lia.
Qed.

(** The bytes that the decoder rebuilds from the sextets of a quad. *)
Lemma quad_bytes (b1 b2 : Z) :
  is_byte b1 -> is_byte b2 ->
  u8 (Z.lor (Z.shiftl (Z.shiftr b1 2) 2)
            (Z.shiftr (Z.lor (Z.shiftl (Z.land b1 3) 4) (Z.shiftr b2 4)) 4)) = b1
  /\ u8 (Z.lor (Z.shiftl (Z.shiftr b1 2) 2)
               (Z.shiftr (Z.shiftl (Z.land b1 3) 4) 4)) = b1
  /\ Z.land (Z.lor (Z.shiftl (Z.land b1 3) 4) (Z.shiftr b2 4)) 15 = Z.shiftr b2 4
  /\ u8 (Z.lor (Z.shiftl (Z.shiftr b1 4) 4)
               (Z.shiftr (Z.lor (Z.shiftl (Z.land b1 15) 2) (Z.shiftr b2 6)) 2)) = b1
  /\ u8 (Z.lor (Z.shiftl (Z.shiftr b1 4) 4)
               (Z.shiftr (Z.shiftl (Z.land b1 15) 2) 2)) = b1
  /\ Z.land (Z.lor (Z.shiftl (Z.land b1 15) 2) (Z.shiftr b2 6)) 3 = Z.shiftr b2 6
  /\ u8 (Z.lor (Z.shiftl (Z.shiftr b1 6) 6) (Z.land b1 63)) = b1.
Proof.
  intros H1 H2.
  pose (f := fun b1 b2 =>
    (u8 (Z.lor (Z.shiftl (Z.shiftr b1 2) 2)
               (Z.shiftr (Z.lor (Z.shiftl (Z.land b1 3) 4) (Z.shiftr b2 4)) 4)) =? b1)
    && (u8 (Z.lor (Z.shiftl (Z.shiftr b1 2) 2)
                  (Z.shiftr (Z.shiftl (Z.land b1 3) 4) 4)) =? b1)
    && (Z.land (Z.lor (Z.shiftl (Z.land b1 3) 4) (Z.shiftr b2 4)) 15 =? Z.shiftr b2 4)
    && (u8 (Z.lor (Z.shiftl (Z.shiftr b1 4) 4)
                  (Z.shiftr (Z.lor (Z.shiftl (Z.land b1 15) 2) (Z.shiftr b2 6)) 2)) =? b1)
    && (u8 (Z.lor (Z.shiftl (Z.shiftr b1 4) 4)
                  (Z.shiftr (Z.shiftl (Z.land b1 15) 2) 2)) =? b1)
    && (Z.land (Z.lor (Z.shiftl (Z.land b1 15) 2) (Z.shiftr b2 6)) 3 =? Z.shiftr b2 6)
    && (u8 (Z.lor (Z.shiftl (Z.shiftr b1 6) 6) (Z.land b1 63)) =? b1)).
  assert (Hf : f b1 b2 = true).
  { apply (below_forall2 f 256 256); [vm_compute; reflexivity | exact H1 | exact H2]. }
  unfold f in Hf.
  repeat (apply andb_true_iff in Hf; destruct Hf as [Hf ?]).
  repeat match goal with
         | H : (_ =? _) = true |- _ => apply Z.eqb_eq in H
         end.
  repeat split; assumption.
Qed.

(** One alphabet character, in each position of the quad. *)
Lemma a2b_loop_char (v : Z) (rest : list ascii) (quad_pos : nat) (leftchar pads : Z) :
  0 <= v < 64 ->
  a2b_loop (b2a v :: rest) quad_pos leftchar pads =
  match quad_pos with
  | 0%nat => a2b_loop rest 1 v 0
  | 1%nat =>
      match a2b_loop rest 2 (Z.land v 15) 0 with
      | Ok out => Ok (u8 (Z.lor (Z.shiftl leftchar 2) (Z.shiftr v 4)) :: out)
      | Raise e => Raise e
      end
  | 2%nat =>
      match a2b_loop rest 3 (Z.land v 3) 0 with
      | Ok out => Ok (u8 (Z.lor (Z.shiftl leftchar 4) (Z.shiftr v 2)) :: out)
      | Raise e => Raise e
      end
  | _ =>
      match a2b_loop rest 0 0 0 with
      | Ok out => Ok (u8 (Z.lor (Z.shiftl leftchar 6) v) :: out)
      | Raise e => Raise e
      end
  end.
Proof.
  intros Hv. destruct (a2b_b2a v Hv) as [Hval Hpad].
  cbn [a2b_loop]. rewrite Hpad, Hval. reflexivity.
Qed.

(** Induction over a list of bytes, three at a time. *)
Lemma list_ind3 (A : Type) (P : list A -> Prop) :
  P [] ->
  (forall a, P [a]) ->
  (forall a b, P [a; b]) ->
  (forall a b c l, P l -> P (a :: b :: c :: l)) ->
  forall l, P l.
Proof.
  intros H0 H1 H2 H3.
  assert (H : forall l, P l /\ (forall a, P (a :: l)) /\ (forall a b, P (a :: b :: l))).
  { induction l as [| x l IH].
    - repeat split; auto.
    - destruct IH as (IH0 & IH1 & IH2). repeat split; auto. }
  intros l. apply H.
Qed.

Lemma a2b_loop_b2a_base64 (bs : list Z) :
  Forall is_byte bs ->
  forall leftchar pads, a2b_loop (b2a_base64 bs) 0 leftchar pads = Ok bs.
Proof.
  induction bs as [| b1 | b1 b2 | b1 b2 b3 rest IH] using list_ind3;
    intros Hbs leftchar pads.
  - reflexivity.
  - apply Forall_cons_iff in Hbs. destruct Hbs as [H1 _].
    destruct (sextets_range b1 b1 H1 H1) as (R1 & R2 & _).
    destruct (quad_bytes b1 b1 H1 H1) as (_ & Q2 & _).
    cbn [b2a_base64].
    rewrite (a2b_loop_char _ _ 0) by exact R1.
    rewrite (a2b_loop_char _ _ 1) by exact R2.
    cbn. rewrite Q2. reflexivity.
  - apply Forall_cons_iff in Hbs. destruct Hbs as [H1 Hbs].
    apply Forall_cons_iff in Hbs. destruct Hbs as [H2 _].
    destruct (sextets_range b1 b2 H1 H2) as (R1 & _ & R2 & _).
    destruct (sextets_range b2 b2 H2 H2) as (_ & _ & _ & R3 & _).
    destruct (quad_bytes b1 b2 H1 H2) as (Q1 & _ & Q2 & _).
    destruct (quad_bytes b2 b2 H2 H2) as (_ & _ & _ & _ & Q3 & _).
    cbn [b2a_base64].
    rewrite (a2b_loop_char _ _ 0) by exact R1.
    rewrite (a2b_loop_char _ _ 1) by exact R2.
    rewrite (a2b_loop_char _ _ 2) by exact R3.
    cbn. rewrite Q1, Q2, Q3. reflexivity.
  - apply Forall_cons_iff in Hbs. destruct Hbs as [H1 Hbs].
    apply Forall_cons_iff in Hbs. destruct Hbs as [H2 Hbs].
    apply Forall_cons_iff in Hbs. destruct Hbs as [H3 Hbs].
    destruct (sextets_range b1 b2 H1 H2) as (R1 & _ & R2 & _).
    destruct (sextets_range b2 b3 H2 H3) as (_ & _ & _ & _ & R3 & _).
    destruct (sextets_range b3 b3 H3 H3) as (_ & _ & _ & _ & _ & R4).
    destruct (quad_bytes b1 b2 H1 H2) as (Q1 & _ & Q2 & _).
    destruct (quad_bytes b2 b3 H2 H3) as (_ & _ & _ & Q3 & _ & Q4 & _).
    destruct (quad_bytes b3 b3 H3 H3) as (_ & _ & _ & _ & _ & _ & Q5).
    cbn [b2a_base64].
    rewrite (a2b_loop_char _ _ 0) by exact R1.
    rewrite (a2b_loop_char _ _ 1) by exact R2.
    rewrite (a2b_loop_char _ _ 2) by exact R3.
    rewrite (a2b_loop_char _ _ 3) by exact R4.
    rewrite (IH Hbs). rewrite Q1, Q2, Q3, Q4, Q5. reflexivity.
Qed.

Lemma b2a_base64_ascii (bs : list Z) :
  Forall is_byte bs -> forallb is_ascii (b2a_base64 bs) = true.
Proof.
  induction bs as [| b1 | b1 b2 | b1 b2 b3 rest IH] using list_ind3; intros Hbs.
  - reflexivity.
  - apply Forall_cons_iff in Hbs. destruct Hbs as [H1 _].
    destruct (sextets_range b1 b1 H1 H1) as (R1 & R2 & _).
    cbn [b2a_base64 forallb]. rewrite !b2a_is_ascii by assumption. reflexivity.
  - apply Forall_cons_iff in Hbs. destruct Hbs as [H1 Hbs].
    apply Forall_cons_iff in Hbs. destruct Hbs as [H2 _].
    destruct (sextets_range b1 b2 H1 H2) as (R1 & _ & R2 & _).
    destruct (sextets_range b2 b2 H2 H2) as (_ & _ & _ & R3 & _).
    cbn [b2a_base64 forallb]. rewrite !b2a_is_ascii by assumption. reflexivity.
  - apply Forall_cons_iff in Hbs. destruct Hbs as [H1 Hbs].
    apply Forall_cons_iff in Hbs. destruct Hbs as [H2 Hbs].
    apply Forall_cons_iff in Hbs. destruct Hbs as [H3 Hbs].
    destruct (sextets_range b1 b2 H1 H2) as (R1 & _ & R2 & _).
    destruct (sextets_range b2 b3 H2 H3) as (_ & _ & _ & _ & R3 & _).
    destruct (sextets_range b3 b3 H3 H3) as (_ & _ & _ & _ & _ & R4).
    cbn [b2a_base64 forallb]. rewrite !b2a_is_ascii by assumption.
    rewrite (IH Hbs). reflexivity.
Qed.

(** [b64decode(b64encode(bs)) == bs] *)
Lemma b64decode_b64encode (bs : list Z) :
  Forall is_byte bs -> b64decode_str (b64encode bs) = Ok bs.
Proof.
  intros Hbs. unfold b64decode_str, b64encode.
  rewrite list_ascii_of_string_of_list_ascii.
  rewrite (b2a_base64_ascii bs Hbs).
  apply a2b_loop_b2a_base64. exact Hbs.
Qed.

Lemma u8_is_byte (x : Z) : is_byte (u8 x).
Proof.
  unfold is_byte, u8. change 255 with (Z.ones 8).
  rewrite Z.land_ones by lia. apply Z.mod_pos_bound. reflexivity.
Qed.

(** What the decoder returns are bytes. *)
Lemma a2b_loop_bytes (s : list ascii) :
  forall quad_pos leftchar pads out,
    a2b_loop s quad_pos leftchar pads = Ok out -> Forall is_byte out.
Proof.
  induction s as [| c rest IH]; intros quad_pos leftchar pads out.
  - cbn. destruct quad_pos; intros H; inversion H; constructor.
  - cbn [a2b_loop].
    destruct (Ascii.eqb c BASE64_PAD).
    + destruct (2 <=? quad_pos)%nat.
      * destruct (4 <=? Z.of_nat quad_pos + (pads + 1)).
        -- intros H; inversion H; constructor.
        -- apply IH.
      * apply IH.
    + destruct (a2b c) as [v |]; [| apply IH].
      destruct quad_pos as [| [| [| q]]].
      * apply IH.
      * destruct (a2b_loop rest 2 (Z.land v 15) 0) as [o | e] eqn:E; intros H; inversion H.
        constructor; [apply u8_is_byte | eapply IH; exact E].
      * destruct (a2b_loop rest 3 (Z.land v 3) 0) as [o | e] eqn:E; intros H; inversion H.
        constructor; [apply u8_is_byte | eapply IH; exact E].
      * destruct (a2b_loop rest 0 0 0) as [o | e] eqn:E; intros H; inversion H.
        constructor; [apply u8_is_byte | eapply IH; exact E].
Qed.

Lemma b64decode_bytes (v : json) (chunk : list Z) :
  b64decode v = Ok chunk -> Forall is_byte chunk.
Proof.
  destruct v; try discriminate. cbn. unfold b64decode_str.
  destruct (forallb is_ascii (list_ascii_of_string s)); [| discriminate].
  apply a2b_loop_bytes.
Qed.

(** Re-encoding what was decoded decodes to the same bytes. *)
Lemma b64decode_reencode (v : json) (chunk : list Z) :
  b64decode v = Ok chunk -> b64decode (JStr (b64encode chunk)) = Ok chunk.
Proof.
  intros H. cbn. apply b64decode_b64encode. eapply b64decode_bytes. exact H.
Qed.

End Base64Facts.

(** ** The pumps, one frame at a time *)

Section FrameFacts.

Variable py_str : json -> string.

Lemma twilio_to_openai_frame_spec (raw : option json) (st : call_state) :
  let st' := snd (twilio_to_openai_frame raw st) in
  transcript st' = transcript st
  /\ status1 st' = status1 st
  /\ status2 st' = status2 st
  /\ trace st' = trace st ++ map append_message (inbound_media (TwilioText raw))
  /\ (is_start (TwilioText raw) = false -> stream_sid st' = stream_sid st).
Proof.
  unfold twilio_to_openai_frame, bind, lift, set_stream_sid, emit, ret.
  destruct raw as [[| b | z | s | l | kvs] |]; cbn;
    try (rewrite app_nil_r; repeat split; reflexivity).
  destruct (assoc "event" kvs) as [event |] eqn:Eev; cbn;
    try (rewrite app_nil_r; repeat split; reflexivity).
  destruct (eq_str event "start") eqn:Estart; cbn.
  - assert (Emedia : eq_str event "media" = false).
    { destruct event; try reflexivity. cbn in *.
      apply String.eqb_eq in Estart. subst s. reflexivity. }
    rewrite Emedia.
    destruct (assoc "start" kvs) as [start |]; cbn;
      try (rewrite app_nil_r; repeat split; (reflexivity || discriminate)).
    destruct (getitem start "streamSid"); cbn;
      rewrite app_nil_r; repeat split; (reflexivity || discriminate).
  - destruct (eq_str event "media") eqn:Emedia; cbn;
      try (rewrite app_nil_r; repeat split; reflexivity).
    destruct (assoc "media" kvs) as [media |]; cbn;
      try (rewrite app_nil_r; repeat split; reflexivity).
    destruct (getitem media "payload"); cbn;
      try (rewrite app_nil_r; repeat split; reflexivity).
    repeat split; reflexivity.
Qed.

Ltac frame_done :=
  cbn;
  repeat match goal with
         | |- context [assoc ?k ?kvs] => destruct (assoc k kvs)
         end;
  cbn; rewrite ?app_nil_r; repeat split; try reflexivity; try discriminate.

Lemma openai_to_twilio_frame_spec (raw : option json) (st : call_state) :
  let r := fst (openai_to_twilio_frame py_str raw st) in
  let st' := snd (openai_to_twilio_frame py_str raw st) in
  stream_sid st' = stream_sid st
  /\ status1 st' = status1 st
  /\ status2 st' = status2 st
  /\ transcript st' = transcript st ++ completion_line_of py_str raw
  /\ match r with
     | Ok _ =>
         match audio_delta_of raw with
         | [] => trace st' = trace st
         | delta :: _ =>
             exists chunk,
               b64decode delta = Ok chunk
               /\ trace st' =
                  trace st ++ [WsSendJson (media_frame (stream_sid st) (b64encode chunk))]
         end
     | Raise _ => trace st' = trace st
     end.
Proof.
  unfold openai_to_twilio_frame, bind, lift, transcript_append, get_stream_sid,
    emit, ret.
  destruct raw as [[| b | z | s | l | kvs] |]; try solve [frame_done].
  cbn.
  destruct (assoc "type" kvs) as [[| b | z | s | l | kvs'] |] eqn:Ety;
    try solve [clear Ety; frame_done].
  cbn.
  destruct (String.eqb s "conversation.item.input_audio_transcription.completed") eqn:E1.
  { apply String.eqb_eq in E1. subst s. cbn.
    destruct (assoc "transcript" kvs) as [text |]; [| frame_done].
    cbn. destruct (assoc "delta" kvs); frame_done. }
  destruct (String.eqb s "response.audio_transcript.done") eqn:E2.
  { apply String.eqb_eq in E2. subst s. cbn.
    destruct (assoc "transcript" kvs) as [text |]; [| frame_done].
    cbn. destruct (assoc "delta" kvs); frame_done. }
  destruct (String.eqb s "response.audio.delta") eqn:E3.
  { apply String.eqb_eq in E3. subst s. cbn.
    destruct (assoc "delta" kvs) as [delta |] eqn:Edelta; cbn.
    - destruct (truthy delta) eqn:Etruthy; cbn.
      + destruct (b64decode delta) as [chunk | e] eqn:Edec; cbn.
        * destruct (assoc "transcript" kvs); cbn; rewrite app_nil_r;
            (repeat split; try reflexivity);
            exists chunk; (split; reflexivity).
        * destruct (assoc "transcript" kvs); cbn; rewrite app_nil_r;
            repeat split; reflexivity.
      + destruct (assoc "transcript" kvs); cbn; rewrite app_nil_r;
          repeat split; reflexivity.
    - destruct (assoc "transcript" kvs); cbn; rewrite app_nil_r;
        repeat split; reflexivity. }
  clear Ety. frame_done.
Qed.

End FrameFacts.

(** ** The pumps, one arrival at a time *)

Section PumpFacts.

Variable py_str : json -> string.

Lemma finish_eq (t : task) (st : call_state) :
  finish t st =
  (Ok tt,
   match t with
   | t1 => {| stream_sid := stream_sid st; transcript := transcript st;
              status1 := Done; status2 := status2 st;
              trace := trace st ++ [TaskDone t1] |}
   | t2 => {| stream_sid := stream_sid st; transcript := transcript st;
              status1 := status1 st; status2 := Done;
              trace := trace st ++ [TaskDone t2] |}
   end).
Proof. destruct t; reflexivity. Qed.

Lemma pump_TwilioText (raw : option json) (st : call_state) :
  pump py_str (TwilioText raw) st =
  match status1 st with
  | Running =>
      match twilio_to_openai_frame raw st with
      | (Ok _, st') => (Ok tt, st')
      | (Raise _, st') => finish t1 st'
      end
  | _ => (Ok tt, st)
  end.
Proof.
  cbv beta iota delta [pump iterate bind get_status status try_except ret].
  destruct (status1 st); try reflexivity.
  destruct (twilio_to_openai_frame raw st) as [[[] | e] st']; reflexivity.
Qed.

Lemma pump_OpenaiMessage (raw : option json) (st : call_state) :
  pump py_str (OpenaiMessage raw) st =
  match status2 st with
  | Running =>
      match openai_to_twilio_frame py_str raw st with
      | (Ok _, st') => (Ok tt, st')
      | (Raise _, st') => finish t2 st'
      end
  | _ => (Ok tt, st)
  end.
Proof.
  cbv beta iota delta [pump iterate bind get_status status try_except ret].
  destruct (status2 st); try reflexivity.
  destruct (openai_to_twilio_frame py_str raw st) as [[[] | e] st']; reflexivity.
Qed.

Lemma pump_exhaust (t : task) (st : call_state) :
  exhaust t st =
  match status t st with
  | Running => finish t st
  | _ => (Ok tt, st)
  end.
Proof.
  cbv beta iota delta [exhaust bind get_status ret].
  destruct (status t st); reflexivity.
Qed.

Lemma append_message_shape (l : list json) :
  forallb pump_action (map append_message l) = true
  /\ flat_map appended_audio (map append_message l) = l
  /\ flat_map media_payload (map append_message l) = [].
Proof.
  induction l as [| x l (IH1 & IH2 & IH3)]; cbn; [auto |].
  rewrite IH1, IH2, IH3. auto.
Qed.

(** A task that does not run ignores what arrives for it. *)
Lemma pump_effect_idle (a : arrival) (st : call_state) :
  (is_running (status1 st) = true -> inbound_media a = []) ->
  (is_running (status2 st) = true -> completion_line py_str a = []) ->
  (status2 st = Running -> model_audio a = []) ->
  pump_effect py_str a st st [].
Proof.
  intros H1 H2 H3. unfold pump_effect. rewrite !app_nil_r.
  repeat split; auto.
  - destruct (is_running (status1 st)); [symmetry; auto | reflexivity].
  - destruct (is_running (status2 st)); [rewrite H2, app_nil_r | rewrite app_nil_r]; auto.
Qed.

(** The coroutine of a running task returns. *)
Lemma pump_effect_finish (a : arrival) (t : task) (st : call_state) :
  status t st = Running ->
  inbound_media a = [] -> completion_line py_str a = [] -> model_audio a = [] ->
  pump_effect py_str a st (snd (finish t st)) [TaskDone t].
Proof.
  intros Hrun H1 H2 H3. rewrite finish_eq. unfold pump_effect.
  rewrite H1, H2, H3. destruct t; cbn in *; rewrite ?Hrun.
  - repeat split; auto.
    + intros []; cbn; [right | left]; auto.
    + destruct (is_running (status2 st)); rewrite app_nil_r; reflexivity.
  - repeat split; auto.
    + intros []; cbn; [left | right]; auto.
    + destruct (is_running (status1 st)); reflexivity.
    + rewrite app_nil_r; reflexivity.
Qed.

(** What one arrival does to the call. *)
Lemma pump_step (a : arrival) (st : call_state) :
  fst (pump py_str a st) = Ok tt
  /\ exists d, pump_effect py_str a st (snd (pump py_str a st)) d.
Proof.
  destruct a as [raw | | raw |].
  - (* a text frame from the telephony socket *)
    rewrite pump_TwilioText.
    destruct (twilio_to_openai_frame_spec raw st) as (Htr & Hs1 & Hs2 & Htrace & Hsid).
    destruct (append_message_shape (inbound_media (TwilioText raw))) as (K1 & K2 & K3).
    destruct (status1 st) eqn:E1;
      try (split; [reflexivity |]; exists []; cbn [fst snd]; apply pump_effect_idle;
           rewrite ?E1; cbn; intros; (discriminate || reflexivity)).
    destruct (twilio_to_openai_frame raw st) as [[[] | e] st'] eqn:Eframe;
      cbn [fst snd] in *.
    + split; [reflexivity |].
      exists (map append_message (inbound_media (TwilioText raw))).
      unfold pump_effect. rewrite E1, K1, K2, K3, Htr.
      repeat split; auto.
      * intros []; cbn; rewrite ?Hs1, ?Hs2, ?E1; auto.
      * destruct (is_running (status2 st)); cbn; rewrite app_nil_r; reflexivity.
    + rewrite finish_eq. cbn [fst snd]. split; [reflexivity |].
      exists (map append_message (inbound_media (TwilioText raw)) ++ [TaskDone t1]).
      unfold pump_effect. cbn [trace transcript stream_sid status status1 status2].
      rewrite Htrace, <- app_assoc, forallb_app, !flat_map_app, E1, K1, K2, K3, Htr.
      cbn. rewrite !app_nil_r.
      repeat split; auto.
      * intros []; cbn; [right | left]; repeat split; auto.
        apply in_or_app. right. left. reflexivity.
      * destruct (is_running (status2 st)); cbn; rewrite ?app_nil_r; reflexivity.
  - (* the telephony socket is gone *)
    cbn [pump]. rewrite pump_exhaust. cbn [status].
    destruct (status1 st) eqn:E1;
      try (split; [reflexivity |]; exists []; cbn [fst snd]; apply pump_effect_idle;
           rewrite ?E1; cbn; intros; (discriminate || reflexivity)).
    split; [rewrite finish_eq; reflexivity |].
    exists [TaskDone t1]. apply pump_effect_finish; auto.
  - (* a message from the model socket *)
    rewrite pump_OpenaiMessage.
    pose proof (openai_to_twilio_frame_spec py_str raw st) as Hspec. cbn zeta in Hspec.
    destruct Hspec as (Hsid & Hs1 & Hs2 & Htr & Htrace).
    destruct (status2 st) eqn:E2;
      try (split; [reflexivity |]; exists []; cbn [fst snd]; apply pump_effect_idle;
           rewrite ?E2; cbn; intros; (discriminate || reflexivity)).
    destruct (openai_to_twilio_frame py_str raw st) as [[[] | e] st'] eqn:Eframe;
      cbn [fst snd] in *.
    + split; [reflexivity |].
      destruct (audio_delta_of raw) as [| delta rest] eqn:Edelta.
      * exists []. unfold pump_effect. cbn [model_audio completion_line inbound_media].
        rewrite E2, Edelta, Htrace, Htr, app_nil_r. cbn.
        repeat split; auto.
        -- intros []; cbn; rewrite ?Hs1, ?Hs2, ?E2; auto.
        -- destruct (is_running (status1 st)); reflexivity.
      * destruct Htrace as (chunk & Hdec & Htrace).
        assert (Hrest : rest = []).
        { unfold audio_delta_of in Edelta.
          destruct raw as [evt |]; [| discriminate].
          destruct (get evt "type"); [| discriminate].
          destruct (get evt "delta"); [| discriminate].
          destruct (eq_str a "response.audio.delta" && truthy a0); congruence. }
        subst rest.
        exists [WsSendJson (media_frame (stream_sid st) (b64encode chunk))].
        unfold pump_effect. cbn [model_audio completion_line inbound_media].
        rewrite E2, Edelta, Htrace, Htr. cbn.
        repeat split; auto.
        -- intros []; cbn; rewrite ?Hs1, ?Hs2, ?E2; auto.
        -- destruct (is_running (status1 st)); reflexivity.
        -- right. exists delta, chunk. auto.
        -- discriminate.
    + rewrite finish_eq. cbn [fst snd]. split; [reflexivity |].
      exists [TaskDone t2].
      unfold pump_effect. cbn [trace transcript stream_sid status status1 status2].
      cbn [model_audio completion_line inbound_media].
      rewrite E2, Htrace, Htr. cbn.
      repeat split; auto.
      * intros []; cbn; rewrite ?Hs1; [left | right]; auto.
      * destruct (is_running (status1 st)); reflexivity.
      * discriminate.
  - (* the model socket is gone *)
    cbn [pump]. rewrite pump_exhaust. cbn [status].
    destruct (status2 st) eqn:E2;
      try (split; [reflexivity |]; exists []; cbn [fst snd]; apply pump_effect_idle;
           rewrite ?E2; cbn; intros; (discriminate || reflexivity)).
    split; [rewrite finish_eq; reflexivity |].
    exists [TaskDone t2]. apply pump_effect_finish; auto.
Qed.

Lemma pumps_cons (a : arrival) (l : list arrival) (st : call_state) :
  pumps py_str (a :: l) st = pumps py_str l (snd (pump py_str a st)).
Proof.
  destruct (pump_step a st) as [Hok _].
  cbn [pumps]. unfold bind.
  destruct (pump py_str a st) as [r st1]. cbn in Hok. subst r. reflexivity.
Qed.

Lemma pumps_app (l1 l2 : list arrival) (st : call_state) :
  pumps py_str (l1 ++ l2) st = pumps py_str l2 (snd (pumps py_str l1 st)).
Proof.
  revert st. induction l1 as [| a l1 IH]; intros st.
  - reflexivity.
  - cbn [app]. rewrite !pumps_cons. apply IH.
Qed.

(** What a list of arrivals does to the call. *)
Lemma pumps_run (l : list arrival) :
  forall st,
    fst (pumps py_str l st) = Ok tt
    /\ exists d, pumps_effect py_str l st (snd (pumps py_str l st)) d.
Proof.
  induction l as [| a l IH]; intros st.
  - split; [reflexivity |]. exists []. unfold pumps_effect. cbn.
    rewrite !app_nil_r. repeat split; auto.
    + exists []. rewrite app_nil_r. repeat split; auto.
    + exists []. split; [reflexivity | constructor].
  - rewrite pumps_cons.
    destruct (pump_step a st) as [_ [d1 Hstep]].
    set (st1 := snd (pump py_str a st)) in *.
    destruct (IH st1) as [Hok [d2 Hrest]].
    split; [exact Hok |].
    set (st' := snd (pumps py_str l st1)) in *.
    destruct Hstep as (S1 & S2 & S3 & S4 & S5 & S6 & S7 & S8).
    destruct Hrest as (R1 & R2 & R3 & R4 & (x & R5 & R5p & R5n) & R6
                       & (ds & R7p & R7) & R8 & R9).
    exists (d1 ++ d2). unfold pumps_effect.
    assert (Hstay1 : status1 st <> Running -> status1 st1 <> Running).
    { intros Hn. destruct (S3 t1) as [E | (E & _)]; cbn in E; congruence. }
    assert (Hstay2 : status2 st <> Running -> status2 st1 <> Running).
    { intros Hn. destruct (S3 t2) as [E | (E & _)]; cbn in E; congruence. }
    split; [rewrite R1, S1, app_assoc; reflexivity |].
    split; [rewrite forallb_app, S2, R2; reflexivity |].
    split.
    { intros t. destruct (R3 t) as [E | (E1 & E2 & E3)].
      - rewrite E. destruct (S3 t) as [E' | (E1 & E2 & E3)]; [left; exact E' |].
        right. repeat split; auto. apply in_or_app. left. exact E3.
      - destruct (S3 t) as [E' | (E1' & E2' & E3')]; [| congruence].
        right. repeat split; auto; [congruence |]. apply in_or_app. right. exact E3. }
    split.
    { rewrite flat_map_app, S4. cbn [flat_map].
      destruct (status1 st) eqn:E1; cbn [is_running];
        try (rewrite R8 by (apply Hstay1; congruence); apply prefix_nil).
      apply prefix_app. exact R4. }
    split.
    { destruct (status2 st) eqn:E2; cbn [is_running] in S5;
        try (exists []; rewrite R5, S5, R5n, !app_nil_r by (apply Hstay2; congruence);
             repeat split; auto; apply prefix_nil).
      exists (completion_line py_str a ++ x). cbn [flat_map].
      rewrite R5, S5, app_assoc. repeat split; auto.
      + apply prefix_app. exact R5p.
      + congruence. }
    split.
    { intros Hall. apply Forall_cons_iff in Hall. destruct Hall as [Ha Hl].
      rewrite (R6 Hl). apply S6. exact Ha. }
    split.
    { rewrite flat_map_app. cbn [flat_map].
      destruct S7 as [Hnone | (delta & chunk & Hdelta & Hdec & Hd1)].
      - rewrite Hnone. cbn [app].
        destruct (status2 st) eqn:E2;
          try (exists []; rewrite R9 by (apply Hstay2; congruence);
               split; [apply prefix_nil | constructor]).
        destruct (status2 st1) eqn:E2';
          try (exists []; rewrite R9 by congruence;
               split; [apply prefix_nil | constructor]).
        rewrite (S8 eq_refl eq_refl Hnone). cbn [app].
        exists ds. split; assumption.
      - subst d1. rewrite Hdelta. cbn.
        exists (delta :: ds). split.
        + apply (prefix_app [delta]). exact R7p.
        + constructor; [| exact R7].
          exists chunk. split; [exact Hdec |].
          eapply b64decode_reencode. exact Hdec. }
    split.
    { intros Hn. rewrite flat_map_app, S4, R8 by (apply Hstay1; exact Hn).
      destruct (status1 st); cbn; congruence. }
    intros Hn. rewrite flat_map_app, R9 by (apply Hstay2; exact Hn).
    rewrite app_nil_r.
    destruct S7 as [Hnone | (delta & chunk & Hdelta & Hdec & Hd1)]; [exact Hnone |].
    exfalso. subst d1.
    (* a frame was sent although the model pump did not run *)
    destruct a as [raw | | raw |]; try discriminate.
    cbn in S1. unfold st1 in S1. rewrite pump_OpenaiMessage in S1.
    destruct (status2 st); try congruence;
      cbn in S1; apply (f_equal (@length action)) in S1;
      rewrite length_app in S1; cbn in S1; lia.
Qed.

End PumpFacts.

(** ** The stages of [media_stream] *)

Section StageFacts.

Variable py_str : json -> string.

Lemma existsb_In (A : Type) (f : A -> bool) (x : A) (l : list A) :
  In x l -> f x = true -> existsb f l = true.
Proof. intros Hin Hf. apply existsb_exists. exists x. auto. Qed.

Lemma task_eqb_refl (t : task) : task_eqb t t = true.
Proof. destruct t; reflexivity. Qed.

(** Finds the recorded action that a goal about [existsb] asks for. *)
Ltac drain_goal :=
  rewrite ?existsb_app; cbn; rewrite ?orb_true_r;
  first [ reflexivity
        | apply orb_true_iff; left;
          match goal with
          | H : In (TaskDone _) _ |- _ => apply (existsb_In _ _ _ _ H); reflexivity
          end ].

(** From the creation of the tasks to the close of the model socket: the
    pumps handle the arrivals, then the relay records [c]. *)
Lemma drain_run (w : world) (settings : Settings) :
  let st0 := streaming settings in
  let stp := snd (pumps py_str (arrivals w) st0) in
  let st3 := snd (drain py_str w st0) in
  fst (drain py_str w st0) = Ok tt
  /\ exists d c,
       pumps_effect py_str (arrivals w) st0 stp d
       /\ trace st3 = trace st0 ++ d ++ c
       /\ transcript st3 = transcript stp
       /\ stream_sid st3 = stream_sid stp
       /\ forallb teardown_action c = true
       /\ existsb is_task_done (d ++ c) = true
       /\ (forall t, existsb (settles t) (d ++ c) = true)
       /\ (close_yields w = true -> forall t, existsb (stops t) (d ++ c) = true).
Proof.
  intros st0 stp st3.
  destruct (pumps_run py_str (arrivals w) st0) as [Hok [d Heff]].
  fold stp in Hok, Heff.
  pose proof Heff as (R1 & _ & R3 & _).
  assert (Hstatus : forall t, (status t stp = Running)
                              \/ (status t stp = Done /\ In (TaskDone t) d)).
  { intros t. destruct (R3 t) as [E | (_ & E & Hin)]; [left | right; auto].
    rewrite E. destruct t; reflexivity. }
  assert (Hdone : forall t c, In (TaskDone t) d ->
                              existsb is_task_done (d ++ c) = true
                              /\ existsb (settles t) (d ++ c) = true
                              /\ existsb (stops t) (d ++ c) = true).
  { intros t c Hin. rewrite !existsb_app.
    rewrite (existsb_In _ is_task_done _ _ Hin eq_refl).
    rewrite (existsb_In _ (settles t) _ _ Hin (task_eqb_refl t)).
    rewrite (existsb_In _ (stops t) _ _ Hin (task_eqb_refl t)). auto. }
  subst st3. unfold drain, asyncio_wait, openai_close.
  cbv beta iota delta [bind]. fold st0.
  destruct (pumps py_str (arrivals w) st0) as [r stp'] eqn:Epumps.
  cbn [fst snd] in *. subst stp r.
  destruct stp' as [sid lines s1 s2 tr]. cbn [trace] in R1. subst tr.
  destruct (Hstatus t1) as [E1 | [E1 In1]]; destruct (Hstatus t2) as [E2 | [E2 In2]];
    cbn in E1, E2; subst s1 s2;
    destruct (last_close w); destruct (close_yields w) eqn:Eyield;
    cbn; (split; [reflexivity |]); exists d; eexists;
    (split; [exact Heff |]);
    (split; [rewrite <- ?app_assoc; cbn [app]; reflexivity |]);
    (split; [reflexivity |]); (split; [reflexivity |]);
    (split; [reflexivity |]);
    (split; [drain_goal |]);
    (split; [intros []; drain_goal |]);
    intros Hy; try discriminate Hy; intros []; drain_goal.
Qed.

Lemma forallb_impl (A : Type) (f g : A -> bool) (l : list A) :
  (forall a, f a = true -> g a = true) ->
  forallb f l = true -> forallb g l = true.
Proof.
  intros Hfg. rewrite !forallb_forall. auto.
Qed.

Lemma pump_action_sends_only_audio (a : action) :
  pump_action a = true -> sends_only_audio a = true.
Proof. destruct a; cbn; auto. Qed.

Lemma teardown_action_sends_only_audio (a : action) :
  teardown_action a = true -> sends_only_audio a = true.
Proof. destruct a; cbn; auto; discriminate. Qed.

Lemma post_trace_sends_nothing (env : environ) (w : world) (settings : Settings)
    (conv : string) :
  forallb sends_only_audio (post_trace env w settings conv) = true.
Proof.
  unfold post_trace.
  destruct (String.eqb (strip conv) ""); destruct (configured env); reflexivity.
Qed.

Lemma bind_assoc (A B C : Type) (m : M A) (k : A -> M B) (h : B -> M C)
    (st : call_state) :
  bind (bind m k) h st = bind m (fun a => bind (k a) h) st.
Proof. unfold bind. destruct (m st) as [[a | e] st']; reflexivity. Qed.

Lemma bind_ext (A B : Type) (m : M A) (k k' : A -> M B) (st : call_state) :
  (forall a st', k a st' = k' a st') -> bind m k st = bind m k' st.
Proof. intros H. unfold bind. destruct (m st) as [[a | e] st']; auto. Qed.

(** The summarize and notify stages never raise, touch nothing but the
    trace, and record [post_trace]. *)
Lemma summarize_and_notify_run (env : environ) (w : world) (settings : Settings)
    (st : call_state) :
  summarize_and_notify env w settings st =
  (Ok tt,
   {| stream_sid := stream_sid st; transcript := transcript st;
      status1 := status1 st; status2 := status2 st;
      trace := trace st ++ post_trace env w settings (join LF (transcript st)) |}).
Proof.
  destruct st as [sid lines s1 s2 tr].
  unfold summarize_and_notify, summarize_conversation, send_summary_email,
    post_trace, summary_of, llm_summary, configured.
  cbv beta iota delta [bind get_transcript try_except emit ret raise lift
                       transcript stream_sid status1 status2 trace].
  destruct (String.eqb (strip (join LF lines)) "") eqn:Eblank.
  - destruct (env_truthy (SENDGRID_API_KEY env)); cbn;
      [destruct (env_truthy (EMAIL_FROM env)); cbn;
       [destruct (env_truthy (SUMMARY_TEMPLATE_ID env)); cbn;
        [destruct (sendgrid_raises w) |] |] |];
      cbn; rewrite <- ?app_assoc; reflexivity.
  - destruct (llm w) as [[| [content |] rest] | e]; cbn;
      (destruct (env_truthy (SENDGRID_API_KEY env)); cbn;
       [destruct (env_truthy (EMAIL_FROM env)); cbn;
        [destruct (env_truthy (SUMMARY_TEMPLATE_ID env)); cbn;
         [destruct (sendgrid_raises w) |] |] |]);
      cbn; rewrite <- ?app_assoc; reflexivity.
Qed.

Lemma media_stream_stages (STREAMS_SETTINGS : gmap string Settings) (env : environ)
    (w : world) (session_id : string) (settings : Settings) :
  STREAMS_SETTINGS !! session_id = Some settings ->
  handshake_ok w = true ->
  run_media_stream py_str STREAMS_SETTINGS env w session_id =
  (drain py_str w ;; summarize_and_notify env w settings) (streaming settings).
Proof.
  intros Hreg Hok. unfold run_media_stream, media_stream. rewrite Hreg, Hok.
  change ((asyncio_wait py_str w ;;
           cancel_if_pending t1 ;;
           cancel_if_pending t2 ;;
           openai_close w ;;
           summarize_and_notify env w settings) (streaming settings) =
          (drain py_str w ;; summarize_and_notify env w settings) (streaming settings)).
  unfold drain. generalize (streaming settings) as st. intros st.
  rewrite bind_assoc. apply bind_ext. intros _ st1.
  rewrite bind_assoc. apply bind_ext. intros _ st2.
  rewrite bind_assoc. reflexivity.
Qed.

(** An unknown session id: the socket is closed, nothing else happens. *)
Lemma media_stream_unregistered (STREAMS_SETTINGS : gmap string Settings)
    (env : environ) (w : world) (session_id : string) :
  STREAMS_SETTINGS !! session_id = None ->
  run_media_stream py_str STREAMS_SETTINGS env w session_id =
  (Ok tt,
   {| stream_sid := JNull; transcript := []; status1 := NotCreated;
      status2 := NotCreated; trace := [WsClose] |}).
Proof.
  intros Hreg. unfold run_media_stream, media_stream. rewrite Hreg. reflexivity.
Qed.

(** The handshake with the model fails: the socket is closed. *)
Lemma media_stream_no_handshake (STREAMS_SETTINGS : gmap string Settings)
    (env : environ) (w : world) (session_id : string) (settings : Settings) :
  STREAMS_SETTINGS !! session_id = Some settings ->
  handshake_ok w = false ->
  run_media_stream py_str STREAMS_SETTINGS env w session_id =
  (Ok tt,
   {| stream_sid := JNull; transcript := []; status1 := NotCreated;
      status2 := NotCreated; trace := [WsAccept; OpenaiConnect; WsClose] |}).
Proof.
  intros Hreg Hok. unfold run_media_stream, media_stream. rewrite Hreg, Hok.
  reflexivity.
Qed.

(** A registered session whose handshake succeeds: the whole call. *)
Lemma media_stream_run (STREAMS_SETTINGS : gmap string Settings) (env : environ)
    (w : world) (session_id : string) (settings : Settings) :
  STREAMS_SETTINGS !! session_id = Some settings ->
  handshake_ok w = true ->
  let st0 := streaming settings in
  let stp := snd (pumps py_str (arrivals w) st0) in
  let run := run_media_stream py_str STREAMS_SETTINGS env w session_id in
  fst run = Ok tt
  /\ transcript (snd run) = transcript stp
  /\ exists d c,
       pumps_effect py_str (arrivals w) st0 stp d
       /\ trace (snd run) =
          trace st0 ++ d ++ c ++ post_trace env w settings (join LF (transcript stp))
       /\ forallb teardown_action c = true
       /\ existsb is_task_done (d ++ c) = true
       /\ (forall t, existsb (settles t) (d ++ c) = true)
       /\ (close_yields w = true -> forall t, existsb (stops t) (d ++ c) = true).
Proof.
  intros Hreg Hok. cbv zeta.
  rewrite (media_stream_stages _ _ _ _ _ Hreg Hok).
  destruct (drain_run w settings) as (Hd & d & c & Heff & Htrace & Htr & _ & Hc & H1 & H2 & H3).
  unfold bind.
  destruct (drain py_str w (streaming settings)) as [r st3].
  cbn [fst snd] in *. subst r. rewrite summarize_and_notify_run. cbn [fst snd transcript trace].
  split; [reflexivity |]. split; [exact Htr |].
  exists d, c. rewrite Htr, Htrace, <- !app_assoc. auto 10.
Qed.

End StageFacts.

(** ** The session registry *)

Section RegistryFacts.

Variable py_str : json -> string.
Variable env : environ.

Lemma handle_other (STREAMS_SETTINGS : gmap string Settings) (r : request)
    (session_id : string) :
  (forall req, r <> PostCallCustom req session_id) ->
  fst (handle py_str env STREAMS_SETTINGS r) !! session_id
  = STREAMS_SETTINGS !! session_id.
Proof.
  intros Hr. destruct r as [req sid' | sid' w]; cbn.
  - unfold call_custom. apply lookup_insert_ne. intros ->. apply (Hr req). reflexivity.
  - reflexivity.
Qed.

(** Only [call_custom] with the same id changes what the registry holds
    for a session id. *)
Lemma serve_other (rs : list request) (session_id : string) :
  (forall req, ~ In (PostCallCustom req session_id) rs) ->
  forall STREAMS_SETTINGS : gmap string Settings,
    serve py_str env STREAMS_SETTINGS rs !! session_id = STREAMS_SETTINGS !! session_id.
Proof.
  induction rs as [| r rs IH]; intros Hrs reg.
  - reflexivity.
  - cbn [serve]. rewrite IH.
    + apply handle_other. intros req ->. apply (Hrs req). left. reflexivity.
    + intros req Hin. apply (Hrs req). right. exact Hin.
Qed.

(** C2. A connection to the relay endpoint for a session id that no
    [call_custom] ever registered is refused: the inbound socket is closed
    at once, and that is all the relay does -- the model socket is not
    opened, no transcript is kept, nothing is summarized or sent. *)
Theorem unregistered_session_refused (rs : list request) (session_id : string)
    (w : world) :
  (forall req, ~ In (PostCallCustom req session_id) rs) ->
  run_media_stream py_str (serve py_str env ∅ rs) env w session_id =
  (Ok tt,
   {| stream_sid := JNull; transcript := []; status1 := NotCreated;
      status2 := NotCreated; trace := [WsClose] |}).
Proof.
  intros Hrs. apply media_stream_unregistered.
  rewrite (serve_other rs session_id Hrs). apply lookup_empty.
Qed.

(** C4, as the code has it.  An entry is created when a call is requested
    and is only read when the relay attaches: nothing removes or marks it,
    so every later relay connection for the same id finds the same entry. *)
Theorem registry_entry_persists (req : CallCustomRequest) (session_id : string)
    (STREAMS_SETTINGS : gmap string Settings) (rs : list request) :
  (forall req', ~ In (PostCallCustom req' session_id) rs) ->
  serve py_str env (call_custom req session_id STREAMS_SETTINGS) rs !! session_id =
  Some {| settings_system_message := system_message req;
          settings_voice := voice req;
          settings_email := email req |}.
Proof.
  intros Hrs. rewrite (serve_other rs session_id Hrs).
  unfold call_custom. apply lookup_insert_eq.
Qed.

End RegistryFacts.

(** ** Notification *)

(** C5, as the code has it.  [send_summary_email] never raises.  Without
    its configuration it returns without contacting the mail service; with
    it, it makes one delivery attempt, and a failed delivery is caught
    inside the function. *)
Theorem send_summary_email_never_raises (env : environ) (w : world)
    (to_email summary : string) (st : call_state) :
  fst (send_summary_email env w to_email summary st) = Ok tt
  /\ trace (snd (send_summary_email env w to_email summary st)) =
     trace st
     ++ SendSummaryEmail to_email summary
        :: (if configured env
            then [SendgridSend (default ""%string (EMAIL_FROM env)) to_email
                    (default ""%string (SUMMARY_TEMPLATE_ID env)) summary]
            else []).
Proof.
  unfold send_summary_email, configured.
  cbv beta iota delta [bind try_except emit ret raise trace].
  destruct (env_truthy (SENDGRID_API_KEY env)); cbn;
    [destruct (env_truthy (EMAIL_FROM env)); cbn;
     [destruct (env_truthy (SUMMARY_TEMPLATE_ID env)); cbn;
      [destruct (sendgrid_raises w) |] |] |];
    cbn; rewrite <- ?app_assoc; split; reflexivity.
Qed.

(** ** The opening of the model session *)

Section SessionFacts.

Variable py_str : json -> string.

(** C6. For a registered session whose handshake with the model succeeds,
    the relay accepts the socket, connects, and then sends exactly three
    messages before it creates the pump tasks, in this order: the session
    configuration (the registered voice and instructions, server-driven
    turn detection, the g711 u-law codec for input and output, input
    transcription), the synthetic user message that asks for a greeting,
    and the response trigger. *)
Theorem three_initialization_messages (STREAMS_SETTINGS : gmap string Settings)
    (env : environ) (w : world) (session_id : string) (settings : Settings) :
  STREAMS_SETTINGS !! session_id = Some settings ->
  handshake_ok w = true ->
  exists rest,
    trace (snd (run_media_stream py_str STREAMS_SETTINGS env w session_id)) =
    [WsAccept;
     OpenaiConnect;
     OpenaiSend
       (JObj [("type", JStr "session.update");
              ("session",
               JObj [("voice", JStr (settings_voice settings));
                     ("instructions", JStr (settings_system_message settings));
                     ("turn_detection", JObj [("type", JStr "server_vad")]);
                     ("input_audio_format", JStr "g711_ulaw");
                     ("output_audio_format", JStr "g711_ulaw");
                     ("input_audio_transcription",
                      JObj [("model", JStr "whisper-1")])])]);
     OpenaiSend
       (JObj [("type", JStr "conversation.item.create");
              ("item",
               JObj [("type", JStr "message");
                     ("role", JStr "user");
                     ("content",
                      JArr [JObj [("type", JStr "input_text");
                                  ("text",
                                   JStr "Please begin by greeting the user.")]])])]);
     OpenaiSend (JObj [("type", JStr "response.create")]);
     CreateTask t1;
     CreateTask t2]
    ++ rest
    /\ forallb sends_only_audio rest = true.
Proof.
  intros Hreg Hok.
  destruct (media_stream_run py_str STREAMS_SETTINGS env w session_id settings Hreg Hok)
    as (_ & _ & d & c & Heff & Htrace & Hc & _).
  exists (d ++ c ++ post_trace env w settings
            (join LF (transcript (snd (pumps py_str (arrivals w) (streaming settings)))))).
  split; [exact Htrace |].
  destruct Heff as (_ & Hd & _).
  rewrite !forallb_app.
  rewrite (forallb_impl _ _ _ d pump_action_sends_only_audio Hd).
  rewrite (forallb_impl _ _ _ c teardown_action_sends_only_audio Hc).
  apply post_trace_sends_nothing.
Qed.

End SessionFacts.

(** ** The whole call *)

Section CallFacts.

Variable py_str : json -> string.

Lemma pump_action_calm (a : action) : pump_action a = true -> calm a = true.
Proof. destruct a; cbn; auto. Qed.

Lemma teardown_action_calm (a : action) : teardown_action a = true -> calm a = true.
Proof. destruct a; cbn; auto. Qed.

Lemma calm_filter (f : action -> bool) (l : list action) :
  (forall a, f a = true -> post_processing a = true) ->
  forallb calm l = true -> count f l = 0%nat.
Proof.
  intros Hf. unfold count. induction l as [| a l IH]; cbn; [reflexivity |].
  intros H. apply andb_true_iff in H. destruct H as [Ha Hl].
  destruct (f a) eqn:Efa; [| auto].
  apply Hf in Efa. unfold calm in Ha. rewrite Efa in Ha. discriminate.
Qed.

Lemma count_app (f : action -> bool) (l1 l2 : list action) :
  count f (l1 ++ l2) = (count f l1 + count f l2)%nat.
Proof. unfold count. rewrite List.filter_app, length_app. reflexivity. Qed.

(** An action of the last stages splits a trace after its calm part. *)
Lemma split_after_calm (T P pre post : list action) (a : action) :
  forallb calm T = true ->
  T ++ P = pre ++ a :: post ->
  post_processing a = true ->
  exists p1, pre = T ++ p1.
Proof.
  revert pre. induction T as [| x T IH]; intros pre Hcalm Hsplit Ha.
  - exists pre. reflexivity.
  - cbn in Hcalm. apply andb_true_iff in Hcalm. destruct Hcalm as [Hx HT].
    destruct pre as [| y pre].
    + cbn in Hsplit. injection Hsplit as -> _.
      unfold calm in Hx. rewrite Ha in Hx. discriminate.
    + cbn in Hsplit. injection Hsplit as -> Hsplit.
      destruct (IH pre HT Hsplit Ha) as [p1 ->]. exists p1. reflexivity.
Qed.

Lemma calm_after_cancel (tr : list action) :
  forallb calm tr = true -> post_processing_after_cancel tr.
Proof.
  intros Hcalm pre a post Hsplit Ha. exfalso.
  rewrite forallb_forall in Hcalm.
  assert (Hin : In a tr) by (rewrite Hsplit; apply in_or_app; right; left; reflexivity).
  apply Hcalm in Hin. unfold calm in Hin. rewrite Ha in Hin. discriminate.
Qed.

Lemma calm_after_stop (tr : list action) :
  forallb calm tr = true -> post_processing_after_stop tr.
Proof.
  intros Hcalm pre a post Hsplit Ha. exfalso.
  rewrite forallb_forall in Hcalm.
  assert (Hin : In a tr) by (rewrite Hsplit; apply in_or_app; right; left; reflexivity).
  apply Hcalm in Hin. unfold calm in Hin. rewrite Ha in Hin. discriminate.
Qed.

Lemma quiet_teardown (c : list action) :
  forallb teardown_action c = true ->
  flat_map appended_audio c = [] /\ flat_map media_payload c = []
  /\ existsb is_llm_request c = false.
Proof.
  induction c as [| a c IH]; cbn; [auto |].
  intros H. apply andb_true_iff in H. destruct H as [Ha Hc].
  destruct (IH Hc) as (I1 & I2 & I3).
  destruct a; try discriminate; cbn; auto.
Qed.

Lemma quiet_post_trace (env : environ) (w : world) (settings : Settings)
    (conv : string) :
  flat_map appended_audio (post_trace env w settings conv) = []
  /\ flat_map media_payload (post_trace env w settings conv) = []
  /\ count is_summarize (post_trace env w settings conv) = 1%nat
  /\ count is_notify (post_trace env w settings conv) = 1%nat.
Proof.
  unfold post_trace.
  destruct (String.eqb (strip conv) ""); destruct (configured env); cbn; auto.
Qed.

(** What holds of the calm part of a trace holds before every action of
    the last stages. *)
Lemma settled_prefix (f : action -> bool) (T P pre post : list action)
    (a : action) :
  forallb calm T = true ->
  T ++ P = pre ++ a :: post ->
  post_processing a = true ->
  existsb f T = true ->
  existsb f pre = true.
Proof.
  intros HT Hsplit Ha Hf.
  destruct (split_after_calm _ _ _ _ _ HT Hsplit Ha) as [p1 ->].
  rewrite existsb_app, Hf. reflexivity.
Qed.

(** The trace of a registered call whose handshake succeeded: a calm part
    that holds what the pumps and the teardown recorded, then the last
    stages. *)
Lemma media_stream_trace_split (STREAMS_SETTINGS : gmap string Settings)
    (env : environ) (w : world) (session_id : string) (settings : Settings) :
  STREAMS_SETTINGS !! session_id = Some settings ->
  handshake_ok w = true ->
  exists T P,
    trace (snd (run_media_stream py_str STREAMS_SETTINGS env w session_id)) = T ++ P
    /\ forallb calm T = true
    /\ count is_summarize P = 1%nat
    /\ count is_notify P = 1%nat
    /\ existsb is_task_done T = true
    /\ (forall t, existsb (settles t) T = true)
    /\ (close_yields w = true -> forall t, existsb (stops t) T = true).
Proof.
  intros Hreg Hok.
  destruct (media_stream_run py_str STREAMS_SETTINGS env w session_id settings Hreg Hok)
    as (_ & _ & d & c & Heff & Htrace & Hc & Hdone & Hsettled & Hstopped).
  destruct Heff as (_ & Hd & _).
  destruct (quiet_post_trace env w settings
              (join LF (transcript (snd (pumps py_str (arrivals w) (streaming settings))))))
    as (_ & _ & Hsum & Hnot).
  exists (trace (streaming settings) ++ d ++ c).
  exists (post_trace env w settings
            (join LF (transcript (snd (pumps py_str (arrivals w) (streaming settings)))))).
  split; [rewrite Htrace, <- !app_assoc; reflexivity |].
  split.
  { rewrite !forallb_app.
    rewrite (forallb_impl _ _ _ d pump_action_calm Hd).
    rewrite (forallb_impl _ _ _ c teardown_action_calm Hc). reflexivity. }
  split; [exact Hsum |]. split; [exact Hnot |].
  split; [rewrite existsb_app, Hdone; apply orb_true_r |].
  split.
  - intros t. rewrite existsb_app, Hsettled. apply orb_true_r.
  - intros Hy t. rewrite existsb_app, (Hstopped Hy). apply orb_true_r.
Qed.

(** C1, as the code has it.  For every call, summarization and
    notification are attempted at most once, and only after a pump has
    finished and each pump has finished or has been asked to stop
    ([cancel()]); the relay does not await the pump it cancelled. *)
Theorem summary_and_notification_once (STREAMS_SETTINGS : gmap string Settings)
    (env : environ) (w : world) (session_id : string) :
  let tr := trace (snd (run_media_stream py_str STREAMS_SETTINGS env w session_id)) in
  (count is_summarize tr <= 1)%nat
  /\ (count is_notify tr <= 1)%nat
  /\ post_processing_after_cancel tr.
Proof.
  cbv zeta.
  destruct (STREAMS_SETTINGS !! session_id) as [settings |] eqn:Hreg.
  2: { rewrite (media_stream_unregistered py_str _ env w _ Hreg). cbn [snd trace].
       split; [cbn; lia |]. split; [cbn; lia |].
       apply calm_after_cancel. reflexivity. }
  destruct (handshake_ok w) eqn:Hok.
  2: { rewrite (media_stream_no_handshake py_str _ env w _ _ Hreg Hok). cbn [snd trace].
       split; [cbn; lia |]. split; [cbn; lia |].
       apply calm_after_cancel. reflexivity. }
  destruct (media_stream_trace_split STREAMS_SETTINGS env w session_id settings Hreg Hok)
    as (T & P & -> & HT & Hsum & Hnot & Hdone & Hsettled & _).
  split; [| split].
  - rewrite count_app, Hsum.
    rewrite (calm_filter is_summarize _ (fun a => ltac:(destruct a; cbn; auto)) HT).
    lia.
  - rewrite count_app, Hnot.
    rewrite (calm_filter is_notify _ (fun a => ltac:(destruct a; cbn; auto)) HT).
    lia.
  - intros pre a post Hsplit Ha. split.
    + eapply settled_prefix; eauto.
    + intros t. eapply settled_prefix; eauto.
Qed.

(** When awaiting the close of the model socket suspends the relay, the
    event loop delivers the cancellation: both pumps have stopped before
    the summary. *)
Lemma stopped_when_close_yields (STREAMS_SETTINGS : gmap string Settings)
    (env : environ) (w : world) (session_id : string) :
  close_yields w = true ->
  post_processing_after_stop
    (trace (snd (run_media_stream py_str STREAMS_SETTINGS env w session_id))).
Proof.
  intros Hyield.
  destruct (STREAMS_SETTINGS !! session_id) as [settings |] eqn:Hreg.
  2: { rewrite (media_stream_unregistered py_str _ env w _ Hreg).
       apply calm_after_stop. reflexivity. }
  destruct (handshake_ok w) eqn:Hok.
  2: { rewrite (media_stream_no_handshake py_str _ env w _ _ Hreg Hok).
       apply calm_after_stop. reflexivity. }
  destruct (media_stream_trace_split STREAMS_SETTINGS env w session_id settings Hreg Hok)
    as (T & P & -> & HT & _ & _ & _ & _ & Hstopped).
  intros pre a post Hsplit Ha t.
  eapply settled_prefix; eauto.
Qed.


(** The transcript that summarization gets is the joined transcript. *)
Lemma summarized_text (env : environ) (w : world) (settings : Settings) (conv : string) :
  In (SummarizeConversation conv) (post_trace env w settings conv)
  /\ In (SendSummaryEmail (settings_email settings) (summary_of w conv))
        (post_trace env w settings conv).
Proof.
  unfold post_trace. split; [left; reflexivity |].
  right. apply in_or_app. right. left. reflexivity.
Qed.

(** A completion event adds its line and leaves the model pump running. *)
Lemma pump_completion_event (e : speaker * string) (st : call_state) :
  status2 st = Running ->
  pump py_str (completion_event e) st =
  (Ok tt,
   {| stream_sid := stream_sid st;
      transcript := transcript st ++ [transcript_line e];
      status1 := status1 st; status2 := Running; trace := trace st |}).
Proof.
  destruct e as [[] text]; destruct st as [sid lines s1 s2 tr];
    cbn [status2]; intros ->; reflexivity.
Qed.

(** Completion events keep the model pump running and add their lines. *)
Lemma pumps_completion_events (evs : list (speaker * string)) :
  forall st,
    status2 st = Running ->
    status2 (snd (pumps py_str (map completion_event evs) st)) = Running
    /\ transcript (snd (pumps py_str (map completion_event evs) st)) =
       transcript st ++ map transcript_line evs.
Proof.
  induction evs as [| e evs IH]; intros st Hrun.
  - cbn. rewrite app_nil_r. auto.
  - cbn [map]. rewrite pumps_cons, (pump_completion_event e st Hrun). cbn [snd].
    match goal with
    | |- context [pumps py_str _ ?st1] => destruct (IH st1 eq_refl) as [IH1 IH2]
    end.
    rewrite IH1, IH2. cbn [transcript]. rewrite <- app_assoc. auto.
Qed.

(** C7. Transcript entries are appended in the arrival order of the
    completion events, tagged [user] for a completed input transcription and
    [assistant] for a finished response transcript: the transcript is an
    initial part of the lines of the completion events that arrive, it is
    all of them when only completion events arrive, and summarization gets
    its lines joined by newlines.  User "Hello" then assistant "Hi there"
    join to "user: Hello\nassistant: Hi there". *)
Theorem transcript_in_arrival_order (STREAMS_SETTINGS : gmap string Settings)
    (env : environ) (w : world) (session_id : string) (settings : Settings) :
  STREAMS_SETTINGS !! session_id = Some settings ->
  handshake_ok w = true ->
  let run := run_media_stream py_str STREAMS_SETTINGS env w session_id in
  transcript (snd run) `prefix_of` flat_map (completion_line py_str) (arrivals w)
  /\ (forall evs, arrivals w = map completion_event evs ->
                  transcript (snd run) = map transcript_line evs)
  /\ In (SummarizeConversation (join LF (transcript (snd run)))) (trace (snd run))
  /\ join LF (map transcript_line [(user, "Hello"%string); (assistant, "Hi there"%string)])
     = ("user: Hello" ++ LF ++ "assistant: Hi there")%string.
Proof.
  intros Hreg Hok. cbv zeta.
  destruct (media_stream_run py_str STREAMS_SETTINGS env w session_id settings Hreg Hok)
    as (_ & Htr & d & c & Heff & Htrace & _).
  destruct Heff as (_ & _ & _ & _ & (lines & Hlines & Hpre & _) & _).
  rewrite Htr, Htrace.
  split; [rewrite Hlines; exact Hpre |].
  split.
  { intros evs Hevs. rewrite Hevs.
    destruct (pumps_completion_events evs (streaming settings) eq_refl) as [_ ->].
    reflexivity. }
  split; [| reflexivity].
  apply in_or_app. right. apply in_or_app. right. apply in_or_app. right.
  apply summarized_text.
Qed.

(** C8. When the joined transcript is empty, [summarize_conversation] is
    called with the empty text and no chat-completion request is made; the
    summary is the placeholder "No conversation content to summarize.", and
    [send_summary_email] is called with it for the session's address. *)
Theorem empty_transcript_placeholder (STREAMS_SETTINGS : gmap string Settings)
    (env : environ) (w : world) (session_id : string) (settings : Settings) :
  STREAMS_SETTINGS !! session_id = Some settings ->
  handshake_ok w = true ->
  let run := run_media_stream py_str STREAMS_SETTINGS env w session_id in
  join LF (transcript (snd run)) = ""%string ->
  (forall st, fst (summarize_conversation w (join LF (transcript (snd run))) st)
              = Ok "No conversation content to summarize."%string)
  /\ In (SummarizeConversation "") (trace (snd run))
  /\ existsb is_llm_request (trace (snd run)) = false
  /\ In (SendSummaryEmail (settings_email settings)
           "No conversation content to summarize.") (trace (snd run)).
Proof.
  intros Hreg Hok. cbv zeta.
  destruct (media_stream_run py_str STREAMS_SETTINGS env w session_id settings Hreg Hok)
    as (_ & Htr & d & c & Heff & Htrace & Hc & _).
  destruct Heff as (_ & Hd & _).
  rewrite Htr, Htrace. intros Hempty. rewrite Hempty.
  destruct (summarized_text env w settings "") as [S1 S2].
  split; [intros st; reflexivity |].
  split; [do 3 (apply in_or_app; right); exact S1 |].
  split; [| do 3 (apply in_or_app; right); exact S2].
  rewrite !existsb_app.
  destruct (quiet_teardown c Hc) as (_ & _ & ->).
  assert (Hd' : existsb is_llm_request d = false).
  { clear -Hd. induction d as [| a d IH]; [reflexivity |].
    cbn in Hd. apply andb_true_iff in Hd. destruct Hd as [Ha Hd].
    cbn. rewrite (IH Hd). destruct a; try discriminate; reflexivity. }
  rewrite Hd'. unfold post_trace. cbn.
  destruct (configured env); reflexivity.
Qed.

(** When [summarize_conversation] raises: the text is not blank and the
    request, or the reading of its response, failed. *)
Lemma summarize_conversation_raises (w : world) (conv : string) (st : call_state)
    (e : exn) :
  fst (summarize_conversation w conv st) = Raise e ->
  summary_of w conv = SUMMARY_FAILED.
Proof.
  unfold summarize_conversation, summary_of, llm_summary.
  cbv beta iota delta [bind try_except emit ret raise lift].
  destruct (String.eqb (strip conv) ""); [discriminate |].
  destruct (llm w) as [choices | e']; [| reflexivity].
  destruct (first_content choices); [discriminate | reflexivity].
Qed.

(** C9. When [summarize_conversation] fails, the relay catches the
    exception: [media_stream] still returns normally, the summary is the
    placeholder "Sorry, I couldn't generate a summary.", and
    [send_summary_email] is called with it. *)
Theorem summarizer_failure_replaced (STREAMS_SETTINGS : gmap string Settings)
    (env : environ) (w : world) (session_id : string) (settings : Settings)
    (e : exn) :
  STREAMS_SETTINGS !! session_id = Some settings ->
  handshake_ok w = true ->
  let run := run_media_stream py_str STREAMS_SETTINGS env w session_id in
  fst (summarize_conversation w (join LF (transcript (snd run))) (snd run)) = Raise e ->
  fst run = Ok tt
  /\ In (SendSummaryEmail (settings_email settings)
           "Sorry, I couldn't generate a summary.") (trace (snd run)).
Proof.
  intros Hreg Hok. cbv zeta. intros Hraise.
  apply summarize_conversation_raises in Hraise.
  destruct (media_stream_run py_str STREAMS_SETTINGS env w session_id settings Hreg Hok)
    as (Hret & Htr & d & c & _ & Htrace & _).
  split; [exact Hret |].
  rewrite Htrace. rewrite Htr in Hraise.
  do 3 (apply in_or_app; right).
  change "Sorry, I couldn't generate a summary."%string with SUMMARY_FAILED.
  rewrite <- Hraise. apply summarized_text.
Qed.

(** An audio delta that decodes is forwarded, under the current stream id. *)
Lemma openai_to_twilio_frame_forwards (raw : option json) (st : call_state)
    (delta : json) (chunk : list Z) :
  audio_delta_of raw = [delta] ->
  b64decode delta = Ok chunk ->
  trace (snd (openai_to_twilio_frame py_str raw st)) =
  trace st ++ [WsSendJson (media_frame (stream_sid st) (b64encode chunk))]
  /\ fst (openai_to_twilio_frame py_str raw st) = Ok tt.
Proof.
  unfold audio_delta_of, openai_to_twilio_frame.
  cbv beta iota delta [bind lift transcript_append get_stream_sid emit ret].
  destruct raw as [[| b | z | s | l | kvs] |]; try discriminate.
  cbn.
  destruct (assoc "type" kvs) as [[| b | z | s | l | kvs'] |] eqn:Ety;
    cbn; try (destruct (assoc "delta" kvs); discriminate).
  destruct (String.eqb s "response.audio.delta") eqn:E3.
  2: { cbn. destruct (assoc "delta" kvs); discriminate. }
  apply String.eqb_eq in E3. subst s. cbn.
  destruct (assoc "delta" kvs) as [delta' |]; cbn; [| discriminate].
  destruct (truthy delta'); cbn; [| discriminate].
  intros [= ->] ->. cbn. auto.
Qed.

(** C10. When a model audio delta arrives and no telephony [start] event
    has been handled before it, the relay still sends a media frame to the
    telephony socket, and the [streamSid] of that frame is null. *)
Theorem audio_before_start_null_stream_sid (STREAMS_SETTINGS : gmap string Settings)
    (env : environ) (w : world) (session_id : string) (settings : Settings)
    (pre post : list arrival) (evt delta : json) (chunk : list Z) :
  STREAMS_SETTINGS !! session_id = Some settings ->
  handshake_ok w = true ->
  arrivals w = pre ++ OpenaiMessage (Some evt) :: post ->
  Forall (fun a => is_start a = false) pre ->
  model_pump_runs_after py_str pre settings ->
  audio_delta_of (Some evt) = [delta] ->
  b64decode delta = Ok chunk ->
  In (WsSendJson
        (JObj [("event", JStr "media");
               ("streamSid", JNull);
               ("media", JObj [("payload", JStr (b64encode chunk))])]))
     (trace (snd (run_media_stream py_str STREAMS_SETTINGS env w session_id))).
Proof.
  intros Hreg Hok Harr Hpre Hruns Hdelta Hdec.
  destruct (media_stream_run py_str STREAMS_SETTINGS env w session_id settings Hreg Hok)
    as (_ & _ & d & c & Heff & Htrace & _).
  destruct Heff as (Hd & _).
  rewrite Htrace, app_assoc, <- Hd. apply in_or_app. left.
  rewrite Harr, pumps_app, pumps_cons.
  set (st1 := snd (pumps py_str pre (streaming settings))) in *.
  destruct (pumps_run py_str pre (streaming settings)) as [_ [d1 Hpre_eff]].
  fold st1 in Hpre_eff.
  destruct Hpre_eff as (_ & _ & _ & _ & _ & Hsid & _).
  specialize (Hsid Hpre). cbn in Hsid.
  unfold model_pump_runs_after in Hruns. fold st1 in Hruns.
  destruct (openai_to_twilio_frame_forwards (Some evt) st1 delta chunk Hdelta Hdec)
    as [Hsent Hret].
  rewrite Hsid in Hsent.
  assert (Hstep : trace (snd (pump py_str (OpenaiMessage (Some evt)) st1)) =
                  trace st1 ++ [WsSendJson (media_frame JNull (b64encode chunk))]).
  { rewrite pump_OpenaiMessage, Hruns.
    destruct (openai_to_twilio_frame py_str (Some evt) st1) as [[[] | e'] st2];
      cbn in *; [exact Hsent | discriminate]. }
  destruct (pumps_run py_str post (snd (pump py_str (OpenaiMessage (Some evt)) st1)))
    as [_ [d2 (Hpost & _)]].
  rewrite Hpost, Hstep. apply in_or_app. left. apply in_or_app. right.
  left. reflexivity.
Qed.

End CallFacts.

(** ** The worked calls *)

Import Examples.

(** C2 on a worked history: ["zzz"] was never registered. *)
Lemma unregistered_session_refused_witness :
  (forall req, ~ In (PostCallCustom req "zzz") history_abc)
  /\ run_media_stream str_atom (serve str_atom env_full ∅ history_abc) env_full
       world_silent "zzz" =
     (Ok tt,
      {| stream_sid := JNull; transcript := []; status1 := NotCreated;
         status2 := NotCreated; trace := [WsClose] |}).
Proof.
  assert (H : forall req, ~ In (PostCallCustom req "zzz") history_abc).
  { intros req [H | [H | [H | []]]]; discriminate H. }
  split; [exact H |].
  apply (unregistered_session_refused str_atom env_full history_abc "zzz" world_silent H).
Defined.

(** C4 as stated fails: after the relay has attached for ["abc123"], the
    entry is still in the registry, and a second connection for the same id
    is not refused. *)
Lemma registry_entry_not_consumed :
  serve str_atom env_full registry_abc [ConnectMediaStream "abc123" world_silent]
    !! "abc123" = Some settings_abc
  /\ trace (snd (run_media_stream str_atom
                   (serve str_atom env_full registry_abc
                      [ConnectMediaStream "abc123" world_silent])
                   env_full world_silent "abc123")) <> [WsClose].
Proof.
  split; [vm_compute; reflexivity |].
  vm_compute. discriminate.
Qed.

(** C4, amended, on the worked history. *)
Lemma registry_entry_persists_witness :
  (forall req', ~ In (PostCallCustom req' "abc123")
                     [ConnectMediaStream "abc123" world_silent;
                      ConnectMediaStream "abc123" world_dialogue])
  /\ serve str_atom env_full (call_custom req_abc "abc123" ∅)
       [ConnectMediaStream "abc123" world_silent;
        ConnectMediaStream "abc123" world_dialogue] !! "abc123" =
     Some {| settings_system_message := system_message req_abc;
             settings_voice := voice req_abc;
             settings_email := email req_abc |}.
Proof.
  assert (H : forall req', ~ In (PostCallCustom req' "abc123")
                                [ConnectMediaStream "abc123" world_silent;
                                 ConnectMediaStream "abc123" world_dialogue]).
  { intros req [H | [H | []]]; discriminate H. }
  split; [exact H |].
  apply (registry_entry_persists str_atom env_full req_abc "abc123" ∅ _ H).
Defined.

(** C5 as stated fails: without its configuration, and when the delivery
    raises, [send_summary_email] returns normally. *)
Lemma notification_failure_not_raised :
  configured env_unset = false
  /\ fst (send_summary_email env_unset world_silent "a@example.com" "summary" initial)
     = Ok tt
  /\ sendgrid_raises world_llm_down = true
  /\ fst (send_summary_email env_full world_llm_down "a@example.com" "summary" initial)
     = Ok tt.
Proof. repeat split; reflexivity. Qed.

(** C1 as stated fails: in the worked dialogue the model socket closes
    first and closing it again does not suspend the relay; the summary
    starts when [t1] has only been asked to stop. *)
Lemma summary_before_pump_stopped :
  ~ post_processing_after_stop
      (trace (snd (run_media_stream str_atom registry_abc env_full world_dialogue
                     "abc123"))).
Proof.
  intros H.
  pose (tr := trace (snd (run_media_stream str_atom registry_abc env_full
                            world_dialogue "abc123"))).
  specialize (H (firstn 13 tr) (nth 13 tr WsClose) (skipn 14 tr)).
  assert (Hsplit : tr = firstn 13 tr ++ nth 13 tr WsClose :: skipn 14 tr)
    by (vm_compute; reflexivity).
  specialize (H Hsplit).
  assert (Ha : nth 13 tr WsClose =
               SummarizeConversation ("user: Hello" ++ LF ++ "assistant: Hi there")%string)
    by (vm_compute; reflexivity).
  rewrite Ha in H. specialize (H eq_refl t1).
  vm_compute in H. discriminate H.
Qed.

(** C6 on the silent call. *)
Lemma three_initialization_messages_witness :
  registry_abc !! "abc123" = Some settings_abc
  /\ handshake_ok world_silent = true
  /\ exists rest,
       trace (snd (run_media_stream str_atom registry_abc env_full world_silent
                      "abc123")) =
       trace (streaming settings_abc) ++ rest
       /\ forallb sends_only_audio rest = true.
Proof.
  assert (H : registry_abc !! "abc123" = Some settings_abc) by (vm_compute; reflexivity).
  split; [exact H |]. split; [reflexivity |].
  exact (three_initialization_messages str_atom registry_abc env_full world_silent
           "abc123" settings_abc H eq_refl).
Defined.

(** C7 on user "Hello" then assistant "Hi there". *)
Lemma transcript_in_arrival_order_witness :
  registry_abc !! "abc123" = Some settings_abc
  /\ handshake_ok world_hello = true
  /\ arrivals world_hello =
     map completion_event [(user, "Hello"%string); (assistant, "Hi there"%string)]
  /\ transcript (snd (run_media_stream str_atom registry_abc env_full world_hello
                        "abc123")) =
     ["user: Hello"%string; "assistant: Hi there"%string].
Proof.
  assert (H : registry_abc !! "abc123" = Some settings_abc) by (vm_compute; reflexivity).
  split; [exact H |]. split; [reflexivity |]. split; [reflexivity |].
  destruct (transcript_in_arrival_order str_atom registry_abc env_full world_hello
              "abc123" settings_abc H eq_refl) as (_ & Hall & _).
  exact (Hall [(user, "Hello"%string); (assistant, "Hi there"%string)] eq_refl).
Defined.

(** C8 on the silent call: [start], two [media] frames, socket closed. *)
Lemma empty_transcript_placeholder_witness :
  registry_abc !! "abc123" = Some settings_abc
  /\ handshake_ok world_silent = true
  /\ join LF (transcript (snd (run_media_stream str_atom registry_abc env_full
                                 world_silent "abc123"))) = ""%string
  /\ In (SendSummaryEmail "a@example.com" "No conversation content to summarize.")
        (trace (snd (run_media_stream str_atom registry_abc env_full world_silent
                       "abc123"))).
Proof.
  assert (H : registry_abc !! "abc123" = Some settings_abc) by (vm_compute; reflexivity).
  assert (Hempty : join LF (transcript (snd (run_media_stream str_atom registry_abc
                                               env_full world_silent "abc123")))
                   = ""%string) by (vm_compute; reflexivity).
  split; [exact H |]. split; [reflexivity |]. split; [exact Hempty |].
  destruct (empty_transcript_placeholder str_atom registry_abc env_full world_silent
              "abc123" settings_abc H eq_refl Hempty) as (_ & _ & _ & Hsent).
  exact Hsent.
Defined.

(** C9 on the call whose summarizer is down. *)
Lemma summarizer_failure_replaced_witness :
  registry_abc !! "abc123" = Some settings_abc
  /\ handshake_ok world_llm_down = true
  /\ fst (summarize_conversation world_llm_down
            (join LF (transcript (snd (run_media_stream str_atom registry_abc env_full
                                         world_llm_down "abc123"))))
            (snd (run_media_stream str_atom registry_abc env_full world_llm_down
                    "abc123"))) = Raise APIError
  /\ fst (run_media_stream str_atom registry_abc env_full world_llm_down "abc123")
     = Ok tt
  /\ In (SendSummaryEmail "a@example.com" "Sorry, I couldn't generate a summary.")
        (trace (snd (run_media_stream str_atom registry_abc env_full world_llm_down
                       "abc123"))).
Proof.
  assert (H : registry_abc !! "abc123" = Some settings_abc) by (vm_compute; reflexivity).
  assert (Hraise :
            fst (summarize_conversation world_llm_down
                   (join LF (transcript (snd (run_media_stream str_atom registry_abc
                                                env_full world_llm_down "abc123"))))
                   (snd (run_media_stream str_atom registry_abc env_full world_llm_down
                           "abc123"))) = Raise APIError) by (vm_compute; reflexivity).
  split; [exact H |]. split; [reflexivity |]. split; [exact Hraise |].
  exact (summarizer_failure_replaced str_atom registry_abc env_full world_llm_down
           "abc123" settings_abc APIError H eq_refl Hraise).
Defined.

(** C10 on the worked dialogue, whose first arrival is an audio delta. *)
Lemma audio_before_start_null_stream_sid_witness :
  registry_abc !! "abc123" = Some settings_abc
  /\ handshake_ok world_dialogue = true
  /\ b64decode (JStr "SGk=") = Ok [72; 105]
  /\ In (WsSendJson
           (JObj [("event", JStr "media");
                  ("streamSid", JNull);
                  ("media", JObj [("payload", JStr (b64encode [72; 105]))])]))
        (trace (snd (run_media_stream str_atom registry_abc env_full world_dialogue
                       "abc123"))).
Proof.
  assert (H : registry_abc !! "abc123" = Some settings_abc) by (vm_compute; reflexivity).
  split; [exact H |]. split; [reflexivity |]. split; [reflexivity |].
  apply (audio_before_start_null_stream_sid str_atom registry_abc env_full world_dialogue
           "abc123" settings_abc []
           [start_frame "MZ1"; media_in "SGVsbG8="; user_said "Hello";
            assistant_said "Hi there"; audio_delta "SGkgdGhlcmU="; OpenaiClosed]
           (JObj [("type", JStr "response.audio.delta"); ("delta", JStr "SGk=")])
           (JStr "SGk=") [72; 105] H eq_refl eq_refl).
  - constructor.
  - reflexivity.
  - reflexivity.
  - reflexivity.
Defined.

(** ** Call initiation *)

Section TelephonyFacts.

Import MoreExamples.

(** X1. [check_number_allowed] never raises and fails closed: it answers
    [True] exactly when the first lookup finds a record, or finds none and
    the second lookup finds one; a lookup that raises makes it answer
    [False].  The second lookup is made only when the first one found
    nothing. *)
Theorem check_number_allowed_fails_closed (tw : twilio_world) (to : string) :
  (exists b, fst (check_number_allowed tw to) = Ok b)
  /\ (fst (check_number_allowed tw to) = Ok true <->
      (exists n l, incoming_phone_numbers tw to = Ok (n :: l))
      \/ (incoming_phone_numbers tw to = Ok []
          /\ exists n l, outgoing_caller_ids tw to = Ok (n :: l)))
  /\ (In (OutgoingCallerIdsList to) (snd (check_number_allowed tw to)) <->
      incoming_phone_numbers tw to = Ok []).
Proof.
  unfold check_number_allowed, ttry, tbind, tcall, tret.
  destruct (incoming_phone_numbers tw to) as [[| n l] | e]; cbn.
  - destruct (outgoing_caller_ids tw to) as [[| n' l'] | e']; cbn.
    + split; [eauto |]. split.
      * split; [discriminate |].
        intros [(n & l & H) | (_ & n & l & H)]; discriminate.
      * split; auto.
    + split; [eauto |]. split.
      * split; [| reflexivity]. intros _. right. eauto.
      * split; auto.
    + split; [eauto |]. split.
      * split; [discriminate |].
        intros [(n & l & H) | (_ & n & l & H)]; discriminate.
      * split; auto.
  - split; [eauto |]. split.
    + split; [| reflexivity]. intros _. left. eauto.
    + split; [| discriminate]. intros [H | []]. discriminate.
  - split; [eauto |]. split.
    + split; [discriminate |].
      intros [(n & l & H) | (H & _)]; discriminate.
    + split; [| discriminate]. intros [H | []]. discriminate.
Qed.

Lemma check_number_allowed_fails_closed_witness :
  incoming_phone_numbers tw_lookup_down "+15550100" = Raise ConnectionError
  /\ outgoing_caller_ids tw_lookup_down "+15550100" = Ok ["PN01"%string]
  /\ fst (check_number_allowed tw_lookup_down "+15550100") = Ok false.
Proof.
  split; [reflexivity |]. split; [reflexivity |].
  destruct (check_number_allowed_fails_closed tw_lookup_down "+15550100")
    as ([b Hb] & Htrue & _).
  destruct b; [| exact Hb].
  apply Htrue in Hb. destruct Hb as [(n & l & H) | (H & _)]; discriminate H.
Defined.

(** X2. When the number is not allowed (unknown to the account, or a
    lookup failed), [make_call_custom] raises [ValueError] and asks the
    telephony service for nothing more: no call is created. *)
Theorem make_call_custom_refuses (tenv : telephony_env) (tw : twilio_world)
    (phone session_id : string) :
  fst (check_number_allowed tw phone) = Ok false ->
  fst (make_call_custom tenv tw phone session_id) = Raise ValueError
  /\ snd (make_call_custom tenv tw phone session_id)
     = snd (check_number_allowed tw phone)
  /\ forall from_ to twiml,
       ~ In (CallsCreate from_ to twiml) (snd (make_call_custom tenv tw phone session_id)).
Proof.
  intros Hcheck. unfold make_call_custom, tbind.
  destruct (check_number_allowed tw phone) as [r tr] eqn:E. cbn in Hcheck. subst r.
  cbn. rewrite app_nil_r. split; [reflexivity |]. split; [reflexivity |].
  intros from_ to twiml Hin.
  assert (Htr : tr = snd (check_number_allowed tw phone)) by (rewrite E; reflexivity).
  subst tr. clear E. revert Hin.
  unfold check_number_allowed, ttry, tbind, tcall, tret.
  destruct (incoming_phone_numbers tw phone) as [[| n l] | e]; cbn;
    [destruct (outgoing_caller_ids tw phone) as [[| n' l'] | e']; cbn | |];
    intuition discriminate.
Qed.

Lemma make_call_custom_refuses_witness :
  fst (check_number_allowed tw_unknown "+15550100") = Ok false
  /\ fst (make_call_custom tenv_example tw_unknown "+15550100" "abc123") = Raise ValueError.
Proof.
  split; [reflexivity |].
  apply (make_call_custom_refuses tenv_example tw_unknown "+15550100" "abc123").
  reflexivity.
Defined.

(** X3. When the number is allowed, [make_call_custom] creates exactly one
    call, from the configured number to the requested one, whose TwiML
    streams to the relay endpoint of the session; a failure of the call
    creation is raised to the caller. *)
Theorem make_call_custom_places_call (tenv : telephony_env) (tw : twilio_world)
    (phone session_id : string) :
  fst (check_number_allowed tw phone) = Ok true ->
  snd (make_call_custom tenv tw phone session_id)
  = snd (check_number_allowed tw phone)
    ++ [CallsCreate (PHONE_NUMBER_FROM tenv) phone
          ("<?xml version=" ++ DQ ++ "1.0" ++ DQ ++ " encoding=" ++ DQ ++ "UTF-8" ++ DQ
           ++ "?><Response><Connect><Stream url=" ++ DQ ++ "wss://" ++ DOMAIN tenv
           ++ "/media-stream/" ++ session_id ++ DQ ++ " /></Connect></Response>")%string]
  /\ fst (make_call_custom tenv tw phone session_id)
     = match calls_create tw phone (twiml_for tenv session_id) with
       | Ok _ => Ok tt
       | Raise e => Raise e
       end.
Proof.
  intros Hcheck. unfold make_call_custom, tbind, tcall, tret.
  destruct (check_number_allowed tw phone) as [r tr]. cbn in Hcheck. subst r.
  cbn [negb fst snd].
  destruct (calls_create tw phone (twiml_for tenv session_id)); cbn;
    rewrite ?app_nil_r; split; reflexivity.
Qed.

Lemma make_call_custom_places_call_witness :
  fst (check_number_allowed tw_verified "+15550100") = Ok true
  /\ fst (make_call_custom tenv_example tw_verified "+15550100" "abc123") = Ok tt.
Proof.
  split; [reflexivity |].
  apply (make_call_custom_places_call tenv_example tw_verified "+15550100" "abc123").
  reflexivity.
Defined.

End TelephonyFacts.

(** ** The shape of a call *)

Section ShapeFacts.

Variable py_str : json -> string.

(** From the creation of the tasks to the close of the model socket, in
    full: after what the pumps recorded come the marks of the tasks, the
    close of the model socket, and the cancellations it lets through. *)
Lemma drain_shape (w : world) (settings : Settings) :
  let st0 := streaming settings in
  let stp := snd (pumps py_str (arrivals w) st0) in
  exists c1 c2,
    trace (snd (drain py_str w st0)) = trace stp ++ c1 ++ OpenaiClose :: c2
    /\ forallb is_task_mark c1 = true
    /\ forallb is_task_cancelled c2 = true.
Proof.
  cbv zeta.
  destruct (pumps_run py_str (arrivals w) (streaming settings)) as [Hok [d Heff]].
  destruct Heff as (_ & _ & R3 & _).
  assert (Hstatus : forall t,
             status t (snd (pumps py_str (arrivals w) (streaming settings))) = Running
             \/ status t (snd (pumps py_str (arrivals w) (streaming settings))) = Done).
  { intros t. destruct (R3 t) as [E | (_ & E & _)]; [left | right; auto].
    rewrite E. destruct t; reflexivity. }
  unfold drain, asyncio_wait, openai_close.
  cbv beta iota delta [bind].
  destruct (pumps py_str (arrivals w) (streaming settings)) as [r stp] eqn:Epumps.
  cbn [fst snd] in *. subst r.
  destruct stp as [sid lines s1 s2 tr].
  destruct (Hstatus t1) as [E1 | E1]; destruct (Hstatus t2) as [E2 | E2];
    cbn in E1, E2; subst s1 s2;
    destruct (last_close w); destruct (close_yields w);
    cbn; rewrite <- ?app_assoc; cbn [app];
    match goal with
    | |- exists c1 c2, ?tr ++ ?x = ?tr ++ _ /\ _ =>
        let rec go pre l :=
          lazymatch l with
          | OpenaiClose :: ?rest =>
              exists pre, rest; (split; [reflexivity |]); split; reflexivity
          | ?a :: ?rest => go (pre ++ [a]) rest
          end in
        go (@nil action) x
    end.
Qed.

(** The trace of an accepted call. *)
Lemma media_stream_shape (STREAMS_SETTINGS : gmap string Settings) (env : environ)
    (w : world) (session_id : string) (settings : Settings) :
  STREAMS_SETTINGS !! session_id = Some settings ->
  handshake_ok w = true ->
  let stp := snd (pumps py_str (arrivals w) (streaming settings)) in
  exists d c1 c2,
    trace (snd (run_media_stream py_str STREAMS_SETTINGS env w session_id)) =
    (trace (streaming settings) ++ d ++ c1)
    ++ OpenaiClose :: c2 ++ post_trace env w settings (join LF (transcript stp))
    /\ forallb pump_action d = true
    /\ forallb is_task_mark c1 = true
    /\ forallb is_task_cancelled c2 = true
    /\ transcript (snd (run_media_stream py_str STREAMS_SETTINGS env w session_id))
       = transcript stp.
Proof.
  intros Hreg Hok. cbv zeta.
  destruct (media_stream_run py_str STREAMS_SETTINGS env w session_id settings Hreg Hok)
    as (_ & Htr & d & c & Heff & Htrace & _).
  destruct (drain_shape w settings) as (c1 & c2 & Hshape & H1 & H2).
  destruct (drain_run py_str w settings) as (_ & d' & c' & Heff' & Htrace' & _).
  destruct Heff as (Hd & Hpump & _). destruct Heff' as (Hd' & _).
  assert (d' = d) by (rewrite Hd in Hd'; apply app_inv_head in Hd'; auto).
  subst d'.
  assert (Hc : c' = c1 ++ OpenaiClose :: c2).
  { rewrite Htrace', Hd, <- app_assoc in Hshape.
    apply app_inv_head in Hshape. apply app_inv_head in Hshape. exact Hshape. }
  exists d, c1, c2.
  split; [| auto].
  rewrite Htrace.
  assert (Hcc : c = c').
  { rewrite (media_stream_stages py_str _ env w _ _ Hreg Hok) in Htrace.
    unfold bind in Htrace.
    destruct (drain py_str w (streaming settings)) as [[[] | e] st3] eqn:Edrain;
      cbn [snd] in *.
    - rewrite summarize_and_notify_run in Htrace. cbn [snd trace] in Htrace.
      rewrite Htrace' in Htrace.
      rewrite <- !app_assoc in Htrace.
      apply app_inv_head in Htrace. apply app_inv_head in Htrace.
      assert (Htr3 : transcript st3
                     = transcript (snd (pumps py_str (arrivals w) (streaming settings)))).
      { destruct (drain_run py_str w settings) as (_ & d2 & c2' & _ & _ & Ht & _).
        rewrite Edrain in Ht. exact Ht. }
      rewrite Htr3 in Htrace. apply app_inv_tail in Htrace. auto.
    - destruct (drain_run py_str w settings) as (Hf & _). rewrite Edrain in Hf.
      discriminate Hf. }
  rewrite Hcc, Hc, <- !app_assoc. reflexivity.
Qed.

End ShapeFacts.

(** ** What a call does and never does *)

Section OutcomeFacts.

Variable py_str : json -> string.

Import Examples.

Lemma count_none (f g : action -> bool) (l : list action) :
  (forall a, g a = true -> f a = false) ->
  forallb g l = true -> count f l = 0%nat.
Proof.
  intros Hfg. unfold count. induction l as [| a l IH]; cbn; [reflexivity |].
  intros H. apply andb_true_iff in H. destruct H as [Ha Hl].
  rewrite (Hfg a Ha). auto.
Qed.

Lemma count_post_trace (env : environ) (w : world) (settings : Settings)
    (conv : string) :
  count is_ws_close (post_trace env w settings conv) = 0%nat
  /\ count is_openai_close (post_trace env w settings conv) = 0%nat
  /\ existsb is_send (post_trace env w settings conv) = false
  /\ count is_sendgrid_request (post_trace env w settings conv)
     = (if configured env then 1 else 0)%nat
  /\ count is_llm_request (post_trace env w settings conv)
     = (if String.eqb (strip conv) "" then 0 else 1)%nat.
Proof.
  unfold post_trace.
  destruct (String.eqb (strip conv) ""); destruct (configured env); cbn; auto.
Qed.

(** [strip] leaves nothing exactly of a text of whitespace. *)
Lemma strip_blank (conv : string) : String.eqb (strip conv) "" = blank conv.
Proof.
  unfold strip, blank. induction conv as [| c rest IH]; [reflexivity |].
  cbn [lstrip list_ascii_of_string forallb].
  destruct (isspace c) eqn:Ec; [exact IH |].
  cbn [rstrip]. rewrite Ec.
  destruct (rstrip rest); reflexivity.
Qed.


(** X5. [media_stream] returns normally for every session id, registry and
    world: no frame that cannot be handled, no failure of the summarizer or
    of the mail service reaches its caller. *)
Theorem media_stream_never_raises (STREAMS_SETTINGS : gmap string Settings)
    (env : environ) (w : world) (session_id : string) :
  fst (run_media_stream py_str STREAMS_SETTINGS env w session_id) = Ok tt.
Proof.
  destruct (STREAMS_SETTINGS !! session_id) as [settings |] eqn:Hreg.
  2: { rewrite (media_stream_unregistered py_str _ env w _ Hreg). reflexivity. }
  destruct (handshake_ok w) eqn:Hok.
  2: { rewrite (media_stream_no_handshake py_str _ env w _ _ Hreg Hok). reflexivity. }
  apply (media_stream_run py_str _ env w _ _ Hreg Hok).
Qed.

(** The counts of an accepted call. *)
Lemma accepted_counts (STREAMS_SETTINGS : gmap string Settings) (env : environ)
    (w : world) (session_id : string) (settings : Settings) :
  STREAMS_SETTINGS !! session_id = Some settings ->
  handshake_ok w = true ->
  let run := run_media_stream py_str STREAMS_SETTINGS env w session_id in
  count is_summarize (trace (snd run)) = 1%nat
  /\ count is_notify (trace (snd run)) = 1%nat
  /\ count is_ws_close (trace (snd run)) = 0%nat
  /\ count is_openai_close (trace (snd run)) = 1%nat
  /\ count is_sendgrid_request (trace (snd run)) = (if configured env then 1 else 0)%nat
  /\ count is_llm_request (trace (snd run))
     = (if blank (join LF (transcript (snd run))) then 0 else 1)%nat.
Proof.
  intros Hreg Hok. cbv zeta.
  destruct (media_stream_shape py_str STREAMS_SETTINGS env w session_id settings Hreg Hok)
    as (d & c1 & c2 & -> & Hd & H1 & H2 & ->).
  set (conv := join LF (transcript (snd (pumps py_str (arrivals w) (streaming settings))))).
  destruct (quiet_post_trace env w settings conv) as (_ & _ & Hsum & Hnot).
  destruct (count_post_trace env w settings conv) as (Pw & Po & _ & Psg & Pllm).
  rewrite strip_blank in Pllm.
  assert (Hcount : forall f,
             (forall a, pump_action a = true -> f a = false) ->
             (forall a, is_task_mark a = true -> f a = false) ->
             (forall a, is_task_cancelled a = true -> f a = false) ->
             count f (trace (streaming settings)) = 0%nat ->
             count f ((trace (streaming settings) ++ d ++ c1)
                      ++ OpenaiClose :: c2 ++ post_trace env w settings conv)
             = ((if f OpenaiClose then 1 else 0)
                + count f (post_trace env w settings conv))%nat).
  { intros f Fd F1 F2 F0.
    change (OpenaiClose :: c2 ++ post_trace env w settings conv)
      with ([OpenaiClose] ++ c2 ++ post_trace env w settings conv).
    rewrite !count_app, F0.
    rewrite (count_none f _ d Fd Hd), (count_none f _ c1 F1 H1),
      (count_none f _ c2 F2 H2).
    unfold count at 1. cbn. destruct (f OpenaiClose); reflexivity. }
  repeat split.
  - rewrite Hcount, Hsum; try reflexivity; intros []; cbn; congruence.
  - rewrite Hcount, Hnot; try reflexivity; intros []; cbn; congruence.
  - rewrite Hcount, Pw; try reflexivity; intros []; cbn; congruence.
  - rewrite Hcount, Po; try reflexivity; intros []; cbn; congruence.
  - rewrite Hcount, Psg; try reflexivity; intros []; cbn; congruence.
  - rewrite Hcount, Pllm; try reflexivity; intros []; cbn; congruence.
Qed.

(** X6. Summarization and notification are each attempted exactly once
    when the call is accepted (the session is registered and the handshake
    with the model succeeds), and not at all otherwise. *)
Theorem summary_and_email_iff_accepted (STREAMS_SETTINGS : gmap string Settings)
    (env : environ) (w : world) (session_id : string) :
  let tr := trace (snd (run_media_stream py_str STREAMS_SETTINGS env w session_id)) in
  count is_summarize tr = (if accepted STREAMS_SETTINGS w session_id then 1 else 0)%nat
  /\ count is_notify tr = (if accepted STREAMS_SETTINGS w session_id then 1 else 0)%nat.
Proof.
  cbv zeta. unfold accepted.
  destruct (STREAMS_SETTINGS !! session_id) as [settings |] eqn:Hreg.
  2: { rewrite (media_stream_unregistered py_str _ env w _ Hreg). split; reflexivity. }
  destruct (handshake_ok w) eqn:Hok.
  2: { rewrite (media_stream_no_handshake py_str _ env w _ _ Hreg Hok).
       split; reflexivity. }
  destruct (accepted_counts STREAMS_SETTINGS env w session_id settings Hreg Hok)
    as (H1 & H2 & _).
  split; assumption.
Qed.

(** X7. The relay closes the inbound socket itself exactly when it refuses
    the call, once; for an accepted call it never does, and it closes the
    model socket exactly once. *)
Theorem sockets_closed_by_relay (STREAMS_SETTINGS : gmap string Settings)
    (env : environ) (w : world) (session_id : string) :
  let tr := trace (snd (run_media_stream py_str STREAMS_SETTINGS env w session_id)) in
  count is_ws_close tr = (if accepted STREAMS_SETTINGS w session_id then 0 else 1)%nat
  /\ count is_openai_close tr
     = (if accepted STREAMS_SETTINGS w session_id then 1 else 0)%nat.
Proof.
  cbv zeta. unfold accepted.
  destruct (STREAMS_SETTINGS !! session_id) as [settings |] eqn:Hreg.
  2: { rewrite (media_stream_unregistered py_str _ env w _ Hreg). split; reflexivity. }
  destruct (handshake_ok w) eqn:Hok.
  2: { rewrite (media_stream_no_handshake py_str _ env w _ _ Hreg Hok).
       split; reflexivity. }
  destruct (accepted_counts STREAMS_SETTINGS env w session_id settings Hreg Hok)
    as (_ & _ & H3 & H4 & _).
  split; assumption.
Qed.

(** X8. The mail service is asked at most once per call: exactly once when
    the call is accepted and the mail configuration is complete -- also
    when summarization failed or was skipped -- and never otherwise.  The
    summarizer is asked exactly once when the call is accepted and the
    transcript is not blank. *)
Theorem external_requests (STREAMS_SETTINGS : gmap string Settings)
    (env : environ) (w : world) (session_id : string) :
  let run := run_media_stream py_str STREAMS_SETTINGS env w session_id in
  count is_sendgrid_request (trace (snd run))
  = (if accepted STREAMS_SETTINGS w session_id && configured env then 1 else 0)%nat
  /\ count is_llm_request (trace (snd run))
     = (if accepted STREAMS_SETTINGS w session_id
           && negb (blank (join LF (transcript (snd run))))
        then 1 else 0)%nat.
Proof.
  cbv zeta. unfold accepted.
  destruct (STREAMS_SETTINGS !! session_id) as [settings |] eqn:Hreg.
  2: { rewrite (media_stream_unregistered py_str _ env w _ Hreg). split; reflexivity. }
  destruct (handshake_ok w) eqn:Hok.
  2: { rewrite (media_stream_no_handshake py_str _ env w _ _ Hreg Hok).
       split; reflexivity. }
  destruct (accepted_counts STREAMS_SETTINGS env w session_id settings Hreg Hok)
    as (_ & _ & _ & _ & H5 & H6).
  cbn [andb]. rewrite H5, H6.
  split; [reflexivity |].
  destruct (blank _); reflexivity.
Qed.

(** A trace with one action of a kind splits at that action only. *)
Lemma split_at_only (p : action -> bool) (A B pre post : list action) (x y : action) :
  forallb (fun a => negb (p a)) A = true ->
  forallb (fun a => negb (p a)) B = true ->
  p y = true ->
  A ++ x :: B = pre ++ y :: post ->
  post = B.
Proof.
  revert pre. induction A as [| a A IH]; intros pre HA HB Hy Hsplit.
  - destruct pre as [| z pre]; cbn in Hsplit.
    + injection Hsplit as _ <-. reflexivity.
    + injection Hsplit as _ ->. exfalso.
      rewrite forallb_app in HB. apply andb_true_iff in HB. destruct HB as [_ HB].
      cbn in HB. rewrite Hy in HB. discriminate.
  - cbn in HA. apply andb_true_iff in HA. destruct HA as [Ha HA].
    destruct pre as [| z pre]; cbn in Hsplit.
    + injection Hsplit as <- _. rewrite Hy in Ha. discriminate.
    + injection Hsplit as _ Hsplit. eapply IH; eauto.
Qed.

(** X9. Once the relay has closed the model socket, nothing more is sent
    on either socket. *)
Theorem nothing_sent_after_model_close (STREAMS_SETTINGS : gmap string Settings)
    (env : environ) (w : world) (session_id : string) (pre post : list action) :
  trace (snd (run_media_stream py_str STREAMS_SETTINGS env w session_id))
  = pre ++ OpenaiClose :: post ->
  existsb is_send post = false.
Proof.
  destruct (STREAMS_SETTINGS !! session_id) as [settings |] eqn:Hreg.
  2: { rewrite (media_stream_unregistered py_str _ env w _ Hreg). cbn [snd trace].
       intros H. exfalso.
       assert (Hin : In OpenaiClose [WsClose])
         by (rewrite H; apply in_or_app; right; left; reflexivity).
       cbn in Hin. intuition discriminate. }
  destruct (handshake_ok w) eqn:Hok.
  2: { rewrite (media_stream_no_handshake py_str _ env w _ _ Hreg Hok). cbn [snd trace].
       intros H. exfalso.
       assert (Hin : In OpenaiClose [WsAccept; OpenaiConnect; WsClose])
         by (rewrite H; apply in_or_app; right; left; reflexivity).
       cbn in Hin. intuition discriminate. }
  destruct (media_stream_shape py_str STREAMS_SETTINGS env w session_id settings Hreg Hok)
    as (d & c1 & c2 & -> & Hd & H1 & H2 & _).
  set (conv := join LF (transcript (snd (pumps py_str (arrivals w) (streaming settings))))).
  intros Hsplit.
  destruct (count_post_trace env w settings conv) as (_ & _ & Psend & _).
  assert (HP : forallb (fun a => negb (is_openai_close a)) (post_trace env w settings conv)
               = true).
  { unfold post_trace.
    destruct (String.eqb (strip conv) ""); destruct (configured env); reflexivity. }
  assert (Hpost : post = c2 ++ post_trace env w settings conv).
  { eapply (split_at_only is_openai_close); [| | | exact Hsplit].
    - rewrite !forallb_app.
      rewrite (forallb_impl _ pump_action (fun a => negb (is_openai_close a)) d
                 ltac:(intros []; cbn; congruence) Hd).
      rewrite (forallb_impl _ is_task_mark (fun a => negb (is_openai_close a)) c1
                 ltac:(intros []; cbn; congruence) H1).
      reflexivity.
    - rewrite forallb_app, HP.
      rewrite (forallb_impl _ is_task_cancelled (fun a => negb (is_openai_close a)) c2
                 ltac:(intros []; cbn; congruence) H2).
      reflexivity.
    - reflexivity. }
  rewrite Hpost, existsb_app, Psend, orb_false_r.
  clear -H2. induction c2 as [| a c2 IH]; [reflexivity |].
  cbn in H2. apply andb_true_iff in H2. destruct H2 as [Ha H2].
  cbn. rewrite (IH H2). destruct a; try discriminate; reflexivity.
Qed.


End OutcomeFacts.

(** ** Sessions *)

Section SessionIsolation.

Variable py_str : json -> string.

Import Examples MoreExamples.

(** X11. What the relay does for a session depends on the registry only
    through the entry of that session: requests for other sessions -- calls
    requested, relay connections -- change nothing of it. *)
Theorem sessions_isolated (env : environ) (STREAMS_SETTINGS : gmap string Settings)
    (rs : list request) (w : world) (session_id : string) :
  (forall req, ~ In (PostCallCustom req session_id) rs) ->
  run_media_stream py_str (serve py_str env STREAMS_SETTINGS rs) env w session_id
  = run_media_stream py_str STREAMS_SETTINGS env w session_id.
Proof.
  intros Hrs. unfold run_media_stream, media_stream.
  rewrite (serve_other py_str env rs session_id Hrs). reflexivity.
Qed.

(** X12. The session is registered, and the response promises the call,
    before the number is checked: when the number turns out not to be
    allowed, the background task raises [ValueError] and creates no call,
    yet the response was the usual one and the entry stays, so that a relay
    connection for the session is still accepted. *)
Theorem session_registered_before_number_check (tenv : telephony_env)
    (tw : twilio_world) (req : CallCustomRequest) (session_id : string)
    (STREAMS_SETTINGS : gmap string Settings) (w : world) :
  let out := call_custom_endpoint tenv tw req session_id STREAMS_SETTINGS in
  fst (check_number_allowed tw (phone_number req)) = Ok false ->
  fst (snd out) = Raise ValueError
  /\ fst (fst out)
     = {| response_message := ("Call initiated to " ++ phone_number req)%string;
          response_session_id := session_id |}
  /\ snd (fst out) !! session_id
     = Some {| settings_system_message := system_message req;
               settings_voice := voice req;
               settings_email := email req |}
  /\ accepted (snd (fst out)) w session_id = handshake_ok w.
Proof.
  cbv zeta. intros Hcheck. unfold call_custom_endpoint. cbn [fst snd].
  split.
  { unfold make_call_custom, tbind.
    destruct (check_number_allowed tw (phone_number req)) as [r tr].
    cbn in Hcheck. subst r. reflexivity. }
  split; [reflexivity |].
  assert (Hreg : call_custom req session_id STREAMS_SETTINGS !! session_id
                 = Some {| settings_system_message := system_message req;
                           settings_voice := voice req;
                           settings_email := email req |}).
  { unfold call_custom. apply lookup_insert_eq. }
  split; [exact Hreg |].
  unfold accepted. rewrite Hreg. reflexivity.
Qed.

End SessionIsolation.

(** ** Frames that end a pump, frames that are ignored *)

Section FrameOutcomes.

Variable py_str : json -> string.

Import Examples.

(** A frame on which [twilio_to_openai] raises forwards nothing. *)
Lemma twilio_frame_raise (raw : option json) (st : call_state) (e : exn) :
  fst (twilio_to_openai_frame raw st) = Raise e ->
  inbound_media (TwilioText raw) = [] /\ snd (twilio_to_openai_frame raw st) = st.
Proof.
  unfold twilio_to_openai_frame, inbound_media.
  cbv beta iota delta [bind lift set_stream_sid emit ret].
  destruct raw as [[| b | z | s | l | kvs] |]; cbn; auto.
  destruct (assoc "event" kvs) as [event |]; cbn; auto.
  destruct (eq_str event "start") eqn:Estart; cbn.
  - assert (Emedia : eq_str event "media" = false).
    { destruct event; try reflexivity. cbn in *.
      apply String.eqb_eq in Estart. subst s. reflexivity. }
    rewrite Emedia.
    destruct (assoc "start" kvs) as [start |]; cbn; auto.
    destruct (getitem start "streamSid"); cbn; auto. discriminate.
  - destruct (eq_str event "media"); cbn; [| discriminate].
    destruct (assoc "media" kvs) as [media |]; cbn; auto.
    destruct (getitem media "payload"); cbn; auto. discriminate.
Qed.

(** X13. The inbound pump does not survive a frame it cannot handle (text
    that is not JSON, a frame without [event], a [media] event without
    payload, ...): the task is done, and the frame and every later inbound
    frame forward nothing to the model. *)
Theorem inbound_pump_ends_at_bad_frame (raw : option json) (l : list arrival)
    (st : call_state) (e : exn) :
  status1 st = Running ->
  fst (twilio_to_openai_frame raw st) = Raise e ->
  let st' := snd (pumps py_str (TwilioText raw :: l) st) in
  status1 st' = Done
  /\ flat_map appended_audio (trace st') = flat_map appended_audio (trace st)
  /\ In (TaskDone t1) (trace st').
Proof.
  intros Hrun Hraise. cbv zeta.
  destruct (twilio_frame_raise raw st e Hraise) as [_ Hst].
  rewrite pumps_cons, pump_TwilioText, Hrun.
  destruct (twilio_to_openai_frame raw st) as [[[] | e'] st1] eqn:Eframe;
    cbn in Hraise; [discriminate |].
  cbn in Hst. subst st1. rewrite finish_eq. cbn [snd].
  match goal with
  | |- context [pumps py_str l ?s] =>
      destruct (pumps_run py_str l s)
        as [_ [d (R1 & _ & R3 & _ & _ & _ & _ & R8 & _)]]
  end.
  cbn [trace status1] in *. rewrite R1.
  split.
  - destruct (R3 t1) as [E | (E & _)]; cbn in E; [exact E | discriminate].
  - split.
    + rewrite !flat_map_app, R8 by discriminate. cbn. rewrite !app_nil_r. reflexivity.
    + apply in_or_app. left. apply in_or_app. right. left. reflexivity.
Qed.

(** A message on which [openai_to_twilio] raises adds no transcript line. *)
Lemma openai_frame_raise (raw : option json) (st : call_state) (e : exn) :
  fst (openai_to_twilio_frame py_str raw st) = Raise e ->
  completion_line_of py_str raw = [].
Proof.
  unfold openai_to_twilio_frame, completion_line_of.
  cbv beta iota delta [bind lift transcript_append get_stream_sid emit ret].
  destruct raw as [[| b | z | s | l | kvs] |]; cbn; auto.
  destruct (assoc "type" kvs) as [[| b | z | s | l | kvs'] |] eqn:Ety; cbn;
    try (destruct (assoc "transcript" kvs); reflexivity).
  destruct (String.eqb s "conversation.item.input_audio_transcription.completed") eqn:E1.
  { apply String.eqb_eq in E1. subst s. cbn.
    destruct (assoc "transcript" kvs) as [text |]; cbn; [| reflexivity].
    destruct (assoc "delta" kvs); cbn; discriminate. }
  destruct (String.eqb s "response.audio_transcript.done") eqn:E2.
  { apply String.eqb_eq in E2. subst s. cbn.
    destruct (assoc "transcript" kvs) as [text |]; cbn; [| reflexivity].
    destruct (assoc "delta" kvs); cbn; discriminate. }
  destruct (assoc "transcript" kvs); reflexivity.
Qed.

(** X14. The model pump does not survive a message it cannot handle (not
    JSON, a completion event without transcript, an audio delta that is not
    base64, ...): the task is done, and neither that message nor any later
    one adds a transcript line or sends audio to the telephony socket. *)
Theorem model_pump_ends_at_bad_message (raw : option json) (l : list arrival)
    (st : call_state) (e : exn) :
  status2 st = Running ->
  fst (openai_to_twilio_frame py_str raw st) = Raise e ->
  let st' := snd (pumps py_str (OpenaiMessage raw :: l) st) in
  status2 st' = Done
  /\ transcript st' = transcript st
  /\ flat_map media_payload (trace st') = flat_map media_payload (trace st).
Proof.
  intros Hrun Hraise. cbv zeta.
  pose proof (openai_frame_raise raw st e Hraise) as Hline.
  pose proof (openai_to_twilio_frame_spec py_str raw st) as Hspec. cbn zeta in Hspec.
  destruct Hspec as (_ & _ & _ & Htr & Htrace).
  rewrite pumps_cons, pump_OpenaiMessage, Hrun.
  destruct (openai_to_twilio_frame py_str raw st) as [[[] | e'] st1] eqn:Eframe;
    cbn in Hraise; [discriminate |].
  cbn [fst snd] in *. rewrite Hline, app_nil_r in Htr.
  rewrite finish_eq. cbn [snd].
  match goal with
  | |- context [pumps py_str l ?s] =>
      destruct (pumps_run py_str l s)
        as [_ [d (R1 & _ & R3 & _ & (lines & R5 & _ & R5n) & _ & _ & _ & R9)]]
  end.
  cbn [trace status2 transcript] in *.
  split.
  - destruct (R3 t2) as [E | (E & _)]; cbn in E; [exact E | discriminate].
  - split.
    + rewrite R5, R5n by discriminate. rewrite app_nil_r. exact Htr.
    + rewrite R1, !flat_map_app, R9 by discriminate. cbn.
      rewrite !app_nil_r, Htrace. reflexivity.
Qed.

(** A frame of a kind that no pump handles leaves the call as it is. *)
Lemma pump_ignored (a : arrival) (st : call_state) :
  ignored a = true -> pump py_str a st = (Ok tt, st).
Proof.
  destruct a as [[data |] | | [evt |] |]; try discriminate; cbn [ignored].
  - rewrite pump_TwilioText. intros H.
    destruct (status1 st); try reflexivity.
    unfold twilio_to_openai_frame.
    cbv beta iota delta [bind lift set_stream_sid emit ret json_loads].
    destruct (getitem data "event") as [event |]; [| discriminate].
    apply andb_true_iff in H. destruct H as [H1 H2].
    apply negb_true_iff in H1. apply negb_true_iff in H2.
    rewrite H1, H2. reflexivity.
  - rewrite pump_OpenaiMessage. intros H.
    destruct (status2 st); try reflexivity.
    unfold openai_to_twilio_frame.
    cbv beta iota delta [bind lift transcript_append get_stream_sid emit ret json_loads].
    destruct (get evt "type") as [ty |]; [| discriminate].
    destruct (get evt "delta") as [delta |]; [| discriminate].
    apply andb_true_iff in H. destruct H as [H H3].
    apply andb_true_iff in H. destruct H as [H1 H2].
    apply negb_true_iff in H1. apply negb_true_iff in H2.
    rewrite H1, H2.
    destruct (eq_str ty "response.audio.delta"); [| reflexivity].
    cbn in H3. apply negb_true_iff in H3. rewrite H3. reflexivity.
Qed.

Lemma pumps_without_ignored (l1 l2 : list arrival) (a : arrival) (st : call_state) :
  ignored a = true ->
  pumps py_str (l1 ++ a :: l2) st = pumps py_str (l1 ++ l2) st.
Proof.
  intros Ha. rewrite !pumps_app, pumps_cons, (pump_ignored a _ Ha). reflexivity.
Qed.

(** X15. Frames of a kind that no pump handles -- an inbound event other
    than [start] and [media] (the telephony [stop] event among them), a
    model message of another type, an audio delta without a delta -- are
    skipped: the call runs as if they had never arrived, and neither pump
    ends on them. *)
Theorem ignored_frames_change_nothing (STREAMS_SETTINGS : gmap string Settings)
    (env : environ) (w : world) (session_id : string)
    (l1 l2 : list arrival) (a : arrival) :
  ignored a = true ->
  arrivals w = l1 ++ a :: l2 ->
  run_media_stream py_str STREAMS_SETTINGS env w session_id
  = run_media_stream py_str STREAMS_SETTINGS env (with_arrivals w (l1 ++ l2)) session_id.
Proof.
  intros Ha Harr.
  destruct (STREAMS_SETTINGS !! session_id) as [settings |] eqn:Hreg.
  2: { rewrite !(media_stream_unregistered py_str _ env _ _ Hreg). reflexivity. }
  destruct (handshake_ok w) eqn:Hok.
  2: { rewrite (media_stream_no_handshake py_str _ env w _ _ Hreg Hok).
       rewrite (media_stream_no_handshake py_str _ env (with_arrivals w (l1 ++ l2))
                  _ _ Hreg Hok).
       reflexivity. }
  rewrite (media_stream_stages py_str _ env w _ _ Hreg Hok).
  rewrite (media_stream_stages py_str _ env (with_arrivals w (l1 ++ l2)) _ _ Hreg Hok).
  unfold drain, asyncio_wait. cbv beta iota delta [bind].
  cbn [arrivals with_arrivals last_close].
  rewrite Harr, (pumps_without_ignored l1 l2 a _ Ha).
  reflexivity.
Qed.

End FrameOutcomes.

(** ** The stream id and the two directions *)

Section DirectionFacts.

Variable py_str : json -> string.

Import Examples.

(** A [start] event sets the stream id, and nothing else. *)
Lemma pump_start (data sid : json) (st : call_state) :
  start_event_with data sid ->
  status1 st = Running ->
  pump py_str (TwilioText (Some data)) st =
  (Ok tt,
   {| stream_sid := sid; transcript := transcript st;
      status1 := status1 st; status2 := status2 st; trace := trace st |}).
Proof.
  intros (event & start & Hev & Hstart & Hst & Hsid) Hrun.
  rewrite pump_TwilioText, Hrun.
  unfold twilio_to_openai_frame.
  cbv beta iota delta [bind lift set_stream_sid emit ret json_loads].
  rewrite Hev, Hstart, Hst, Hsid, Hrun. reflexivity.
Qed.

(** X16. The stream id is the one of the latest [start] event: an audio
    delta of the model that arrives after a [start] event, with no other
    [start] event in between, is sent to the telephony socket under the
    [streamSid] of that event. *)
Theorem audio_tagged_with_latest_start (STREAMS_SETTINGS : gmap string Settings)
    (env : environ) (w : world) (session_id : string) (settings : Settings)
    (pre1 pre2 post : list arrival) (data sid evt delta : json) (chunk : list Z) :
  STREAMS_SETTINGS !! session_id = Some settings ->
  handshake_ok w = true ->
  arrivals w = pre1 ++ TwilioText (Some data) :: pre2 ++ OpenaiMessage (Some evt) :: post ->
  inbound_pump_runs_after py_str pre1 settings ->
  start_event_with data sid ->
  Forall (fun a => is_start a = false) pre2 ->
  model_pump_runs_after py_str (pre1 ++ TwilioText (Some data) :: pre2) settings ->
  audio_delta_of (Some evt) = [delta] ->
  b64decode delta = Ok chunk ->
  In (WsSendJson
        (JObj [("event", JStr "media");
               ("streamSid", sid);
               ("media", JObj [("payload", JStr (b64encode chunk))])]))
     (trace (snd (run_media_stream py_str STREAMS_SETTINGS env w session_id))).
Proof.
  intros Hreg Hok Harr Hrun1 Hstart Hpre2 Hrun2 Hdelta Hdec.
  destruct (media_stream_run py_str STREAMS_SETTINGS env w session_id settings Hreg Hok)
    as (_ & _ & d & c & Heff & Htrace & _).
  destruct Heff as (Hd & _).
  rewrite Htrace, app_assoc, <- Hd. apply in_or_app. left.
  assert (Harr' : arrivals w
                  = (pre1 ++ TwilioText (Some data) :: pre2)
                    ++ OpenaiMessage (Some evt) :: post).
  { rewrite Harr, <- app_assoc. reflexivity. }
  rewrite Harr', pumps_app, pumps_cons.
  unfold model_pump_runs_after in Hrun2. unfold inbound_pump_runs_after in Hrun1.
  set (sta := snd (pumps py_str (pre1 ++ TwilioText (Some data) :: pre2)
                     (streaming settings))) in *.
  assert (Hsid : stream_sid sta = sid).
  { unfold sta. rewrite pumps_app, pumps_cons.
    rewrite (pump_start data sid _ Hstart Hrun1). cbn [snd].
    match goal with
    | |- stream_sid (snd (pumps py_str pre2 ?s)) = _ =>
        destruct (pumps_run py_str pre2 s) as [_ [d2 (_ & _ & _ & _ & _ & R6 & _)]]
    end.
    rewrite (R6 Hpre2). reflexivity. }
  destruct (openai_to_twilio_frame_forwards py_str (Some evt) sta delta chunk Hdelta Hdec)
    as [Hsent Hret].
  rewrite Hsid in Hsent.
  assert (Hstep : trace (snd (pump py_str (OpenaiMessage (Some evt)) sta)) =
                  trace sta ++ [WsSendJson (media_frame sid (b64encode chunk))]).
  { rewrite pump_OpenaiMessage, Hrun2.
    destruct (openai_to_twilio_frame py_str (Some evt) sta) as [[[] | e'] st2];
      cbn in *; [exact Hsent | discriminate]. }
  destruct (pumps_run py_str post (snd (pump py_str (OpenaiMessage (Some evt)) sta)))
    as [_ [d3 (Hpost & _)]].
  rewrite Hpost, Hstep. apply in_or_app. left. apply in_or_app. right.
  left. reflexivity.
Qed.

(** Whether [openai_to_twilio] raises on a message does not depend on the
    state of the call. *)
Lemma openai_frame_result_indep (raw : option json) (st st' : call_state) :
  fst (openai_to_twilio_frame py_str raw st) = fst (openai_to_twilio_frame py_str raw st').
Proof.
  unfold openai_to_twilio_frame.
  cbv beta iota delta [bind lift transcript_append get_stream_sid emit ret].
  destruct raw as [[| b | z | s | l | kvs] |]; cbn; auto.
  destruct (assoc "type" kvs) as [[| b | z | s | l | kvs'] |] eqn:Ety; cbn; auto.
  destruct (String.eqb s "conversation.item.input_audio_transcription.completed") eqn:E1.
  { apply String.eqb_eq in E1. subst s. cbn.
    destruct (assoc "transcript" kvs) as [text |]; cbn; [| reflexivity].
    destruct (assoc "delta" kvs); reflexivity. }
  destruct (String.eqb s "response.audio_transcript.done") eqn:E2.
  { apply String.eqb_eq in E2. subst s. cbn.
    destruct (assoc "transcript" kvs) as [text |]; cbn; [| reflexivity].
    destruct (assoc "delta" kvs); reflexivity. }
  destruct (String.eqb s "response.audio.delta") eqn:E3; cbn; [| reflexivity].
  destruct (assoc "delta" kvs) as [delta |]; cbn; [| reflexivity].
  destruct (truthy delta); cbn; [| reflexivity].
  destruct (b64decode delta); reflexivity.
Qed.

(** What arrives on the telephony socket touches neither the transcript
    nor the model pump. *)
Lemma pump_inbound_transcript (a : arrival) (st : call_state) :
  from_model a = false ->
  transcript (snd (pump py_str a st)) = transcript st
  /\ status2 (snd (pump py_str a st)) = status2 st.
Proof.
  destruct a as [raw | | raw |]; try discriminate; intros _.
  - rewrite pump_TwilioText.
    destruct (twilio_to_openai_frame_spec raw st) as (Htr & _ & Hs2 & _).
    destruct (status1 st); auto.
    destruct (twilio_to_openai_frame raw st) as [[[] | e] st1]; cbn [snd] in *;
      rewrite ?finish_eq; cbn; auto.
  - cbn [pump]. rewrite pump_exhaust.
    destruct (status t1 st); rewrite ?finish_eq; cbn; auto.
Qed.

(** What arrives on the model socket does to the transcript and to the
    model pump what their current state decides. *)
Lemma pump_model_transcript (a : arrival) (st st' : call_state) :
  from_model a = true ->
  transcript st = transcript st' ->
  status2 st = status2 st' ->
  transcript (snd (pump py_str a st)) = transcript (snd (pump py_str a st'))
  /\ status2 (snd (pump py_str a st)) = status2 (snd (pump py_str a st')).
Proof.
  destruct a as [raw | | raw |]; try discriminate; intros _ Htr Hs.
  - rewrite !pump_OpenaiMessage, <- Hs.
    pose proof (openai_to_twilio_frame_spec py_str raw st) as H. cbn zeta in H.
    destruct H as (_ & _ & A2 & A3 & _).
    pose proof (openai_to_twilio_frame_spec py_str raw st') as H. cbn zeta in H.
    destruct H as (_ & _ & B2 & B3 & _).
    pose proof (openai_frame_result_indep raw st st') as Hres.
    destruct (status2 st) eqn:E2; cbn [snd]; try (split; [exact Htr | congruence]).
    destruct (openai_to_twilio_frame py_str raw st) as [[[] | e] st1];
      destruct (openai_to_twilio_frame py_str raw st') as [[[] | e'] st1'];
      cbn [fst snd] in *; try discriminate;
      rewrite ?finish_eq; cbn; rewrite ?A3, ?B3, ?Htr; split; congruence.
  - cbn [pump]. rewrite !pump_exhaust. cbn [status]. rewrite <- Hs.
    destruct (status2 st) eqn:E2; rewrite ?finish_eq; cbn;
      split; congruence.
Qed.

Lemma pumps_model_transcript (l : list arrival) :
  forall st st',
    transcript st = transcript st' ->
    status2 st = status2 st' ->
    transcript (snd (pumps py_str l st))
    = transcript (snd (pumps py_str (List.filter from_model l) st')).
Proof.
  induction l as [| a l IH]; intros st st' Htr Hs.
  - exact Htr.
  - rewrite pumps_cons. cbn [List.filter].
    destruct (from_model a) eqn:Ea.
    + rewrite pumps_cons.
      destruct (pump_model_transcript a st st' Ea Htr Hs) as [Htr' Hs'].
      apply IH; assumption.
    + destruct (pump_inbound_transcript a st Ea) as [Htr' Hs'].
      apply IH; congruence.
Qed.

(** X17. The transcript of a call, and with it the text that is summarized,
    depends on what arrived from the model only: with the telephony
    arrivals removed, the call ends with the same transcript. *)
Theorem transcript_independent_of_inbound (STREAMS_SETTINGS : gmap string Settings)
    (env : environ) (w : world) (session_id : string) :
  transcript (snd (run_media_stream py_str STREAMS_SETTINGS env w session_id))
  = transcript
      (snd (run_media_stream py_str STREAMS_SETTINGS env
              (with_arrivals w (List.filter from_model (arrivals w))) session_id)).
Proof.
  destruct (STREAMS_SETTINGS !! session_id) as [settings |] eqn:Hreg.
  2: { rewrite !(media_stream_unregistered py_str _ env _ _ Hreg). reflexivity. }
  destruct (handshake_ok w) eqn:Hok.
  2: { rewrite (media_stream_no_handshake py_str _ env w _ _ Hreg Hok).
       rewrite (media_stream_no_handshake py_str _ env
                  (with_arrivals w (List.filter from_model (arrivals w))) _ _ Hreg Hok).
       reflexivity. }
  destruct (media_stream_run py_str STREAMS_SETTINGS env w session_id settings Hreg Hok)
    as (_ & -> & _).
  destruct (media_stream_run py_str STREAMS_SETTINGS env
              (with_arrivals w (List.filter from_model (arrivals w)))
              session_id settings Hreg Hok) as (_ & -> & _).
  cbn [arrivals with_arrivals].
  apply pumps_model_transcript; reflexivity.
Qed.

End DirectionFacts.

(** ** The public domain name *)

Section DomainFacts.

Lemma list_ascii_of_string_app (s1 s2 : string) :
  list_ascii_of_string (s1 ++ s2)%string
  = list_ascii_of_string s1 ++ list_ascii_of_string s2.
Proof.
  induction s1 as [| c s1 IH]; [reflexivity |].
  change (c :: list_ascii_of_string (s1 ++ s2)%string
          = c :: (list_ascii_of_string s1 ++ list_ascii_of_string s2)).
  rewrite IH. reflexivity.
Qed.

Lemma at_end_inv (s : list ascii) : at_end s = true -> s = [] \/ s = [NEWLINE].
Proof.
  destruct s as [| c [| c' s]]; cbn; auto; [| discriminate].
  intros H. apply Ascii.eqb_eq in H. subst c. auto.
Qed.

Lemma sub_trailing_nil (s : list ascii) :
  sub_trailing s = [] -> s = [] \/ skip_slashes s = [].
Proof.
  destruct s as [| c rest]; [auto |].
  cbn [sub_trailing]. destruct (match_trailing (c :: rest)); [auto | discriminate].
Qed.

(** What the substitution leaves does not end with a slash. *)
Lemma sub_trailing_end (s : list ascii) :
  forall pre, sub_trailing s <> pre ++ [SLASH].
Proof.
  induction s as [| c rest IH]; intros pre.
  - destruct pre; discriminate.
  - cbn [sub_trailing].
    destruct (match_trailing (c :: rest)) eqn:Em.
    + unfold match_trailing in Em. apply andb_true_iff in Em. destruct Em as [_ Hend].
      destruct (at_end_inv _ Hend) as [-> | ->].
      * destruct pre; discriminate.
      * destruct pre as [| x [| y pre]]; discriminate.
    + destruct pre as [| x pre]; cbn.
      * intros H. injection H as -> Hrest.
        destruct (sub_trailing_nil rest Hrest) as [-> | Hskip].
        -- cbn in Em. discriminate.
        -- unfold match_trailing in Em. cbn in Em. rewrite Hskip in Em. discriminate.
      * intros H. injection H as _ Hrest. exact (IH pre Hrest).
Qed.

(** X18. Whatever the configured text, [DOMAIN] does not end with a slash,
    so the stream URL built from it has a single slash before
    [media-stream]. *)
Theorem domain_has_no_trailing_slash (raw_domain : string) :
  forallb is_ascii (list_ascii_of_string raw_domain) = true ->
  forall s, strip_domain raw_domain <> (s ++ "/")%string.
Proof.
  intros _ s H. unfold strip_domain in H.
  apply (f_equal list_ascii_of_string) in H.
  rewrite list_ascii_of_string_of_list_ascii, list_ascii_of_string_app in H.
  destruct (match_scheme (list_ascii_of_string raw_domain));
    exact (sub_trailing_end _ _ H).
Qed.

Lemma domain_has_no_trailing_slash_witness :
  forallb is_ascii (list_ascii_of_string "wss://example.com///") = true
  /\ strip_domain "wss://example.com///" <> ("example.com" ++ "/")%string.
Proof.
  split; [reflexivity |].
  apply (domain_has_no_trailing_slash "wss://example.com///"). reflexivity.
Defined.

Lemma skip_word_app (ls rest : list ascii) (x : ascii) :
  forallb isword ls = true -> isword x = false ->
  skip_word (ls ++ x :: rest) = x :: rest.
Proof.
  intros Hls Hx. induction ls as [| c ls IH]; cbn.
  - rewrite Hx. reflexivity.
  - cbn in Hls. apply andb_true_iff in Hls. destruct Hls as [Hc Hls].
    rewrite Hc. auto.
Qed.

Lemma skip_slashes_repeat (k : nat) : skip_slashes (repeat SLASH k) = [].
Proof. induction k as [| k IH]; cbn; auto. Qed.

Lemma sub_trailing_host (lh : list ascii) (k : nat) :
  forallb (fun c => negb (Ascii.eqb c SLASH)) lh = true ->
  sub_trailing (lh ++ repeat SLASH k) = lh.
Proof.
  intros Hlh. induction lh as [| c lh IH].
  - cbn [app]. destruct k as [| k]; [reflexivity |].
    cbn [repeat sub_trailing match_trailing].
    rewrite Ascii.eqb_refl. cbn [andb].
    change (SLASH :: repeat SLASH k) with (repeat SLASH (S k)).
    rewrite skip_slashes_repeat. reflexivity.
  - cbn in Hlh. apply andb_true_iff in Hlh. destruct Hlh as [Hc Hlh].
    apply negb_true_iff in Hc.
    cbn [app sub_trailing match_trailing]. rewrite Hc. cbn [andb].
    rewrite (IH Hlh). reflexivity.
Qed.

(** X19. From a URL -- a scheme of letters, digits and underscores, [://],
    a host without slash, any number of trailing slashes -- [DOMAIN] keeps
    exactly the host. *)
Theorem domain_of_url (scheme host : string) (k : nat) :
  scheme <> ""%string ->
  forallb isword (list_ascii_of_string scheme) = true ->
  forallb is_ascii (list_ascii_of_string host) = true ->
  forallb (fun c => negb (Ascii.eqb c SLASH)) (list_ascii_of_string host) = true ->
  strip_domain (scheme ++ "://" ++ host ++ string_of_list_ascii (repeat SLASH k))
  = host.
Proof.
  intros Hne Hscheme _ Hhost. unfold strip_domain.
  rewrite !list_ascii_of_string_app, list_ascii_of_string_of_list_ascii.
  change (list_ascii_of_string "://") with [COLON; SLASH; SLASH].
  destruct (list_ascii_of_string scheme) as [| c ls] eqn:Els.
  { exfalso. apply Hne. destruct scheme; [reflexivity | discriminate]. }
  assert (Hskip : skip_word ((c :: ls) ++ [COLON; SLASH; SLASH]
                                       ++ list_ascii_of_string host ++ repeat SLASH k)
                  = COLON :: SLASH :: SLASH :: list_ascii_of_string host ++ repeat SLASH k).
  { apply (skip_word_app (c :: ls)); [exact Hscheme | reflexivity]. }
  unfold match_scheme.
  cbn [app] in *.
  pose proof Hscheme as Hc. cbn in Hc. apply andb_true_iff in Hc. destruct Hc as [Hc _].
  rewrite Hc, Hskip. cbn [Ascii.eqb].
  replace (Ascii.eqb COLON COLON && Ascii.eqb SLASH SLASH && Ascii.eqb SLASH SLASH)
    with true by reflexivity.
  rewrite (sub_trailing_host _ k Hhost).
  apply string_of_list_ascii_of_string.
Qed.

Lemma domain_of_url_witness :
  "https"%string <> ""%string
  /\ forallb isword (list_ascii_of_string "https") = true
  /\ forallb is_ascii (list_ascii_of_string "example.com") = true
  /\ forallb (fun c => negb (Ascii.eqb c SLASH)) (list_ascii_of_string "example.com") = true
  /\ strip_domain "https://example.com//" = "example.com"%string.
Proof.
  split; [discriminate |]. split; [reflexivity |]. split; [reflexivity |].
  split; [reflexivity |].
  apply (domain_of_url "https" "example.com" 2); (discriminate || reflexivity).
Defined.

End DomainFacts.

(** ** The worked sessions *)

Import Examples MoreExamples.

Lemma sessions_isolated_witness :
  (forall req, ~ In (PostCallCustom req "zzz") history_abc)
  /\ run_media_stream str_atom (serve str_atom env_full ∅ history_abc) env_full
       world_silent "zzz"
     = run_media_stream str_atom ∅ env_full world_silent "zzz".
Proof.
  assert (H : forall req, ~ In (PostCallCustom req "zzz") history_abc).
  { intros req [H | [H | [H | []]]]; discriminate H. }
  split; [exact H |].
  apply (sessions_isolated str_atom env_full ∅ history_abc world_silent "zzz" H).
Defined.

Lemma session_registered_before_number_check_witness :
  fst (check_number_allowed tw_unknown (phone_number req_abc)) = Ok false
  /\ fst (snd (call_custom_endpoint tenv_example tw_unknown req_abc "abc123" ∅))
     = Raise ValueError
  /\ accepted (snd (fst (call_custom_endpoint tenv_example tw_unknown req_abc "abc123" ∅)))
       world_silent "abc123" = true.
Proof.
  split; [reflexivity |].
  destruct (session_registered_before_number_check tenv_example tw_unknown req_abc
              "abc123" ∅ world_silent eq_refl) as (H1 & _ & _ & H4).
  split; [exact H1 | exact H4].
Defined.

(** ** Nothing is dropped while a pump runs *)

Section Completeness.

Variable py_str : json -> string.

(** A pump that runs after the arrivals has handled all of them. *)
Lemma pumps_complete (l : list arrival) :
  forall st,
  exists d,
    trace (snd (pumps py_str l st)) = trace st ++ d
    /\ (status1 (snd (pumps py_str l st)) = Running ->
        flat_map appended_audio d = flat_map inbound_media l)
    /\ (status2 (snd (pumps py_str l st)) = Running ->
        transcript (snd (pumps py_str l st))
        = transcript st ++ flat_map (completion_line py_str) l
        /\ Forall2 same_audio (flat_map media_payload d) (flat_map model_audio l)).
Proof.
  induction l as [| a l IH]; intros st.
  - exists []. cbn. rewrite !app_nil_r. repeat split; constructor.
  - rewrite pumps_cons.
    destruct (pump_step py_str a st) as [_ [d1 Hstep]].
    set (st1 := snd (pump py_str a st)) in *.
    destruct (IH st1) as (d2 & Htrace & Hin & Hout).
    destruct (pumps_run py_str l st1) as [_ [d2' (_ & _ & R3 & _)]].
    destruct Hstep as (S1 & _ & S3 & S4 & S5 & _ & S7 & S8).
    assert (Hback : forall t, status t (snd (pumps py_str l st1)) = Running ->
                              status t st1 = Running /\ status t st = Running).
    { intros t Hr.
      assert (H1 : status t st1 = Running).
      { destruct (R3 t) as [E | (E & _)]; congruence. }
      split; [exact H1 |].
      destruct (S3 t) as [E | (_ & E & _)]; congruence. }
    exists (d1 ++ d2). split; [rewrite Htrace, S1, app_assoc; reflexivity |].
    split.
    + intros Hr. destruct (Hback t1 Hr) as [_ Hr0]. cbn in Hr0.
      rewrite flat_map_app, S4, Hr0, (Hin Hr). reflexivity.
    + intros Hr. destruct (Hback t2 Hr) as [Hr1 Hr0]. cbn in Hr1, Hr0.
      destruct (Hout Hr) as [Htr Hall].
      split.
      * rewrite Htr, S5, Hr0. cbn [is_running flat_map]. rewrite app_assoc. reflexivity.
      * rewrite flat_map_app. cbn [flat_map].
        destruct S7 as [Hnone | (delta & chunk & Hdelta & Hdec & ->)].
        -- rewrite Hnone, (S8 Hr0 Hr1 Hnone). exact Hall.
        -- rewrite Hdelta. cbn. constructor; [| exact Hall].
           exists chunk. split; [exact Hdec |].
           eapply b64decode_reencode. exact Hdec.
Qed.

(** X20. While the inbound pump runs nothing is dropped: when it still
    runs after the last arrival, the payload of every inbound [media]
    event, also those before any [start] event, has been appended to the
    model's buffer, in arrival order. *)
Theorem inbound_audio_all_forwarded (STREAMS_SETTINGS : gmap string Settings)
    (env : environ) (w : world) (session_id : string) (settings : Settings) :
  STREAMS_SETTINGS !! session_id = Some settings ->
  handshake_ok w = true ->
  inbound_pump_runs_after py_str (arrivals w) settings ->
  flat_map appended_audio
    (trace (snd (run_media_stream py_str STREAMS_SETTINGS env w session_id)))
  = flat_map inbound_media (arrivals w).
Proof.
  intros Hreg Hok Hrun.
  destruct (media_stream_run py_str STREAMS_SETTINGS env w session_id settings Hreg Hok)
    as (_ & _ & d & c & Heff & Htrace & Hc & _).
  destruct Heff as (Hd & _).
  destruct (pumps_complete (arrivals w) (streaming settings)) as (d' & Hd' & Hin & _).
  assert (d' = d) by (rewrite Hd in Hd'; apply app_inv_head in Hd'; auto). subst d'.
  destruct (quiet_teardown c Hc) as (C1 & _ & _).
  destruct (quiet_post_trace env w settings
              (join LF (transcript (snd (pumps py_str (arrivals w) (streaming settings))))))
    as (P1 & _).
  rewrite Htrace, !flat_map_app, C1, P1, !app_nil_r. cbn [streaming trace].
  exact (Hin Hrun).
Qed.

(** X21. While the model pump runs nothing is dropped: when it still runs
    after the last arrival, the transcript holds the line of every
    completion event, and every audio delta has been sent to the telephony
    socket, in arrival order, each decoding to the bytes of its delta. *)
Theorem model_events_all_handled (STREAMS_SETTINGS : gmap string Settings)
    (env : environ) (w : world) (session_id : string) (settings : Settings) :
  STREAMS_SETTINGS !! session_id = Some settings ->
  handshake_ok w = true ->
  model_pump_runs_after py_str (arrivals w) settings ->
  let run := run_media_stream py_str STREAMS_SETTINGS env w session_id in
  transcript (snd run) = flat_map (completion_line py_str) (arrivals w)
  /\ Forall2 same_audio (flat_map media_payload (trace (snd run)))
       (flat_map model_audio (arrivals w)).
Proof.
  intros Hreg Hok Hrun. cbv zeta.
  destruct (media_stream_run py_str STREAMS_SETTINGS env w session_id settings Hreg Hok)
    as (_ & Htr & d & c & Heff & Htrace & Hc & _).
  destruct Heff as (Hd & _).
  destruct (pumps_complete (arrivals w) (streaming settings)) as (d' & Hd' & _ & Hout).
  assert (d' = d) by (rewrite Hd in Hd'; apply app_inv_head in Hd'; auto). subst d'.
  destruct (Hout Hrun) as [Hlines Hall].
  destruct (quiet_teardown c Hc) as (_ & C2 & _).
  destruct (quiet_post_trace env w settings
              (join LF (transcript (snd (pumps py_str (arrivals w) (streaming settings))))))
    as (_ & P2 & _).
  split; [rewrite Htr; exact Hlines |].
  rewrite Htrace, !flat_map_app, C2, P2, !app_nil_r. cbn [streaming trace].
  exact Hall.
Qed.

(** X22. The stages of an accepted call come in this order: the model
    socket is closed, then the transcript is summarized, then the summary
    is mailed to the address of the session. *)
Theorem stages_in_order (STREAMS_SETTINGS : gmap string Settings)
    (env : environ) (w : world) (session_id : string) (settings : Settings) :
  STREAMS_SETTINGS !! session_id = Some settings ->
  handshake_ok w = true ->
  let run := run_media_stream py_str STREAMS_SETTINGS env w session_id in
  exists p1 p2 p3 p4 summary,
    trace (snd run)
    = p1 ++ OpenaiClose
         :: p2 ++ SummarizeConversation (join LF (transcript (snd run)))
         :: p3 ++ SendSummaryEmail (settings_email settings) summary
         :: p4.
Proof.
  intros Hreg Hok. cbv zeta.
  destruct (media_stream_shape py_str STREAMS_SETTINGS env w session_id settings Hreg Hok)
    as (d & c1 & c2 & -> & _ & _ & _ & ->).
  set (conv := join LF (transcript (snd (pumps py_str (arrivals w) (streaming settings))))).
  unfold post_trace.
  eexists _, c2, _, _, _. cbn [app]. reflexivity.
Qed.

End Completeness.

(** ** Worked calls *)

Import Examples.

Lemma inbound_audio_all_forwarded_witness :
  registry_abc !! "abc123" = Some settings_abc
  /\ handshake_ok world_dialogue = true
  /\ inbound_pump_runs_after str_atom (arrivals world_dialogue) settings_abc
  /\ flat_map appended_audio
       (trace (snd (run_media_stream str_atom registry_abc env_full world_dialogue
                      "abc123")))
     = [JStr "SGVsbG8="].
Proof.
  assert (H : registry_abc !! "abc123" = Some settings_abc) by (vm_compute; reflexivity).
  split; [exact H |]. split; [reflexivity |]. split; [reflexivity |].
  exact (inbound_audio_all_forwarded str_atom registry_abc env_full world_dialogue
           "abc123" settings_abc H eq_refl eq_refl).
Defined.

Lemma model_events_all_handled_witness :
  registry_abc !! "abc123" = Some settings_abc
  /\ handshake_ok MoreExamples.world_hangup = true
  /\ model_pump_runs_after str_atom (arrivals MoreExamples.world_hangup) settings_abc
  /\ transcript
       (snd (run_media_stream str_atom registry_abc env_full MoreExamples.world_hangup
               "abc123"))
     = flat_map (completion_line str_atom) (arrivals MoreExamples.world_hangup).
Proof.
  assert (H : registry_abc !! "abc123" = Some settings_abc) by (vm_compute; reflexivity).
  split; [exact H |]. split; [reflexivity |]. split; [reflexivity |].
  destruct (model_events_all_handled str_atom registry_abc env_full
              MoreExamples.world_hangup "abc123" settings_abc H eq_refl eq_refl)
    as [Hlines _].
  exact Hlines.
Defined.

Lemma stages_in_order_witness :
  registry_abc !! "abc123" = Some settings_abc
  /\ handshake_ok world_silent = true
  /\ exists p1 p2 p3 p4 summary,
       trace (snd (run_media_stream str_atom registry_abc env_full world_silent "abc123"))
       = p1 ++ OpenaiClose
            :: p2 ++ SummarizeConversation
                       (join LF (transcript (snd (run_media_stream str_atom registry_abc
                                                    env_full world_silent "abc123"))))
            :: p3 ++ SendSummaryEmail (settings_email settings_abc) summary
            :: p4.
Proof.
  assert (H : registry_abc !! "abc123" = Some settings_abc) by (vm_compute; reflexivity).
  split; [exact H |]. split; [reflexivity |].
  exact (stages_in_order str_atom registry_abc env_full world_silent "abc123"
           settings_abc H eq_refl).
Defined.

Lemma nothing_sent_after_model_close_witness :
  trace (snd (run_media_stream str_atom registry_abc env_full world_dialogue "abc123"))
  = firstn 12 (trace (snd (run_media_stream str_atom registry_abc env_full
                             world_dialogue "abc123")))
    ++ OpenaiClose
       :: skipn 13 (trace (snd (run_media_stream str_atom registry_abc env_full
                                  world_dialogue "abc123")))
  /\ existsb is_send
       (skipn 13 (trace (snd (run_media_stream str_atom registry_abc env_full
                                world_dialogue "abc123")))) = false.
Proof.
  assert (H : trace (snd (run_media_stream str_atom registry_abc env_full
                            world_dialogue "abc123"))
              = firstn 12 (trace (snd (run_media_stream str_atom registry_abc env_full
                                         world_dialogue "abc123")))
                ++ OpenaiClose
                   :: skipn 13 (trace (snd (run_media_stream str_atom registry_abc
                                              env_full world_dialogue "abc123"))))
    by (vm_compute; reflexivity).
  split; [exact H |].
  exact (nothing_sent_after_model_close str_atom registry_abc env_full world_dialogue "abc123"
           _ _ H).
Defined.


Lemma inbound_pump_ends_at_bad_frame_witness :
  status1 (streaming settings_abc) = Running
  /\ fst (twilio_to_openai_frame None (streaming settings_abc)) = Raise JSONDecodeError
  /\ flat_map appended_audio
       (trace (snd (pumps str_atom [TwilioText None; media_in "SGVsbG8="]
                      (streaming settings_abc))))
     = flat_map appended_audio (trace (streaming settings_abc)).
Proof.
  split; [reflexivity |]. split; [reflexivity |].
  apply (inbound_pump_ends_at_bad_frame str_atom None [media_in "SGVsbG8="]
           (streaming settings_abc) JSONDecodeError); reflexivity.
Defined.

Lemma model_pump_ends_at_bad_message_witness :
  status2 (streaming settings_abc) = Running
  /\ fst (openai_to_twilio_frame str_atom
            (Some (JObj [("type", JStr "response.audio.delta"); ("delta", JStr "Q")]))
            (streaming settings_abc)) = Raise BinasciiError
  /\ transcript
       (snd (pumps str_atom [audio_delta "Q"; user_said "Hello"] (streaming settings_abc)))
     = transcript (streaming settings_abc).
Proof.
  split; [reflexivity |]. split; [reflexivity |].
  apply (model_pump_ends_at_bad_message str_atom
           (Some (JObj [("type", JStr "response.audio.delta"); ("delta", JStr "Q")]))
           [user_said "Hello"] (streaming settings_abc) BinasciiError); reflexivity.
Defined.

Lemma ignored_frames_change_nothing_witness :
  ignored MoreExamples.stop_frame = true
  /\ arrivals MoreExamples.world_stop
     = [start_frame "MZ1"] ++ MoreExamples.stop_frame
       :: [media_in "SGVsbG8="; TwilioDisconnect]
  /\ run_media_stream str_atom registry_abc env_full MoreExamples.world_stop "abc123"
     = run_media_stream str_atom registry_abc env_full
         (with_arrivals MoreExamples.world_stop
            ([start_frame "MZ1"] ++ [media_in "SGVsbG8="; TwilioDisconnect]))
         "abc123".
Proof.
  split; [reflexivity |]. split; [reflexivity |].
  exact (ignored_frames_change_nothing str_atom registry_abc env_full MoreExamples.world_stop
           "abc123" [start_frame "MZ1"] [media_in "SGVsbG8="; TwilioDisconnect]
           MoreExamples.stop_frame eq_refl eq_refl).
Defined.

Lemma audio_tagged_with_latest_start_witness :
  registry_abc !! "abc123" = Some settings_abc
  /\ handshake_ok world_dialogue = true
  /\ b64decode (JStr "SGkgdGhlcmU=") = Ok [72; 105; 32; 116; 104; 101; 114; 101]
  /\ In (WsSendJson
           (JObj [("event", JStr "media");
                  ("streamSid", JStr "MZ1");
                  ("media",
                   JObj [("payload",
                          JStr (b64encode [72; 105; 32; 116; 104; 101; 114; 101]))])]))
        (trace (snd (run_media_stream str_atom registry_abc env_full world_dialogue
                       "abc123"))).
Proof.
  assert (H : registry_abc !! "abc123" = Some settings_abc) by (vm_compute; reflexivity).
  split; [exact H |]. split; [reflexivity |]. split; [reflexivity |].
  apply (audio_tagged_with_latest_start str_atom registry_abc env_full world_dialogue
           "abc123" settings_abc
           [audio_delta "SGk="]
           [media_in "SGVsbG8="; user_said "Hello"; assistant_said "Hi there"]
           [OpenaiClosed]
           (JObj [("event", JStr "start"); ("start", JObj [("streamSid", JStr "MZ1")])])
           (JStr "MZ1")
           (JObj [("type", JStr "response.audio.delta"); ("delta", JStr "SGkgdGhlcmU=")])
           (JStr "SGkgdGhlcmU=") [72; 105; 32; 116; 104; 101; 114; 101] H eq_refl eq_refl).
  - reflexivity.
  - exists (JStr "start"), (JObj [("streamSid", JStr "MZ1")]). repeat split.
  - repeat constructor.
  - reflexivity.
  - reflexivity.
  - reflexivity.
Defined.
